(** * Mumma Tiffin: access control and order lifecycle of [index.js]

    A shallow embedding of the Express handlers of [src/index.js] that
    govern authentication, the public menu, order creation, the admin order
    listing and the admin status update, with the SQLite tables they use
    modelled as lists of rows.

    Conventions.
    - A JavaScript string and a SQLite TEXT value are both a [string], read
      as the bytes of the UTF-8 encoding. [===] on two well-formed strings
      and SQLite's BINARY collation agree with equality and with the
      byte-wise order of that encoding.
    - A JavaScript number is a [Number]: a dyadic rational [m * 2^e], an
      infinity or NaN, which covers every IEEE double (the two zeros are
      identified: no operation of the handlers tells them apart).
    - Library calls whose outcome is decided outside the repository
      (bcrypt, jsonwebtoken, JSON, number printing, SQLite's text/number
      conversions, the reading of a text by [==]) are section variables:
      every theorem holds for whatever
      these functions compute. A reference instance for each is given at
      the end of the definitions and used for the concrete runs. *)

From Stdlib Require Import String Ascii ZArith List Bool Lia Permutation Sorted
  DecimalString OrderedTypeEx.
Import ListNotations.
Local Open Scope string_scope.
Local Open Scope Z_scope.

Set Implicit Arguments.
Set Warnings "-register-all".

(* ===================================================================== *)
(** ** JavaScript values *)
(* ===================================================================== *)

Module JS.

(** A double: [NFinite m e] is [m * 2^e]. *)
Inductive Number : Type :=
| NFinite (m e : Z)
| NInfinity (negative : bool)
| NNaN.

Definition of_Z (z : Z) : Number := NFinite z 0.

(** The integer a number denotes, when it denotes one. *)
Definition int_value (n : Number) : option Z :=
  match n with
  | NFinite m e =>
      if 0 <=? e then Some (m * 2 ^ e)
      else if m mod 2 ^ (- e) =? 0 then Some (m / 2 ^ (- e)) else None
  | _ => None
  end.

Inductive Value : Type :=
| JUndefined
| JNull
| JBool (b : bool)
| JNum (n : Number)
| JStr (s : string)
| JArr (xs : list Value)
| JObj (fields : list (string * Value)).

(** ToBoolean: the falsy values are [undefined], [null], [false], [0],
    [NaN] and the empty string. Arrays and objects are truthy, also when
    empty. *)
Definition truthy (v : Value) : bool :=
  match v with
  | JUndefined | JNull => false
  | JBool b => b
  | JNum (NFinite m _) => negb (m =? 0)
  | JNum (NInfinity _) => true
  | JNum NNaN => false
  | JStr s => negb (s =? "")%string
  | JArr _ | JObj _ => true
  end.

(** [a || b] and [c ? a : b] on values. *)
Definition or_else (a b : Value) : Value := if truthy a then a else b.

(** [typeof v]. *)
Definition typeof (v : Value) : string :=
  match v with
  | JUndefined => "undefined"
  | JNull => "object"
  | JBool _ => "boolean"
  | JNum _ => "number"
  | JStr _ => "string"
  | JArr _ | JObj _ => "object"
  end.

(** [v === s] for a string [s]: only the same string is strictly equal. *)
Definition strict_eq_string (v : Value) (s : string) : bool :=
  match v with
  | JStr t => (t =? s)%string
  | _ => false
  end.

(** Own property lookup in an object literal or a parsed object. *)
Fixpoint lookup (k : string) (fields : list (string * Value)) : Value :=
  match fields with
  | [] => JUndefined
  | (k', v) :: rest => if (k' =? k)%string then v else lookup k rest
  end.

(** What evaluating an expression gives: a value, or a thrown error whose
    [String(err)] is the carried text. *)
Inductive Result (A : Type) : Type :=
| Ok (a : A)
| Throw (err : string).
Arguments Throw {A} err.

Definition bind {A B} (r : Result A) (k : A -> Result B) : Result B :=
  match r with
  | Ok a => k a
  | Throw e => Throw e
  end.

(** [v.k], and one field of a destructuring pattern [const { k } = v].
    Reading a property of [undefined] or [null] throws a TypeError. The
    names the handlers read ([items], [address], [city], [status], [email],
    [password], [role], [id], ...) are neither array indices nor [length]
    nor inherited members, so on arrays and primitives the read gives
    [undefined]. *)
Definition get (v : Value) (k : string) : Result Value :=
  match v with
  | JUndefined => Throw ("TypeError: Cannot read properties of undefined (reading '" ++ k ++ "')")
  | JNull => Throw ("TypeError: Cannot read properties of null (reading '" ++ k ++ "')")
  | JObj fields => Ok (lookup k fields)
  | _ => Ok JUndefined
  end.

Definition Z_to_string (z : Z) : string := NilZero.string_of_int (Z.to_int z).

Section ToString.

(** [Number.prototype.toString], the shortest round-trip decimal. *)
Variable Number_toString : Number -> string.

(** Whether the object literal has an own property named [k]. *)
Definition has_own (k : string) (fields : list (string * Value)) : bool :=
  existsb (fun kv => (fst kv =? k)%string) fields.

(** ToString, as a template literal applies it. An array joins its
    elements with commas, [null] and [undefined] elements as the empty
    string. A plain object prints as [[object Object]] through the
    inherited [toString]; when it has an own [toString] property, which in
    a parsed body is never a function, neither that nor [valueOf] yields a
    primitive and the conversion throws. *)
Fixpoint ToString (v : Value) : Result string :=
  match v with
  | JUndefined => Ok "undefined"
  | JNull => Ok "null"
  | JBool true => Ok "true"
  | JBool false => Ok "false"
  | JNum n => Ok (Number_toString n)
  | JStr s => Ok s
  | JArr xs =>
      let fix join_parts (l : list Value) : Result (list string) :=
        match l with
        | [] => Ok []
        | x :: rest =>
            match match x with
                  | JUndefined | JNull => Ok ""
                  | _ => ToString x
                  end with
            | Throw e => Throw e
            | Ok p =>
                match join_parts rest with
                | Throw e => Throw e
                | Ok ps => Ok (p :: ps)
                end
            end
        end in
      match join_parts xs with
      | Throw e => Throw e
      | Ok parts => Ok (String.concat "," parts)
      end
  | JObj fields =>
      if has_own "toString" fields
      then Throw "TypeError: Cannot convert object to primitive value"
      else Ok "[object Object]"
  end.

End ToString.

End JS.

Import JS.
Notation "x <- r ;; k" := (JS.bind r (fun x => k))
  (at level 61, r at next level, right associativity).

(* ===================================================================== *)
(** ** Strings: [split], [join], ASCII case folding *)
(* ===================================================================== *)

Module Str.

(** [s.split(c)] for a one-character separator: the pieces between the
    occurrences of [c], empty pieces included. *)
Fixpoint split_on (c : ascii) (s : string) : list string :=
  match s with
  | EmptyString => [EmptyString]
  | String a rest =>
      if (a =? c)%char then EmptyString :: split_on c rest
      else match split_on c rest with
           | [] => [String a EmptyString]
           | p :: ps => String a p :: ps
           end
  end.

Definition is_upper (a : ascii) : bool :=
  let n := N_of_ascii a in (65 <=? n)%N && (n <=? 90)%N.

(** ASCII lower-casing, as SQLite folds identifiers. *)
Definition lower_char (a : ascii) : ascii :=
  if is_upper a then ascii_of_N (N_of_ascii a + 32) else a.

Fixpoint lower (s : string) : string :=
  match s with
  | EmptyString => EmptyString
  | String a rest => String (lower_char a) (lower rest)
  end.

(** [strip_prefix p s] is the rest of [s] after [p], when [s] starts with
    [p]. *)
Fixpoint strip_prefix (p s : string) : option string :=
  match p, s with
  | EmptyString, _ => Some s
  | String a p', String b s' => if (a =? b)%char then strip_prefix p' s' else None
  | String _ _, EmptyString => None
  end.

(** [strip_suffix q s] is [s] without its ending [q], when [s] ends with
    [q]. *)
Definition strip_suffix (q s : string) : option string :=
  let n := String.length s in
  let k := String.length q in
  if (k <=? n)%nat && (substring (n - k) k s =? q)%string
  then Some (substring 0 (n - k) s)
  else None.

(** The pieces of [s] between the occurrences of [", "]. *)
Fixpoint split_comma_space (s : string) : list string :=
  match s with
  | EmptyString => [EmptyString]
  | String a rest =>
      let continue :=
        match split_comma_space rest with
        | [] => [String a EmptyString]
        | p :: ps => String a p :: ps
        end in
      if (a =? ",")%char then
        match rest with
        | String b rest' =>
            if (b =? " ")%char then EmptyString :: split_comma_space rest'
            else continue
        | EmptyString => continue
        end
      else continue
  end.

Definition is_letter (a : ascii) : bool :=
  let n := N_of_ascii a in
  ((65 <=? n)%N && (n <=? 90)%N) || ((97 <=? n)%N && (n <=? 122)%N).

Definition is_digit (a : ascii) : bool :=
  let n := N_of_ascii a in (48 <=? n)%N && (n <=? 57)%N.

Fixpoint forall_chars (f : ascii -> bool) (s : string) : bool :=
  match s with
  | EmptyString => true
  | String a rest => f a && forall_chars f rest
  end.

(** A non-empty run of decimal digits. *)
Definition all_digits (s : string) : bool :=
  match s with
  | EmptyString => false
  | String _ _ => forall_chars is_digit s
  end.

(** The number a run of decimal digits denotes, after [acc]. *)
Fixpoint digits_value (acc : Z) (s : string) : Z :=
  match s with
  | EmptyString => acc
  | String a rest => digits_value (10 * acc + (Z.of_N (N_of_ascii a) - 48)) rest
  end.

(** The one-character string of a double quote. *)
Definition dquote : string := String (ascii_of_N 34) EmptyString.

Fixpoint contains_char (c : ascii) (s : string) : bool :=
  match s with
  | EmptyString => false
  | String a rest => (a =? c)%char || contains_char c rest
  end.

(** All of [l], when [f] succeeds on each element. *)
Fixpoint map_option {A B} (f : A -> option B) (l : list A) : option (list B) :=
  match l with
  | [] => Some []
  | x :: rest =>
      match f x, map_option f rest with
      | Some y, Some ys => Some (y :: ys)
      | _, _ => None
      end
  end.

End Str.

(* ===================================================================== *)
(** ** The SQLite driver and engine, as far as the handlers see them *)
(* ===================================================================== *)

Module Sqlite.

(** A value bound to a [?] placeholder by the driver. *)
Inductive Bound : Type :=
| BNull
| BNum (n : Number)
| BText (s : string).

Section Engine.

(** The text SQLite stores when a number goes into a TEXT column. *)
Variable sqlite_text_of_number : Number -> string.
(** The integer a text converts to under INTEGER affinity; [None] when
    the text is not the literal of an integer. *)
Variable sqlite_int_of_text : string -> option Z.

(** The driver's binding of a JavaScript parameter: strings as text,
    numbers as numbers, booleans as 1 and 0, [null] as NULL, an
    [undefined] parameter is left unbound, which reads as NULL, and any
    other object, arrays included, is bound as the text
    [[object Object]]. *)
Definition bind_param (v : Value) : Bound :=
  match v with
  | JUndefined | JNull => BNull
  | JBool b => BNum (of_Z (if b then 1 else 0))
  | JNum n => BNum n
  | JStr s => BText s
  | JArr _ | JObj _ => BText "[object Object]"
  end.

(** [col = ?] for an INTEGER column holding [z]. NULL equals nothing; a
    text operand is converted to a number first. *)
Definition int_col_eq (z : Z) (b : Bound) : bool :=
  match b with
  | BNull => false
  | BNum n => match int_value n with Some z' => z =? z' | None => false end
  | BText s => match sqlite_int_of_text s with Some z' => z =? z' | None => false end
  end.

(** The value a TEXT column takes from a bound parameter. *)
Definition text_of_bound (b : Bound) : option string :=
  match b with
  | BNull => None
  | BNum n => Some (sqlite_text_of_number n)
  | BText s => Some s
  end.

(** [col = ?] for a TEXT column: NULL equals nothing, and a numeric
    operand is compared as its text. *)
Definition text_col_eq (c : option string) (b : Bound) : bool :=
  match c, text_of_bound b with
  | Some s, Some t => (s =? t)%string
  | _, _ => false
  end.

(** The value an INTEGER column takes from a bound parameter, for the
    parameters that leave an integer or NULL there. The outer [None] marks
    a parameter whose stored form is no integer (a fraction, a text that is
    no integer literal). *)
Definition int_of_bound (b : Bound) : option (option Z) :=
  match b with
  | BNull => Some None
  | BNum n => match int_value n with Some z => Some (Some z) | None => None end
  | BText s => match sqlite_int_of_text s with Some z => Some (Some z) | None => None end
  end.

(** What a column of INTEGER affinity holds once a bound parameter has
    been stored there: NULL, an integer, or, when the parameter converts to
    no integer, the parameter as it was bound (a fraction stays a REAL; a
    text that is no integer literal stays a TEXT, or becomes a REAL when it
    reads as a fraction). *)
Inductive IntCell : Type :=
| INull
| IInt (z : Z)
| IKept (b : Bound).

Definition int_cell_of_bound (b : Bound) : IntCell :=
  match int_of_bound b with
  | Some None => INull
  | Some (Some z) => IInt z
  | None => IKept b
  end.

End Engine.

End Sqlite.

Import Sqlite.

(* ===================================================================== *)
(** ** Tables ([initDb]) *)
(* ===================================================================== *)

(** TEXT columns read by the handlers hold a text or NULL ([None]), the
    integer keys an integer. The INTEGER columns of the menu, which an
    UPDATE can hand any value, hold an [IntCell]. Columns the handlers only
    write keep the parameter the INSERT or UPDATE bound. *)

(** [users (id, email UNIQUE, password_hash, name, created_at)] *)
Record UserRow : Type := {
  u_id : Z;
  u_email : option string;
  u_password_hash : option string;
  u_name : option string;
  u_created_at : option string
}.

(** [admins (id, email UNIQUE, password_hash, name, city, created_at)] *)
Record AdminRow : Type := {
  a_id : Z;
  a_email : option string;
  a_password_hash : option string;
  a_name : option string;
  a_city : option string;
  a_created_at : option string
}.

(** [menu (id TEXT PRIMARY KEY, meal, name_en, name_hi, price INTEGER,
    description_en, description_hi, city, available_from, available_to,
    active INTEGER DEFAULT 1)] *)
Record MenuRow : Type := {
  m_id : option string;
  m_meal : option string;
  m_name_en : option string;
  m_name_hi : option string;
  m_price : IntCell;
  m_description_en : option string;
  m_description_hi : option string;
  m_city : option string;
  m_available_from : option string;
  m_available_to : option string;
  m_active : IntCell
}.

(** [notifications (id, text, created_at, target_city)] *)
Record NotificationRow : Type := {
  n_id : Z;
  n_text : string;
  n_created_at : string;
  n_target_city : Bound
}.

(** [orders (id, user_id REFERENCES users(id), total, info, status,
    created_at)] *)
Record OrderRow : Type := {
  o_id : Z;
  o_user_id : Bound;
  o_total : Bound;
  o_info : option string;
  o_status : Bound;
  o_created_at : option string
}.

(** The database file. [seq_orders] and [seq_notifications] are the
    AUTOINCREMENT counters of [sqlite_sequence]: the largest row id each
    table ever used. *)
Record Db : Type := {
  users : list UserRow;
  admins : list AdminRow;
  menu : list MenuRow;
  notifications : list NotificationRow;
  orders : list OrderRow;
  seq_notifications : Z;
  seq_orders : Z
}.

(** The menu's columns, as an UPDATE names them. *)
Inductive MenuColumn : Type :=
| Cid | Cmeal | Cname_en | Cname_hi | Cprice | Cdescription_en
| Cdescription_hi | Ccity | Cavailable_from | Cavailable_to | Cactive.

Definition menu_column_names : list (string * MenuColumn) :=
  [("id", Cid); ("meal", Cmeal); ("name_en", Cname_en); ("name_hi", Cname_hi);
   ("price", Cprice); ("description_en", Cdescription_en);
   ("description_hi", Cdescription_hi); ("city", Ccity);
   ("available_from", Cavailable_from); ("available_to", Cavailable_to);
   ("active", Cactive)].

Fixpoint assoc {A} (k : string) (l : list (string * A)) : option A :=
  match l with
  | [] => None
  | (k', a) :: rest => if (k' =? k)%string then Some a else assoc k rest
  end.

(** SQLite resolves a column name without regard to ASCII case. *)
Definition menu_column_of_name (name : string) : option MenuColumn :=
  assoc (Str.lower name) menu_column_names.

(** The words SQLite's tokenizer reserves (its keyword list, with the
    names of the hidden row id and the boolean literals added), in lower
    case. *)
Definition sql_reserved : list string :=
  ["abort"; "action"; "add"; "after"; "all"; "alter"; "always"; "analyze";
   "and"; "as"; "asc"; "attach"; "autoincrement"; "before"; "begin";
   "between"; "by"; "cascade"; "case"; "cast"; "check"; "collate"; "column";
   "commit"; "conflict"; "constraint"; "create"; "cross"; "current";
   "current_date"; "current_time"; "current_timestamp"; "database";
   "default"; "deferrable"; "deferred"; "delete"; "desc"; "detach";
   "distinct"; "do"; "drop"; "each"; "else"; "end"; "escape"; "except";
   "exclude"; "exclusive"; "exists"; "explain"; "fail"; "filter"; "first";
   "following"; "for"; "foreign"; "from"; "full"; "generated"; "glob";
   "group"; "groups"; "having"; "if"; "ignore"; "immediate"; "in"; "index";
   "indexed"; "initially"; "inner"; "insert"; "instead"; "intersect"; "into";
   "is"; "isnull"; "join"; "key"; "last"; "left"; "like"; "limit"; "match";
   "materialized"; "natural"; "no"; "not"; "nothing"; "notnull"; "null";
   "nulls"; "of"; "offset"; "on"; "or"; "order"; "others"; "outer"; "over";
   "partition"; "plan"; "pragma"; "preceding"; "primary"; "query"; "raise";
   "range"; "recursive"; "references"; "regexp"; "reindex"; "release";
   "rename"; "replace"; "restrict"; "returning"; "right"; "rollback"; "row";
   "rows"; "savepoint"; "select"; "set"; "table"; "temp"; "temporary";
   "then"; "ties"; "to"; "transaction"; "trigger"; "unbounded"; "union";
   "unique"; "update"; "using"; "vacuum"; "values"; "view"; "virtual";
   "when"; "where"; "window"; "with"; "within"; "without";
   "rowid"; "oid"; "_rowid_"; "true"; "false"].

(** A bare name: ASCII letters, digits and underscores, the first no
    digit, and no reserved word. In the place of a column of a SET clause
    such a text is read as the name of a column. *)
Definition bare_name (s : string) : bool :=
  match s with
  | EmptyString => false
  | String a rest =>
      (Str.is_letter a || (a =? "_")%char)
      && Str.forall_chars
           (fun c => Str.is_letter c || Str.is_digit c || (c =? "_")%char) rest
      && negb (existsb (String.eqb (Str.lower s)) sql_reserved)
  end.

(** What stands in the place of a column in one assignment of a SET
    clause: a column of the menu, a bare name that is no column of it, or
    a run of digits, which is a number and no name. *)
Inductive SetTarget : Type :=
| Column (c : MenuColumn)
| NoColumn (name : string)
| NotAName (token : string).

Definition set_target (name : string) : option SetTarget :=
  match menu_column_of_name name with
  | Some c => Some (Column c)
  | None =>
      if bare_name name then Some (NoColumn name)
      else if Str.all_digits name then Some (NotAName name)
      else None
  end.

(** The parser's complaint at a token it cannot place. *)
Definition syntax_error_near (token : string) : string :=
  "near " ++ Str.dquote ++ token ++ Str.dquote ++ ": syntax error".

Fixpoint first_not_a_name (targets : list SetTarget) : option string :=
  match targets with
  | [] => None
  | NotAName token :: _ => Some token
  | _ :: rest => first_not_a_name rest
  end.

(** The columns assigned, or the message the statement is refused with:
    the parser's at the first token that is no name, and otherwise that of
    the resolution of names at the first name that is no column. *)
Fixpoint columns_of (targets : list SetTarget) : string + list MenuColumn :=
  match targets with
  | [] => inr []
  | NotAName token :: _ => inl (syntax_error_near token)
  | NoColumn name :: rest =>
      match first_not_a_name rest with
      | Some token => inl (syntax_error_near token)
      | None => inl ("no such column: " ++ name)
      end
  | Column c :: rest =>
      match columns_of rest with
      | inl message => inl message
      | inr cols => inr (c :: cols)
      end
  end.

(** An UPDATE of the menu as the engine reads it: a text whose SET clause
    is empty, so that the parser stops at the token after it, or the
    targets of its SET clause, left to right. *)
Inductive UpdateMenu : Type :=
| SyntaxErrorNear (token : string)
| Assign (targets : list SetTarget).

(** A generic stable insertion sort, standing for ORDER BY. *)
Section Sort.
Variable A : Type.
Variable le : A -> A -> bool.

Fixpoint insert_sorted (x : A) (l : list A) : list A :=
  match l with
  | [] => [x]
  | y :: rest => if le x y then x :: l else y :: insert_sorted x rest
  end.

Fixpoint sort_by (l : list A) : list A :=
  match l with
  | [] => []
  | x :: rest => insert_sorted x (sort_by rest)
  end.
End Sort.

(** BINARY collation on TEXT with NULL first: [a <= b]. *)
Definition text_le (a b : option string) : bool :=
  match a, b with
  | None, _ => true
  | Some _, None => false
  | Some s, Some t => String.leb s t
  end.

Definition text_eqb (a b : option string) : bool :=
  match a, b with
  | None, None => true
  | Some s, Some t => (s =? t)%string
  | _, _ => false
  end.

(** [ORDER BY meal, id] *)
Definition menu_le (r1 r2 : MenuRow) : bool :=
  if text_eqb (m_meal r1) (m_meal r2) then text_le (m_id r1) (m_id r2)
  else text_le (m_meal r1) (m_meal r2).

(** [ORDER BY created_at DESC] *)
Definition order_newer (r1 r2 : OrderRow) : bool :=
  text_le (o_created_at r2) (o_created_at r1).

(* ===================================================================== *)
(** ** External collaborators *)
(* ===================================================================== *)

(** The library functions [index.js] calls. Nothing is assumed of them. *)
Record Externals : Type := {
  (** [bcrypt.compare(s, hash)] on two strings. *)
  bcrypt_check : string -> string -> bool;
  (** [jwt.sign(payload, JWT_SECRET, { expiresIn: '7d' })] at a given time. *)
  jwt_sign : Value -> string -> string;
  (** [jwt.verify(token, JWT_SECRET)] at a given time; [None] when it
      throws. *)
  jwt_verify : string -> string -> option Value;
  (** [JSON.parse(text)]; [None] when it throws a SyntaxError. *)
  JSON_parse : string -> option Value;
  (** [JSON.stringify(value)] of an object. *)
  JSON_stringify : Value -> string;
  Number_toString : Number -> string;
  sqlite_text_of_number : Number -> string;
  sqlite_int_of_text : string -> option Z;
  (** [v == 1] for the value [v] that an INTEGER column gives back after it
      was handed a text that converts to no integer: a REAL, or the text
      itself, which [==] converts with StringToNumber. *)
  kept_text_eq_1 : string -> bool
}.

(* ===================================================================== *)
(** ** Requests and responses *)
(* ===================================================================== *)

(** What a handler reads of [req]: the Authorization header, the [city]
    query parameter, the [:id] path parameter and the JSON body. *)
Record Request : Type := {
  authorization : option string;
  query_city : Value;
  params_id : string;
  body : Value
}.

(** A row of [GET /api/admin/orders]: the order and [u.email as
    user_email] of the LEFT JOIN. *)
Record AdminOrderRow : Type := {
  ao_order : OrderRow;
  ao_user_email : option string
}.

Inductive Response : Type :=
| Json (status : Z) (body : Value)
| MenuJson (rows : list MenuRow)           (* 200 { menu: rows } *)
| OrdersJson (rows : list AdminOrderRow).  (* 200 { orders: rows } *)

Definition error_json (status : Z) (msg : string) : Response :=
  Json status (JObj [("error", JStr msg)]).

Definition ok_json : Response := Json 200 (JObj [("ok", JBool true)]).

Definition js_of_text (c : option string) : Value :=
  match c with Some s => JStr s | None => JNull end.

Definition js_of_int (z : Z) : Value := JNum (of_Z z).

(** [c === v] for the value [c] of a TEXT column. *)
Definition col_strict_eq (c : option string) (v : Value) : bool :=
  match c with
  | Some s => strict_eq_string v s
  | None => match v with JNull => true | _ => false end
  end.

(** [r.active == 1] for the value of the INTEGER column: an integer is
    compared as it is, [null] and a REAL that is no integer are not 1, and
    a text is converted first ([text_eq_1]). *)
Definition active_is_1 (text_eq_1 : string -> bool) (c : IntCell) : bool :=
  match c with
  | IInt z => z =? 1
  | IKept (BText s) => text_eq_1 s
  | IKept _ | INull => false
  end.

(** The largest row id of a table, 0 when it is empty. *)
Definition max_id (ids : list Z) : Z := fold_right Z.max 0 ids.

(** The row id an AUTOINCREMENT insert takes. *)
Definition next_id (seq : Z) (ids : list Z) : Z := Z.max seq (max_id ids) + 1.

Section App.

Variable E : Externals.

Abbreviation to_string := (ToString (Number_toString E)).
Abbreviation int_col_eq := (Sqlite.int_col_eq (sqlite_int_of_text E)).
Abbreviation text_col_eq := (Sqlite.text_col_eq (sqlite_text_of_number E)).

(* --------------------------------------------------------------------- *)
(** *** Auth helpers *)

Definition signToken (payload : Value) (now : string) : string :=
  jwt_sign E payload now.

(** [verifyAuthHeader]: the response it sends, or the claims it stores in
    [req.user] before calling [next()]. *)
Definition verifyAuthHeader (now : string) (req : Request) : Response + Value :=
  match authorization req with
  | None => inl (error_json 401 "missing authorization")
  | Some h =>
      if (h =? "")%string then inl (error_json 401 "missing authorization")
      else
        match Str.split_on " " h with
        | [_; token] =>
            match jwt_verify E token now with
            | Some data => inr data
            | None => inl (error_json 401 "invalid token")
            end
        | _ => inl (error_json 401 "invalid authorization")
        end
  end.

(** [requireRole(role)]: the response it sends, or [None] for [next()].
    The read of [req.user.role] cannot throw, [req.user] being truthy
    there; a throw would reach Express's default error handler. *)
Definition requireRole (role : string) (user : Value) : option Response :=
  if negb (truthy user) then Some (error_json 401 "unauthenticated")
  else
    match get user "role" with
    | Ok r =>
        if negb (role =? "")%string && negb (strict_eq_string r role)
        then Some (error_json 403 "forbidden")
        else None
    | Throw e => Some (Json 500 (JStr e))
    end.

(** [app.METHOD(path, verifyAuthHeader, requireRole(role), handler)];
    [now] is the time at which the token is verified. *)
Definition protected {T} (role : string) (now : string) (req : Request)
    (reject : Response -> T) (handler : Value -> T) : T :=
  match verifyAuthHeader now req with
  | inl r => reject r
  | inr user =>
      match requireRole role user with
      | Some r => reject r
      | None => handler user
      end
  end.

(** [try { ... } catch (err) { res.status(500).json({ error: String(err) }) }]
    around a handler body none of whose writes precede a throw. *)
Definition try_catch (db : Db) (r : Result (Db * Response)) : Db * Response :=
  match r with
  | Ok x => x
  | Throw e => (db, error_json 500 e)
  end.

(** [bcrypt.compare(s, hash)]: bcryptjs rejects unless both arguments are
    strings. *)
Definition bcrypt_compare (s : Value) (hash : option string) : Result bool :=
  match s, hash with
  | JStr p, Some h => Ok (bcrypt_check E p h)
  | _, _ =>
      Throw ("Error: Illegal arguments: " ++ typeof s ++ ", "
             ++ typeof (js_of_text hash))
  end.

(* --------------------------------------------------------------------- *)
(** *** [GET /api/menu] *)

Definition menu_visible (city : Value) (r : MenuRow) : bool :=
  active_is_1 (kept_text_eq_1 E) (m_active r)
  && (negb (truthy city) || col_strict_eq (m_city r) city
      || col_strict_eq (m_city r) (JStr "All")).

Definition get_api_menu (db : Db) (req : Request) : Db * Response :=
  let city := query_city req in
  let rows := sort_by menu_le (menu db) in
  let filtered := filter (menu_visible city) rows in
  (db, MenuJson filtered).

(* --------------------------------------------------------------------- *)
(** *** [POST /api/login] and [POST /api/admin/login] *)

Definition post_api_login (db : Db) (now : string) (req : Request) : Db * Response :=
  try_catch db (
    email <- get (body req) "email" ;;
    password <- get (body req) "password" ;;
    if negb (truthy email) || negb (truthy password)
    then Ok (db, error_json 400 "email & password required")
    else
      match find (fun u => text_col_eq (u_email u) (bind_param email)) (users db) with
      | None => Ok (db, error_json 400 "invalid credentials")
      | Some user =>
          ok <- bcrypt_compare password (u_password_hash user) ;;
          if negb ok then Ok (db, error_json 400 "invalid credentials")
          else
            let token :=
              signToken (JObj [("id", js_of_int (u_id user));
                               ("email", js_of_text (u_email user));
                               ("role", JStr "user")]) now in
            Ok (db, Json 200 (JObj [
              ("user", JObj [("id", js_of_int (u_id user));
                             ("email", js_of_text (u_email user));
                             ("name", js_of_text (u_name user))]);
              ("token", JStr token)]))
      end).

(** The claims an administrator's token is signed over. *)
Definition admin_token_payload (admin : AdminRow) : Value :=
  JObj [("id", js_of_int (a_id admin));
        ("email", js_of_text (a_email admin));
        ("role", JStr "admin")].

Definition post_api_admin_login (db : Db) (now : string) (req : Request) : Db * Response :=
  try_catch db (
    email <- get (body req) "email" ;;
    password <- get (body req) "password" ;;
    match find (fun a => text_col_eq (a_email a) (bind_param email)) (admins db) with
    | None => Ok (db, error_json 400 "invalid credentials")
    | Some admin =>
        ok <- bcrypt_compare password (a_password_hash admin) ;;
        if negb ok then Ok (db, error_json 400 "invalid credentials")
        else
          let token := signToken (admin_token_payload admin) now in
          Ok (db, Json 200 (JObj [
            ("admin", JObj [("id", js_of_int (a_id admin));
                            ("email", js_of_text (a_email admin));
                            ("name", js_of_text (a_name admin));
                            ("city", js_of_text (a_city admin))]);
            ("token", JStr token)]))
    end).

(* --------------------------------------------------------------------- *)
(** *** [POST /api/orders] *)

(** [INSERT INTO notifications (text, created_at, target_city)] *)
Definition insert_notification (db : Db) (text now : string) (target : Bound) : Db :=
  let id := next_id (seq_notifications db) (map n_id (notifications db)) in
  {| users := users db; admins := admins db; menu := menu db;
     notifications := notifications db ++
       [{| n_id := id; n_text := text; n_created_at := now; n_target_city := target |}];
     orders := orders db;
     seq_notifications := id;
     seq_orders := seq_orders db |}.

(** The foreign key [orders.user_id REFERENCES users(id)], enforced since
    [PRAGMA foreign_keys = ON]: a non-NULL [user_id] must be some user's id. *)
Definition user_exists (db : Db) (user_id : Bound) : bool :=
  match user_id with
  | BNull => true
  | _ => existsb (fun u => int_col_eq (u_id u) user_id) (users db)
  end.

(** [INSERT INTO orders (user_id, total, info, status, created_at)]: the
    new database and [this.lastID], or the constraint error. *)
Definition insert_order (db : Db) (user_id total : Bound) (info : string)
    (status : Bound) (now : string) : Result (Db * Z) :=
  if user_exists db user_id then
    let id := next_id (seq_orders db) (map o_id (orders db)) in
    Ok ({| users := users db; admins := admins db; menu := menu db;
           notifications := notifications db;
           orders := orders db ++
             [{| o_id := id; o_user_id := user_id; o_total := total;
                 o_info := Some info; o_status := status;
                 o_created_at := Some now |}];
           seq_notifications := seq_notifications db;
           seq_orders := id |}, id)
  else Throw "Error: SQLITE_CONSTRAINT: FOREIGN KEY constraint failed".

(** The handler body, [req.user] being [user]. [now] and [now'] are the
    two readings of the clock. *)
Definition create_order (user : Value) (db : Db) (now now' : string)
    (req : Request) : Db * Response :=
  try_catch db (
    items <- get (body req) "items" ;;
    total <- get (body req) "total" ;;
    address <- get (body req) "address" ;;
    date <- get (body req) "date" ;;
    time <- get (body req) "time" ;;
    meal <- get (body req) "meal" ;;
    if negb (truthy items) || negb (truthy address)
    then Ok (db, error_json 400 "items & address required")
    else
      user_id <- get user "id" ;;
      let info := JSON_stringify E (JObj [("items", items); ("address", address);
                                          ("date", date); ("time", time);
                                          ("meal", meal)]) in
      r <- insert_order db (bind_param user_id)
             (bind_param (or_else total (js_of_int 0))) info (BText "pending") now ;;
      let (db1, lastID) := r in
      city <- get address "city" ;;
      let db2 := insert_notification db1
                   ("New order " ++ Z_to_string lastID ++ " placed") now'
                   (bind_param (or_else city (JStr "All"))) in
      Ok (db2, Json 200 (JObj [("ok", JBool true); ("orderId", js_of_int lastID)]))).

Definition post_api_orders (db : Db) (t0 now now' : string) (req : Request)
    : Db * Response :=
  protected "user" t0 req (fun r => (db, r))
    (fun user => create_order user db now now' req).

(* --------------------------------------------------------------------- *)
(** *** [GET /api/admin/orders] *)

(** [admin.city], [admin] being the row [getSql] found or [undefined]. *)
Definition admin_city (admin : option AdminRow) : Result (option string) :=
  match admin with
  | Some a => Ok (a_city a)
  | None => Throw "TypeError: Cannot read properties of undefined (reading 'city')"
  end.

(** [JSON.parse(r.info || '{}')] *)
Definition parse_info (info : option string) : Result Value :=
  let text := match info with
              | None => "{}"
              | Some s => if (s =? "")%string then "{}" else s
              end in
  match JSON_parse E text with
  | Some v => Ok v
  | None => Throw "SyntaxError: Unexpected token in JSON"
  end.

(** [(info.address && info.address.city) ? info.address.city : 'All'] *)
Definition resolved_city (info : Value) : Result Value :=
  address <- get info "address" ;;
  if truthy address then
    city <- get address "city" ;;
    Ok (if truthy city then city else JStr "All")
  else Ok (JStr "All").

(** [admin.city === 'All' || admin.city === city || city === 'All'] *)
Definition cityIsVisible (adminCity : option string) (city : Value) : bool :=
  col_strict_eq adminCity (JStr "All") || col_strict_eq adminCity city
  || strict_eq_string city "All".

(** The body of the [try] in the filter callback. *)
Definition order_visible_try (admin : option AdminRow) (r : AdminOrderRow)
    : Result bool :=
  info <- parse_info (o_info (ao_order r)) ;;
  city <- resolved_city info ;;
  c <- admin_city admin ;;
  Ok (cityIsVisible c city).

(** The filter callback: [try { ... } catch (e) { return admin.city === 'All'; }] *)
Definition order_visible (admin : option AdminRow) (r : AdminOrderRow)
    : Result bool :=
  match order_visible_try admin r with
  | Ok b => Ok b
  | Throw _ =>
      c <- admin_city admin ;;
      Ok (col_strict_eq c (JStr "All"))
  end.

(** [rows.filter(f)] for a callback that may throw. *)
Fixpoint filter_throwing {A} (f : A -> Result bool) (l : list A) : Result (list A) :=
  match l with
  | [] => Ok []
  | x :: rest =>
      b <- f x ;;
      kept <- filter_throwing f rest ;;
      Ok (if b then x :: kept else kept)
  end.

(** [LEFT JOIN users u ON u.id = o.user_id] *)
Definition join_user (db : Db) (o : OrderRow) : AdminOrderRow :=
  {| ao_order := o;
     ao_user_email :=
       match find (fun u => int_col_eq (u_id u) (o_user_id o)) (users db) with
       | Some u => u_email u
       | None => None
       end |}.

Definition list_orders_for_admin (user : Value) (db : Db) : Db * Response :=
  try_catch db (
    user_id <- get user "id" ;;
    let admin := find (fun a => int_col_eq (a_id a) (bind_param user_id)) (admins db) in
    let rows := map (join_user db) (sort_by order_newer (orders db)) in
    filtered <- filter_throwing (order_visible admin) rows ;;
    Ok (db, OrdersJson filtered)).

Definition get_api_admin_orders (db : Db) (t0 : string) (req : Request)
    : Db * Response :=
  protected "admin" t0 req (fun r => (db, r))
    (fun user => list_orders_for_admin user db).

(* --------------------------------------------------------------------- *)
(** *** [PUT /api/admin/orders/:id] *)

(** [UPDATE orders SET status = ? WHERE id = ?] *)
Definition update_order_status (db : Db) (status id : Bound) : Db :=
  {| users := users db; admins := admins db; menu := menu db;
     notifications := notifications db;
     orders := map (fun o =>
                      if int_col_eq (o_id o) id
                      then {| o_id := o_id o; o_user_id := o_user_id o;
                              o_total := o_total o; o_info := o_info o;
                              o_status := status;
                              o_created_at := o_created_at o |}
                      else o) (orders db);
     seq_notifications := seq_notifications db;
     seq_orders := seq_orders db |}.

(** The handler body. The template literal of the notification is
    evaluated after the UPDATE has run: when the conversion of [status]
    throws, the [catch] answers 500 and the UPDATE stays. *)
Definition update_status (user : Value) (db : Db) (now : string) (req : Request)
    : Db * Response :=
  let id := params_id req in
  match get (body req) "status" with
  | Throw e => (db, error_json 500 e)
  | Ok status =>
      let db1 := update_order_status db (bind_param status) (bind_param (JStr id)) in
      match to_string status with
      | Throw e => (db1, error_json 500 e)
      | Ok text =>
          (insert_notification db1
             ("Order " ++ id ++ " status updated → " ++ text)
             now (bind_param (JStr "All")),
           ok_json)
      end
  end.

Definition put_api_admin_orders_id (db : Db) (t0 now : string) (req : Request)
    : Db * Response :=
  protected "admin" t0 req (fun r => (db, r))
    (fun user => update_status user db now req).

(* --------------------------------------------------------------------- *)
(** *** [PUT /api/admin/menu/:id] *)

(** The array index a property key denotes: the canonical decimal text of
    an integer below [2^32 - 1]. *)
Definition index_of_key (k : string) : option Z :=
  match k with
  | String a rest =>
      if Str.all_digits k && (negb (a =? "0")%char || (rest =? "")%string)
         && (Str.digits_value 0 k <=? 4294967294)
      then Some (Str.digits_value 0 k)
      else None
  | EmptyString => None
  end.

(** The own properties of an object in the order JavaScript lists them:
    the array indices in ascending order, then the other keys in the order
    of their creation. *)
Definition own_entries (fields : list (string * Value)) : list (string * Value) :=
  map snd
      (sort_by (fun p q => fst p <=? fst q)
         (flat_map (fun kv => match index_of_key (fst kv) with
                              | Some i => [(i, kv)]
                              | None => []
                              end) fields))
  ++ filter (fun kv => match index_of_key (fst kv) with
                       | Some _ => false
                       | None => true
                       end) fields.

(** [Object.keys(v)] paired with [Object.values(v)]. *)
Definition object_entries (v : Value) : Result (list (string * Value)) :=
  match v with
  | JUndefined | JNull => Throw "TypeError: Cannot convert undefined or null to object"
  | JObj fields => Ok (own_entries fields)
  | JArr xs =>
      Ok (combine (map (fun i => Z_to_string (Z.of_nat i)) (seq 0 (length xs))) xs)
  | JStr s =>
      Ok (combine (map (fun i => Z_to_string (Z.of_nat i)) (seq 0 (String.length s)))
                  (map (fun a => JStr (String a EmptyString)) (list_ascii_of_string s)))
  | JBool _ | JNum _ => Ok []
  end.

(** The statements [UPDATE menu SET n1 = ?, ..., nk = ? WHERE id = ?]
    whose [ni] are columns of the menu, bare names or runs of digits, and
    the statement with an empty SET clause, at which the parser stops
    before [WHERE]. [None] for any other text. *)
Definition parse_update_menu (sql : string) : option UpdateMenu :=
  match Str.strip_prefix "UPDATE menu SET " sql with
  | None => None
  | Some rest =>
      match Str.strip_suffix " WHERE id = ?" rest with
      | None => None
      | Some updates =>
          if (updates =? "")%string then Some (SyntaxErrorNear "WHERE")
          else
            option_map Assign
              (Str.map_option
                 (fun piece =>
                    match Str.strip_suffix " = ?" piece with
                    | Some name => set_target name
                    | None => None
                    end)
                 (Str.split_comma_space updates))
      end
  end.

(** A TEXT column of the row set to [v]. *)
Definition set_text_column (c : MenuColumn) (v : option string) (r : MenuRow)
    : MenuRow :=
  let pick (c' : MenuColumn) (old : option string) :=
    match c, c' with
    | Cid, Cid | Cmeal, Cmeal | Cname_en, Cname_en | Cname_hi, Cname_hi
    | Cdescription_en, Cdescription_en | Cdescription_hi, Cdescription_hi
    | Ccity, Ccity | Cavailable_from, Cavailable_from
    | Cavailable_to, Cavailable_to => v
    | _, _ => old
    end in
  {| m_id := pick Cid (m_id r);
     m_meal := pick Cmeal (m_meal r);
     m_name_en := pick Cname_en (m_name_en r);
     m_name_hi := pick Cname_hi (m_name_hi r);
     m_price := m_price r;
     m_description_en := pick Cdescription_en (m_description_en r);
     m_description_hi := pick Cdescription_hi (m_description_hi r);
     m_city := pick Ccity (m_city r);
     m_available_from := pick Cavailable_from (m_available_from r);
     m_available_to := pick Cavailable_to (m_available_to r);
     m_active := m_active r |}.

(** An INTEGER column of the row set to [v]. *)
Definition set_int_column (c : MenuColumn) (v : IntCell) (r : MenuRow) : MenuRow :=
  {| m_id := m_id r; m_meal := m_meal r; m_name_en := m_name_en r;
     m_name_hi := m_name_hi r;
     m_price := match c with Cprice => v | _ => m_price r end;
     m_description_en := m_description_en r;
     m_description_hi := m_description_hi r; m_city := m_city r;
     m_available_from := m_available_from r;
     m_available_to := m_available_to r;
     m_active := match c with Cactive => v | _ => m_active r end |}.

(** One assignment of the SET clause. *)
Definition set_menu_column (c : MenuColumn) (b : Bound) (r : MenuRow) : MenuRow :=
  match c with
  | Cprice | Cactive =>
      set_int_column c (Sqlite.int_cell_of_bound (sqlite_int_of_text E) b) r
  | _ =>
      set_text_column c (Sqlite.text_of_bound (sqlite_text_of_number E) b) r
  end.

(** The SET clause applied to one row, left to right, so that the
    rightmost assignment of a column repeated wins. *)
Fixpoint apply_assignments (assignments : list (MenuColumn * Bound)) (r : MenuRow)
    : MenuRow :=
  match assignments with
  | [] => r
  | (c, b) :: rest => apply_assignments rest (set_menu_column c b r)
  end.

Definition is_Cid (c : MenuColumn) : bool :=
  match c with Cid => true | _ => false end.

(** PRIMARY KEY: an updated row whose new id is some text also held by
    another row of the updated table. *)
Definition id_conflict (id : Bound) (before after : list MenuRow) : bool :=
  existsb (fun p =>
             text_col_eq (m_id (fst p)) id
             && match m_id (snd p) with
                | Some v =>
                    (2 <=? length (filter (fun r => text_eqb (m_id r) (Some v)) after))%nat
                | None => false
                end)
          (combine before after).

(** [runSql(sql, params)] for the UPDATE of the menu: the statement is
    prepared, which fails on a text that does not parse and on a name that
    is no column, and then run. The outer [None]: the statement is outside
    the texts [parse_update_menu] reads, or the parameters are not one for
    each placeholder. *)
Definition runSql_update_menu (db : Db) (sql : string) (params : list Value)
    : option (Result Db) :=
  match parse_update_menu sql with
  | None => None
  | Some (SyntaxErrorNear token) =>
      Some (Throw ("Error: SQLITE_ERROR: " ++ syntax_error_near token))
  | Some (Assign targets) =>
      match columns_of targets with
      | inl message => Some (Throw ("Error: SQLITE_ERROR: " ++ message))
      | inr cols =>
          if negb (length params =? length cols + 1)%nat then None
          else
            let assignments :=
              combine cols (map bind_param (firstn (length cols) params)) in
            let id := bind_param (nth (length cols) params JUndefined) in
            let rows :=
              map (fun r => if text_col_eq (m_id r) id
                            then apply_assignments assignments r else r)
                  (menu db) in
            if existsb is_Cid cols && id_conflict id (menu db) rows
            then Some (Throw "Error: SQLITE_CONSTRAINT: UNIQUE constraint failed: menu.id")
            else Some (Ok {| users := users db; admins := admins db; menu := rows;
                             notifications := notifications db;
                             orders := orders db;
                             seq_notifications := seq_notifications db;
                             seq_orders := seq_orders db |})
      end
  end.

(** The handler body. The field names of the body are spliced into the
    text of the statement, which can therefore be any SQL. The outer
    [None]: a field name is neither a column of the menu, nor a bare name,
    nor a run of digits, so that the statement built from it is outside
    the texts [parse_update_menu] reads. *)
Definition update_menu (db : Db) (req : Request) : option (Db * Response) :=
  let id := params_id req in
  match object_entries (body req) with
  | Throw e => Some (db, error_json 500 e)
  | Ok fields =>
      let updates := String.concat ", " (map (fun k => k ++ " = ?") (map fst fields)) in
      let vals := map snd fields in
      match runSql_update_menu db ("UPDATE menu SET " ++ updates ++ " WHERE id = ?")
                               (vals ++ [JStr id]) with
      | None => None
      | Some (Throw e) => Some (db, error_json 500 e)
      | Some (Ok db') => Some (db', ok_json)
      end
  end.

Definition put_api_admin_menu_id (db : Db) (t0 : string) (req : Request)
    : option (Db * Response) :=
  protected "admin" t0 req (fun r => Some (db, r))
    (fun user => update_menu db req).

End App.

(* ===================================================================== *)
(** ** A reference instance of the external collaborators *)
(* ===================================================================== *)

(** Executable stand-ins, used to run the handlers on concrete requests.
    [Reference.JSON_parse] follows the JSON grammar (ECMA-404) and rounds
    number literals to the nearest double, ties to even. *)
Module Reference.

Definition dquote : ascii := ascii_of_N 34.
Definition backslash : ascii := ascii_of_N 92.

Definition is_ws (a : ascii) : bool :=
  let n := N_of_ascii a in
  (n =? 32)%N || (n =? 9)%N || (n =? 10)%N || (n =? 13)%N.

Fixpoint skip_ws (s : string) : string :=
  match s with
  | String a rest => if is_ws a then skip_ws rest else s
  | EmptyString => s
  end.

Definition digit_value (a : ascii) : option Z :=
  let n := N_of_ascii a in
  if (48 <=? n)%N && (n <=? 57)%N then Some (Z.of_N n - 48) else None.

Definition hex_value (a : ascii) : option Z :=
  let n := Z.of_N (N_of_ascii a) in
  if (48 <=? n) && (n <=? 57) then Some (n - 48)
  else if (65 <=? n) && (n <=? 70) then Some (n - 55)
  else if (97 <=? n) && (n <=? 102) then Some (n - 87)
  else None.

(** The longest run of decimal digits at the head of [s]: its value
    appended to [acc], the number of digits, and the rest. *)
Fixpoint take_digits (acc : Z) (count : Z) (s : string) : Z * Z * string :=
  match s with
  | String a rest =>
      match digit_value a with
      | Some d => take_digits (10 * acc + d) (count + 1) rest
      | None => (acc, count, s)
      end
  | EmptyString => (acc, count, s)
  end.

Definition bitlen (n : Z) : Z := if n =? 0 then 0 else Z.log2 n + 1.

(** The double nearest to [(N + d) * 2^ex], where [0 <= d < 1] and [d] is
    positive exactly when [sticky]; [N] is positive, of more than 53 bits
    when [sticky]. *)
Definition round_to_double (negative : bool) (N : Z) (sticky : bool) (ex : Z) : Number :=
  let k := bitlen N in
  let s := Z.max (k - 53) (- 1074 - ex) in
  let sign := if negative then -1 else 1 in
  if s <=? 0 then
    if 1024 <? k + ex then NInfinity negative else NFinite (sign * N) ex
  else
    let q := N / 2 ^ s in
    let r := N mod 2 ^ s in
    let half := 2 ^ (s - 1) in
    let up := (half <? r) || ((r =? half) && (sticky || Z.odd q)) in
    let m := if up then q + 1 else q in
    if 1024 <? bitlen m + ex + s then NInfinity negative
    else NFinite (sign * m) (ex + s).

(** The double nearest to [M * 10^E10], [M] non-negative. *)
Definition decimal_to_double (negative : bool) (M E10 : Z) : Number :=
  if M =? 0 then NFinite 0 0
  else if 0 <=? E10 then round_to_double negative (M * 10 ^ E10) false 0
  else
    let q := 10 ^ (- E10) in
    let t := Z.max 0 (bitlen q - bitlen M + 55) in
    let scaled := M * 2 ^ t in
    round_to_double negative (scaled / q) (negb (scaled mod q =? 0)) (- t).

(** [-? int frac? exp?] *)
Definition parse_number (s : string) : option (Number * string) :=
  let (negative, s1) :=
    match s with
    | String "-" rest => (true, rest)
    | _ => (false, s)
    end in
  let '(int_part, int_count, s2) := take_digits 0 0 s1 in
  let leading_zero :=
    match s1 with String "0" _ => true | _ => false end in
  if (int_count =? 0) || (leading_zero && (1 <? int_count)) then None
  else
    let frac :=
      match s2 with
      | String "." rest =>
          let '(m, n, s3) := take_digits int_part 0 rest in
          if n =? 0 then None else Some (m, n, s3)
      | _ => Some (int_part, 0, s2)
      end in
    match frac with
    | None => None
    | Some (mantissa, frac_count, s3) =>
        let expo :=
          match s3 with
          | String c rest =>
              if (c =? "e")%char || (c =? "E")%char then
                let (neg_e, s4) :=
                  match rest with
                  | String "-" r => (true, r)
                  | String "+" r => (false, r)
                  | _ => (false, rest)
                  end in
                let '(e, n, s5) := take_digits 0 0 s4 in
                if n =? 0 then None
                else Some ((if neg_e then - e else e), s5)
              else Some (0, s3)
          | EmptyString => Some (0, s3)
          end in
        match expo with
        | None => None
        | Some (e, s5) =>
            Some (decimal_to_double negative mantissa (e - frac_count), s5)
        end
    end.

Definition byte (n : Z) : ascii := ascii_of_N (Z.to_N n).

(** The UTF-8 bytes of a code point (a lone surrogate is encoded like any
    other three-byte code point). *)
Definition utf8 (cp : Z) : string :=
  if cp <? 128 then String (byte cp) EmptyString
  else if cp <? 2048 then
    String (byte (192 + cp / 64)) (String (byte (128 + cp mod 64)) EmptyString)
  else if cp <? 65536 then
    String (byte (224 + cp / 4096))
      (String (byte (128 + (cp / 64) mod 64))
         (String (byte (128 + cp mod 64)) EmptyString))
  else
    String (byte (240 + cp / 262144))
      (String (byte (128 + (cp / 4096) mod 64))
         (String (byte (128 + (cp / 64) mod 64))
            (String (byte (128 + cp mod 64)) EmptyString))).

(** Four hexadecimal digits. *)
Definition take_hex4 (s : string) : option (Z * string) :=
  match s with
  | String a (String b (String c (String d rest))) =>
      match hex_value a, hex_value b, hex_value c, hex_value d with
      | Some x, Some y, Some z, Some w => Some (((x * 16 + y) * 16 + z) * 16 + w, rest)
      | _, _, _, _ => None
      end
  | _ => None
  end.

(** The characters of a string literal after its opening quote, up to the
    closing quote. [pending] is a high surrogate written by the preceding
    [\u] escape, waiting for its low surrogate. *)
Fixpoint parse_string_body (fuel : nat) (pending : option Z) (s : string)
    : option (string * string) :=
  let flush := match pending with Some h => utf8 h | None => EmptyString end in
  let emit (text : string) (rest : string) (f : nat) :=
    match parse_string_body f None rest with
    | Some (tail, rest') => Some (flush ++ text ++ tail, rest')
    | None => None
    end in
  match fuel with
  | O => None
  | S f =>
      match s with
      | EmptyString => None
      | String a rest =>
          if (a =? dquote)%char then Some (flush, rest)
          else if (a =? backslash)%char then
            match rest with
            | String e rest' =>
                if (e =? dquote)%char then emit (String dquote EmptyString) rest' f
                else if (e =? backslash)%char then emit (String backslash EmptyString) rest' f
                else if (e =? "/")%char then emit "/" rest' f
                else if (e =? "b")%char then emit (String (byte 8) EmptyString) rest' f
                else if (e =? "f")%char then emit (String (byte 12) EmptyString) rest' f
                else if (e =? "n")%char then emit (String (byte 10) EmptyString) rest' f
                else if (e =? "r")%char then emit (String (byte 13) EmptyString) rest' f
                else if (e =? "t")%char then emit (String (byte 9) EmptyString) rest' f
                else if (e =? "u")%char then
                  match take_hex4 rest' with
                  | Some (u, rest'') =>
                      let low := (56320 <=? u) && (u <=? 57343) in
                      let high := (55296 <=? u) && (u <=? 56319) in
                      match pending with
                      | Some h =>
                          if low then
                            match parse_string_body f None rest'' with
                            | Some (tail, r) =>
                                Some (utf8 (65536 + (h - 55296) * 1024 + (u - 56320)) ++ tail, r)
                            | None => None
                            end
                          else if high then
                            match parse_string_body f (Some u) rest'' with
                            | Some (tail, r) => Some (utf8 h ++ tail, r)
                            | None => None
                            end
                          else emit (utf8 u) rest'' f
                      | None =>
                          if high then parse_string_body f (Some u) rest''
                          else emit (utf8 u) rest'' f
                      end
                  | None => None
                  end
                else None
            | EmptyString => None
            end
          else if (N_of_ascii a <? 32)%N then None
          else emit (String a EmptyString) rest f
      end
  end.

Definition parse_string (s : string) : option (string * string) :=
  parse_string_body (S (String.length s)) None s.

(** [fields] with [k] set to [v]: a repeated key keeps its place and takes
    the later value. *)
Fixpoint set_field (k : string) (v : Value) (fields : list (string * Value))
    : list (string * Value) :=
  match fields with
  | [] => [(k, v)]
  | (k', v') :: rest =>
      if (k' =? k)%string then (k, v) :: rest else (k', v') :: set_field k v rest
  end.

(** A JSON value at the head of [s], after optional white space. *)
Fixpoint parse_value (fuel : nat) (s : string) : option (Value * string) :=
  match fuel with
  | O => None
  | S f =>
      match skip_ws s with
      | EmptyString => None
      | String a rest as s' =>
          if (a =? "{")%char then
            match skip_ws rest with
            | String "}" rest' => Some (JObj [], rest')
            | _ => parse_members f [] rest
            end
          else if (a =? "[")%char then
            match skip_ws rest with
            | String "]" rest' => Some (JArr [], rest')
            | _ => parse_elements f [] rest
            end
          else if (a =? dquote)%char then
            match parse_string rest with
            | Some (text, rest') => Some (JStr text, rest')
            | None => None
            end
          else
            match Str.strip_prefix "true" s', Str.strip_prefix "false" s',
                  Str.strip_prefix "null" s' with
            | Some r, _, _ => Some (JBool true, r)
            | _, Some r, _ => Some (JBool false, r)
            | _, _, Some r => Some (JNull, r)
            | _, _, _ =>
                match parse_number s' with
                | Some (n, r) => Some (JNum n, r)
                | None => None
                end
            end
      end
  end
with parse_elements (fuel : nat) (acc : list Value) (s : string)
    : option (Value * string) :=
  match fuel with
  | O => None
  | S f =>
      match parse_value f s with
      | Some (v, rest) =>
          match skip_ws rest with
          | String "," rest' => parse_elements f (acc ++ [v]) rest'
          | String "]" rest' => Some (JArr (acc ++ [v]), rest')
          | _ => None
          end
      | None => None
      end
  end
with parse_members (fuel : nat) (acc : list (string * Value)) (s : string)
    : option (Value * string) :=
  match fuel with
  | O => None
  | S f =>
      match skip_ws s with
      | String a rest =>
          if (a =? dquote)%char then
            match parse_string rest with
            | Some (k, rest1) =>
                match skip_ws rest1 with
                | String ":" rest2 =>
                    match parse_value f rest2 with
                    | Some (v, rest3) =>
                        match skip_ws rest3 with
                        | String "," rest4 => parse_members f (set_field k v acc) rest4
                        | String "}" rest4 => Some (JObj (set_field k v acc), rest4)
                        | _ => None
                        end
                    | None => None
                    end
                | _ => None
                end
            | None => None
            end
          else None
      | EmptyString => None
      end
  end.

(** [JSON.parse(text)]: one value, white space around it, nothing else. *)
Definition JSON_parse (text : string) : option Value :=
  match parse_value (2 * String.length text + 4) text with
  | Some (v, rest) =>
      match skip_ws rest with
      | EmptyString => Some v
      | _ => None
      end
  | None => None
  end.

(** A decimal text denoting the number exactly: the integer's digits, or
    [digits e-k]. *)
Definition number_text (n : Number) : string :=
  match n with
  | NFinite m e =>
      match int_value n with
      | Some z => Z_to_string z
      | None => Z_to_string (m * 5 ^ (- e)) ++ "e-" ++ Z_to_string (- e)
      end
  | NInfinity negative => if negative then "-Infinity" else "Infinity"
  | NNaN => "NaN"
  end.

Definition hex_digit (n : Z) : ascii :=
  byte (if n <? 10 then 48 + n else 87 + n).

Fixpoint escape (s : string) : string :=
  match s with
  | EmptyString => EmptyString
  | String a rest =>
      let n := Z.of_N (N_of_ascii a) in
      if (a =? dquote)%char then String backslash (String dquote (escape rest))
      else if (a =? backslash)%char then String backslash (String backslash (escape rest))
      else if n <? 32 then
        String backslash
          (String "u" (String "0" (String "0"
             (String (hex_digit (n / 16)) (String (hex_digit (n mod 16)) (escape rest))))))
      else String a (escape rest)
  end.

Definition quoted (s : string) : string :=
  String dquote (escape s ++ String dquote EmptyString).

(** A JSON text of the value: members whose value is [undefined] are left
    out, and [undefined], infinities and NaN print as [null] elsewhere. *)
Fixpoint JSON_stringify (v : Value) : string :=
  match v with
  | JUndefined | JNull => "null"
  | JBool true => "true"
  | JBool false => "false"
  | JNum (NFinite m e) => number_text (NFinite m e)
  | JNum _ => "null"
  | JStr s => quoted s
  | JArr xs => "[" ++ String.concat "," (map JSON_stringify xs) ++ "]"
  | JObj fields =>
      "{" ++ String.concat ","
               (flat_map (fun kv : string * Value =>
                            let (k, x) := kv in
                            match x with
                            | JUndefined => @nil string
                            | _ => [quoted k ++ ":" ++ JSON_stringify x]
                            end) fields)
          ++ "}"
  end.

(** An optional minus sign and decimal digits, nothing else. *)
Definition int_of_text (s : string) : option Z :=
  let (negative, digits) :=
    match s with
    | String "-" rest => (true, rest)
    | _ => (false, s)
    end in
  match take_digits 0 0 digits with
  | (z, count, EmptyString) =>
      if count =? 0 then None else Some (if negative then - z else z)
  | _ => None
  end.

Definition is_space (a : ascii) : bool :=
  let n := N_of_ascii a in
  (n =? 32)%N || ((9 <=? n)%N && (n <=? 13)%N).

Fixpoint trim_left (s : string) : string :=
  match s with
  | String a rest => if is_space a then trim_left rest else s
  | EmptyString => s
  end.

(** [s] without the white space at its end. *)
Fixpoint trim_right (s : string) : string :=
  match s with
  | EmptyString => EmptyString
  | String a rest =>
      match trim_right rest with
      | EmptyString => if is_space a then EmptyString else String a EmptyString
      | kept => String a kept
      end
  end.

(** The value of a run of digits in [base], when [s] is one and is not
    empty. *)
Fixpoint digits_in_base (base : Z) (acc : option Z) (s : string) : option Z :=
  match s with
  | EmptyString => acc
  | String a rest =>
      match hex_value a with
      | Some d =>
          if d <? base
          then digits_in_base base
                 (Some (base * match acc with Some z => z | None => 0 end + d)) rest
          else None
      | None => None
      end
  end.

(** Whether StringToNumber reads [s] as 1: white space around a numeric
    literal, which is decimal (a sign, digits with an optional fraction and
    exponent) or hexadecimal, octal or binary behind [0x], [0o], [0b]. *)
Definition text_eq_1 (s : string) : bool :=
  let t := trim_right (trim_left s) in
  let in_base (base : Z) (rest : string) :=
    match digits_in_base base None rest with
    | Some z => z =? 1
    | None => false
    end in
  match t with
  | String "0" (String c rest) =>
      if (c =? "x")%char || (c =? "X")%char then in_base 16 rest
      else if (c =? "o")%char || (c =? "O")%char then in_base 8 rest
      else if (c =? "b")%char || (c =? "B")%char then in_base 2 rest
      else false
  | _ => false
  end
  || let (negative, t1) :=
       match t with
       | String "-" rest => (true, rest)
       | String "+" rest => (false, rest)
       | _ => (false, t)
       end in
     let '(int_part, int_count, t2) := take_digits 0 0 t1 in
     let '(mantissa, frac_count, t3) :=
       match t2 with
       | String "." rest => take_digits int_part 0 rest
       | _ => (int_part, 0, t2)
       end in
     if (int_count + frac_count =? 0) then false
     else
       let expo :=
         match t3 with
         | EmptyString => Some 0
         | String c rest =>
             if (c =? "e")%char || (c =? "E")%char then
               let (neg_e, t4) :=
                 match rest with
                 | String "-" r => (true, r)
                 | String "+" r => (false, r)
                 | _ => (false, rest)
                 end in
               match take_digits 0 0 t4 with
               | (e, n, EmptyString) =>
                   if n =? 0 then None else Some (if neg_e then - e else e)
               | _ => None
               end
             else None
         end in
       match expo with
       | None => false
       | Some e =>
           match int_value (decimal_to_double negative mantissa (e - frac_count)) with
           | Some z => z =? 1
           | None => false
           end
       end.

(** A stand-in for bcrypt: the hash of [p] is [p] behind a marker. *)
Definition hash (p : string) : string := "$2a$10$" ++ p.

(** A stand-in for jsonwebtoken: the token is the JSON text of the claims
    with the time of issue added. *)
Definition sign (payload : Value) (now : string) : string :=
  JSON_stringify
    match payload with
    | JObj fields => JObj (fields ++ [("iat", JStr now)])
    | other => other
    end.

Definition externals : Externals :=
  Build_Externals
    (fun p h => (h =? hash p)%string)   (* bcrypt_check *)
    sign                                (* jwt_sign *)
    (fun token _ => JSON_parse token)   (* jwt_verify *)
    JSON_parse
    JSON_stringify
    number_text                         (* Number_toString *)
    number_text                         (* sqlite_text_of_number *)
    int_of_text                         (* sqlite_int_of_text *)
    text_eq_1.                          (* kept_text_eq_1 *)

End Reference.

(* ===================================================================== *)
(** ** Sample data *)
(* ===================================================================== *)

(** The rows [initDb] seeds (two administrators, four menu items, the
    welcome notification), a third administrator scoped to Pune as
    [POST /api/admin/create] would add, one user and three orders. *)
Module Sample.

Definition t0 : string := "2024-05-01T10:00:00.000Z".
Definition t1 : string := "2024-05-01T10:05:00.000Z".
Definition t2 : string := "2024-05-01T10:05:00.020Z".

Definition super_admin : AdminRow :=
  {| a_id := 1; a_email := Some "admin@mummatiffin.com";
     a_password_hash := Some (Reference.hash "admin123");
     a_name := Some "Super Admin"; a_city := Some "All";
     a_created_at := Some t0 |}.

Definition delhi_admin : AdminRow :=
  {| a_id := 2; a_email := Some "manager@mummatiffin.com";
     a_password_hash := Some (Reference.hash "manager123");
     a_name := Some "City Manager"; a_city := Some "Delhi";
     a_created_at := Some t0 |}.

Definition pune_admin : AdminRow :=
  {| a_id := 3; a_email := Some "pune@mummatiffin.com";
     a_password_hash := Some (Reference.hash "pune123");
     a_name := Some "Pune Manager"; a_city := Some "Pune";
     a_created_at := Some t0 |}.

Definition asha : UserRow :=
  {| u_id := 1; u_email := Some "asha@example.com";
     u_password_hash := Some (Reference.hash "tiffin");
     u_name := Some "Asha"; u_created_at := Some t0 |}.

Definition item (id meal name_en name_hi : string) (price : Z)
    (description_en description_hi city from to : string) (active : Z) : MenuRow :=
  {| m_id := Some id; m_meal := Some meal; m_name_en := Some name_en;
     m_name_hi := Some name_hi; m_price := IInt price;
     m_description_en := Some description_en;
     m_description_hi := Some description_hi; m_city := Some city;
     m_available_from := Some from; m_available_to := Some to;
     m_active := IInt active |}.

Definition b1 : MenuRow :=
  item "b1" "breakfast" "Aloo Paratha + Curd" "आलू पराठा + दही" 60
       "Hearty potato paratha" "मज़ेदार आलू पराठा" "Delhi" "06:00" "09:00" 1.
Definition b2 : MenuRow :=
  item "b2" "breakfast" "Poha + Tea" "पोहा + चाय" 45
       "Light & tasty poha" "हल्का और स्वादिष्ट पोहा" "Pune" "06:30" "09:00" 1.
Definition l1 : MenuRow :=
  item "l1" "lunch" "Dal + Roti + Sabzi" "दाल + रोटी + सब्ज़ी" 85
       "Balanced vegetarian meal" "संतुलित शाकाहारी भोजन" "All" "11:00" "14:00" 1.
Definition d1 : MenuRow :=
  item "d1" "dinner" "Khichdi + Papad" "खिचड़ी + पापड़" 70
       "Comforting khichdi" "आरामदेह खिचड़ी" "All" "18:00" "20:00" 1.
(** An item switched off. *)
Definition d2 : MenuRow :=
  item "d2" "dinner" "Pulao" "पुलाव" 75 "Vegetable pulao" "सब्ज़ी पुलाव"
       "Delhi" "18:00" "20:00" 0.

Definition welcome : NotificationRow :=
  {| n_id := 1;
     n_text := "Welcome to Mumma Tiffin — live notifications enabled!";
     n_created_at := t0; n_target_city := BText "All" |}.

Definition address_in (city : string) : Value := JObj [("city", JStr city)].

Definition items_l1 : Value :=
  JArr [JObj [("id", JStr "l1"); ("price", js_of_int 85)]].

Definition info_for (city : string) : string :=
  Reference.JSON_stringify
    (JObj [("items", items_l1); ("address", address_in city);
           ("date", JStr "2024-05-01"); ("time", JStr "12:30");
           ("meal", JStr "lunch")]).

Definition order (id : Z) (info : string) (created_at : string) : OrderRow :=
  {| o_id := id; o_user_id := BNum (of_Z 1); o_total := BNum (of_Z 85);
     o_info := Some info; o_status := BText "pending";
     o_created_at := Some created_at |}.

Definition delhi_order : OrderRow := order 1 (info_for "Delhi") "2024-05-01T09:00:00.000Z".
Definition broken_order : OrderRow := order 2 "{items: oops" "2024-05-01T09:10:00.000Z".
Definition pune_order : OrderRow := order 3 (info_for "Pune") "2024-05-01T09:20:00.000Z".

Definition db : Db :=
  {| users := [asha];
     admins := [super_admin; delhi_admin; pune_admin];
     menu := [b1; b2; l1; d1; d2];
     notifications := [welcome];
     orders := [delhi_order; broken_order; pune_order];
     seq_notifications := 1;
     seq_orders := 3 |}.

Definition bearer (token : string) : option string := Some ("Bearer " ++ token).

Definition admin_token (a : AdminRow) : string :=
  Reference.sign (admin_token_payload a) t0.

(** The claims the reference [jwt_verify] reads back from that token. *)
Definition admin_token_claims (a : AdminRow) : Value :=
  JObj [("id", js_of_int (a_id a)); ("email", js_of_text (a_email a));
        ("role", JStr "admin"); ("iat", JStr t0)].

Definition user_token (u : UserRow) : string :=
  Reference.sign (JObj [("id", js_of_int (u_id u));
                        ("email", js_of_text (u_email u));
                        ("role", JStr "user")]) t0.

Definition user_token_claims (u : UserRow) : Value :=
  JObj [("id", js_of_int (u_id u)); ("email", js_of_text (u_email u));
        ("role", JStr "user"); ("iat", JStr t0)].

Definition request (auth : option string) (city : Value) (id : string)
    (body : Value) : Request :=
  {| authorization := auth; query_city := city; params_id := id; body := body |}.

End Sample.

(* ===================================================================== *)
(** ** The remaining routes and [initDb] *)
(* ===================================================================== *)

(** [addresses (id, user_id REFERENCES users(id), name, line, landmark,
    pin, city, created_at)] *)
Record AddressRow : Type := {
  ad_id : Z;
  ad_user_id : Bound;
  ad_name : option string;
  ad_line : option string;
  ad_landmark : option string;
  ad_pin : option string;
  ad_city : option string;
  ad_created_at : option string
}.

(** A row of [GET /api/admin/list]: the columns the statement selects,
    the password hash not among them. *)
Record AdminListRow : Type := {
  al_id : Z;
  al_email : option string;
  al_name : option string;
  al_city : option string;
  al_created_at : option string
}.

(** The whole database file: the tables of [Db], the addresses, and the
    AUTOINCREMENT counters of the tables the routes below insert into. *)
Record Site : Type := {
  core : Db;
  addresses : list AddressRow;
  seq_users : Z;
  seq_admins : Z;
  seq_addresses : Z
}.

Definition with_menu (db : Db) (rows : list MenuRow) : Db :=
  {| users := users db; admins := admins db; menu := rows;
     notifications := notifications db; orders := orders db;
     seq_notifications := seq_notifications db; seq_orders := seq_orders db |}.

Definition with_users (db : Db) (rows : list UserRow) : Db :=
  {| users := rows; admins := admins db; menu := menu db;
     notifications := notifications db; orders := orders db;
     seq_notifications := seq_notifications db; seq_orders := seq_orders db |}.

Definition with_admins (db : Db) (rows : list AdminRow) : Db :=
  {| users := users db; admins := rows; menu := menu db;
     notifications := notifications db; orders := orders db;
     seq_notifications := seq_notifications db; seq_orders := seq_orders db |}.

Definition with_core (s : Site) (db : Db) : Site :=
  {| core := db; addresses := addresses s; seq_users := seq_users s;
     seq_admins := seq_admins s; seq_addresses := seq_addresses s |}.

(** [ORDER BY created_at DESC] on the notifications. *)
Definition notification_newer (n1 n2 : NotificationRow) : bool :=
  String.leb (n_created_at n2) (n_created_at n1).

(** [ORDER BY created_at DESC] on the addresses. *)
Definition address_newer (a1 a2 : AddressRow) : bool :=
  text_le (ad_created_at a2) (ad_created_at a1).

(** The rows of [l] on which [f] says [true]; [None] when [f] has no
    answer for some row. *)
Fixpoint filter_option {A} (f : A -> option bool) (l : list A) : option (list A) :=
  match l with
  | [] => Some []
  | x :: rest =>
      match f x, filter_option f rest with
      | Some b, Some kept => Some (if b then x :: kept else kept)
      | _, _ => None
      end
  end.

Section Routes.

Variable E : Externals.
(** [bcrypt.hash(s, 10)] on a string, given the salt it draws. *)
Variable bcrypt_hash : string -> string -> string.

Abbreviation int_col_eq := (Sqlite.int_col_eq (sqlite_int_of_text E)).
Abbreviation text_col_eq := (Sqlite.text_col_eq (sqlite_text_of_number E)).
Abbreviation text_of_bound := (Sqlite.text_of_bound (sqlite_text_of_number E)).
Abbreviation int_of_bound := (Sqlite.int_of_bound (sqlite_int_of_text E)).
Abbreviation int_cell_of_bound := (Sqlite.int_cell_of_bound (sqlite_int_of_text E)).

(** [bcrypt.hash(s, 10)]: bcryptjs rejects unless [s] is a string. *)
Definition bcrypt_hash_call (s : Value) (salt : string) : Result string :=
  match s with
  | JStr p => Ok (bcrypt_hash p salt)
  | _ => Throw ("Error: Illegal arguments: " ++ typeof s ++ ", number")
  end.

(* --------------------------------------------------------------------- *)
(** *** [GET /api/notifications] *)

(** The rows of [{ notifications: rows }]:
    [ORDER BY created_at DESC LIMIT 50]. *)
Definition get_api_notifications (db : Db) : Db * list NotificationRow :=
  (db, firstn 50 (sort_by notification_newer (notifications db))).

(* --------------------------------------------------------------------- *)
(** *** [POST /api/register] *)

Definition post_api_register (s : Site) (now now' salt : string) (req : Request)
    : Site * Response :=
  match
    email <- get (body req) "email" ;;
    password <- get (body req) "password" ;;
    name <- get (body req) "name" ;;
    if negb (truthy email) || negb (truthy password)
    then Ok (s, error_json 400 "email & password required")
    else
      match find (fun u => text_col_eq (u_email u) (bind_param email))
                 (users (core s)) with
      | Some _ => Ok (s, error_json 400 "user exists")
      | None =>
          hash <- bcrypt_hash_call password salt ;;
          let id := next_id (seq_users s) (map u_id (users (core s))) in
          let row := {| u_id := id;
                        u_email := text_of_bound (bind_param email);
                        u_password_hash := Some hash;
                        u_name := text_of_bound
                                    (bind_param (or_else name (JStr "")));
                        u_created_at := Some now |} in
          let rows := (users (core s) ++ [row])%list in
          let s' := {| core := with_users (core s) rows;
                       addresses := addresses s; seq_users := id;
                       seq_admins := seq_admins s;
                       seq_addresses := seq_addresses s |} in
          match find (fun u => text_col_eq (u_email u) (bind_param email)) rows with
          | Some user =>
              let token :=
                signToken E (JObj [("id", js_of_int (u_id user));
                                   ("email", js_of_text (u_email user));
                                   ("role", JStr "user")]) now' in
              Ok (s', Json 200 (JObj [
                ("user", JObj [("id", js_of_int (u_id user));
                               ("email", js_of_text (u_email user));
                               ("name", js_of_text (u_name user))]);
                ("token", JStr token)]))
          | None =>
              Ok (s', error_json 500
                        "TypeError: Cannot read properties of undefined (reading 'id')")
          end
      end
  with
  | Ok x => x
  | Throw e => (s, error_json 500 e)
  end.

(* --------------------------------------------------------------------- *)
(** *** [POST /api/admin/create] *)

Definition create_admin (s : Site) (now salt : string) (req : Request)
    : Site * Response :=
  match
    email <- get (body req) "email" ;;
    password <- get (body req) "password" ;;
    name <- get (body req) "name" ;;
    city <- get (body req) "city" ;;
    if negb (truthy email) || negb (truthy password)
    then Ok (s, error_json 400 "email & password required")
    else
      match find (fun a => text_col_eq (a_email a) (bind_param email))
                 (admins (core s)) with
      | Some _ => Ok (s, error_json 400 "admin exists")
      | None =>
          hash <- bcrypt_hash_call password salt ;;
          let id := next_id (seq_admins s) (map a_id (admins (core s))) in
          let row := {| a_id := id;
                        a_email := text_of_bound (bind_param email);
                        a_password_hash := Some hash;
                        a_name := text_of_bound
                                    (bind_param (or_else name (JStr "")));
                        a_city := text_of_bound
                                    (bind_param (or_else city (JStr "All")));
                        a_created_at := Some now |} in
          Ok ({| core := with_admins (core s) (admins (core s) ++ [row]);
                 addresses := addresses s; seq_users := seq_users s;
                 seq_admins := id; seq_addresses := seq_addresses s |},
              ok_json)
      end
  with
  | Ok x => x
  | Throw e => (s, error_json 500 e)
  end.

Definition post_api_admin_create (s : Site) (t0 now salt : string) (req : Request)
    : Site * Response :=
  protected E "admin" t0 req (fun r => (s, r))
    (fun user => create_admin s now salt req).

(* --------------------------------------------------------------------- *)
(** *** [GET /api/admin/list] *)

(** [SELECT id,email,name,city,created_at FROM admins ORDER BY id] *)
Definition list_admins (db : Db) : list AdminListRow :=
  map (fun a => {| al_id := a_id a; al_email := a_email a; al_name := a_name a;
                   al_city := a_city a; al_created_at := a_created_at a |})
      (sort_by (fun a1 a2 => a_id a1 <=? a_id a2) (admins db)).

(** The rows of [{ admins: rows }], or the answer of the middleware. *)
Definition get_api_admin_list (db : Db) (t0 : string) (req : Request)
    : Db * (Response + list AdminListRow) :=
  protected E "admin" t0 req (fun r => (db, inl r))
    (fun user => (db, inr (list_admins db))).

(* --------------------------------------------------------------------- *)
(** *** [POST /api/admin/menu] *)

(** The handler body; [now_ms] is [Date.now()]. *)
Definition create_menu_item (db : Db) (now_ms : Z) (req : Request)
    : Db * Response :=
  match
    id <- get (body req) "id" ;;
    meal <- get (body req) "meal" ;;
    name_en <- get (body req) "name_en" ;;
    name_hi <- get (body req) "name_hi" ;;
    price <- get (body req) "price" ;;
    description_en <- get (body req) "description_en" ;;
    description_hi <- get (body req) "description_hi" ;;
    city <- get (body req) "city" ;;
    available_from <- get (body req) "available_from" ;;
    available_to <- get (body req) "available_to" ;;
    active <- get (body req) "active" ;;
    let iid := or_else id (JStr ("m" ++ Z_to_string now_ms)) in
    let text (v : Value) := text_of_bound (bind_param v) in
    let int (v : Value) := int_cell_of_bound (bind_param v) in
    Ok (iid,
        {| m_id := text iid; m_meal := text meal; m_name_en := text name_en;
           m_name_hi := text name_hi;
           m_price := int (or_else price (js_of_int 0));
           m_description_en := text (or_else description_en (JStr ""));
           m_description_hi := text (or_else description_hi (JStr ""));
           m_city := text (or_else city (JStr "All"));
           m_available_from := text (or_else available_from (JStr ""));
           m_available_to := text (or_else available_to (JStr ""));
           m_active := int (js_of_int (if truthy active then 1 else 0)) |})
  with
  | Throw e => (db, error_json 500 e)
  | Ok (iid, row) =>
      if existsb (fun r => match m_id r with
                           | Some _ => text_eqb (m_id r) (m_id row)
                           | None => false
                           end) (menu db)
      then (db, error_json 500
                  "Error: SQLITE_CONSTRAINT: UNIQUE constraint failed: menu.id")
      else (with_menu db (menu db ++ [row]),
            Json 200 (JObj [("ok", JBool true); ("id", iid)]))
  end.

Definition post_api_admin_menu (db : Db) (t0 : string) (now_ms : Z) (req : Request)
    : Db * Response :=
  protected E "admin" t0 req (fun r => (db, r))
    (fun user => create_menu_item db now_ms req).

(* --------------------------------------------------------------------- *)
(** *** [DELETE /api/admin/menu/:id] *)

(** [DELETE FROM menu WHERE id = ?] *)
Definition delete_menu_item (db : Db) (req : Request) : Db * Response :=
  let id := params_id req in
  (with_menu db
     (filter (fun r => negb (text_col_eq (m_id r) (bind_param (JStr id)))) (menu db)),
   ok_json).

Definition delete_api_admin_menu_id (db : Db) (t0 : string) (req : Request)
    : Db * Response :=
  protected E "admin" t0 req (fun r => (db, r))
    (fun user => delete_menu_item db req).

(* --------------------------------------------------------------------- *)
(** *** [GET /api/orders] *)

(** [user_id = ?] on a stored row. The column has INTEGER affinity: the
    bound value it was given is compared as the integer it left there,
    NULL equals nothing, and [None] marks a stored value that is no
    integer. *)
Definition user_id_eq (stored param : Bound) : option bool :=
  match int_of_bound stored with
  | Some (Some z) => Some (int_col_eq z param)
  | Some None => Some false
  | None => None
  end.

(** The rows of [{ orders: rows }], or the 500 answer. The outer [None]:
    some stored [user_id] is no integer. *)
Definition list_orders_for_user (user : Value) (db : Db)
    : option (Db * (Response + list OrderRow)) :=
  match get user "id" with
  | Throw e => Some (db, inl (error_json 500 e))
  | Ok user_id =>
      match filter_option (fun o => user_id_eq (o_user_id o) (bind_param user_id))
                          (orders db) with
      | Some rows => Some (db, inr (sort_by order_newer rows))
      | None => None
      end
  end.

Definition get_api_orders (db : Db) (t0 : string) (req : Request)
    : option (Db * (Response + list OrderRow)) :=
  protected E "user" t0 req (fun r => Some (db, inl r))
    (fun user => list_orders_for_user user db).

(* --------------------------------------------------------------------- *)
(** *** [POST /api/address] and [GET /api/address] *)

Definition address_user_exists (s : Site) (user_id : Bound) : bool :=
  user_exists E (core s) user_id.

Definition save_address (user : Value) (s : Site) (now : string) (req : Request)
    : Site * Response :=
  match
    name <- get (body req) "name" ;;
    line <- get (body req) "line" ;;
    landmark <- get (body req) "landmark" ;;
    pin <- get (body req) "pin" ;;
    city <- get (body req) "city" ;;
    user_id <- get user "id" ;;
    let text (v : Value) := text_of_bound (bind_param (or_else v (JStr ""))) in
    if address_user_exists s (bind_param user_id) then
      let id := next_id (seq_addresses s) (map ad_id (addresses s)) in
      Ok ({| core := core s;
             addresses := addresses s ++
               [{| ad_id := id; ad_user_id := bind_param user_id;
                   ad_name := text name; ad_line := text line;
                   ad_landmark := text landmark; ad_pin := text pin;
                   ad_city := text city; ad_created_at := Some now |}];
             seq_users := seq_users s; seq_admins := seq_admins s;
             seq_addresses := id |},
          ok_json)
    else Throw "Error: SQLITE_CONSTRAINT: FOREIGN KEY constraint failed"
  with
  | Ok x => x
  | Throw e => (s, error_json 500 e)
  end.

Definition post_api_address (s : Site) (t0 now : string) (req : Request)
    : Site * Response :=
  protected E "user" t0 req (fun r => (s, r))
    (fun user => save_address user s now req).

(** [WHERE user_id = ? ORDER BY created_at DESC LIMIT 10] *)
Definition list_addresses (user : Value) (s : Site)
    : option (Site * (Response + list AddressRow)) :=
  match get user "id" with
  | Throw e => Some (s, inl (error_json 500 e))
  | Ok user_id =>
      match filter_option (fun a => user_id_eq (ad_user_id a) (bind_param user_id))
                          (addresses s) with
      | Some rows => Some (s, inr (firstn 10 (sort_by address_newer rows)))
      | None => None
      end
  end.

Definition get_api_address (s : Site) (t0 : string) (req : Request)
    : option (Site * (Response + list AddressRow)) :=
  protected E "user" t0 req (fun r => Some (s, inl r))
    (fun user => list_addresses user s).

(* --------------------------------------------------------------------- *)
(** *** [initDb] *)

(** One turn of the loop over the default administrators. *)
Definition seed_admin (s : Site) (email pass name city now salt : string) : Site :=
  match find (fun a => text_col_eq (a_email a) (bind_param (JStr email)))
             (admins (core s)) with
  | Some _ => s
  | None =>
      let id := next_id (seq_admins s) (map a_id (admins (core s))) in
      {| core := with_admins (core s)
                   (admins (core s) ++
                    [{| a_id := id; a_email := Some email;
                        a_password_hash := Some (bcrypt_hash pass salt);
                        a_name := Some name; a_city := Some city;
                        a_created_at := Some now |}]);
         addresses := addresses s; seq_users := seq_users s;
         seq_admins := id; seq_addresses := seq_addresses s |}
  end.

(** The sample menu of [initDb]. *)
Definition sample_menu : list MenuRow := [Sample.b1; Sample.b2; Sample.l1; Sample.d1].

(** The sample menu and the welcome notification, inserted when the menu
    holds no row. *)
Definition seed_menu (s : Site) (now : string) : Site :=
  match menu (core s) with
  | _ :: _ => s
  | [] =>
      with_core s
        (insert_notification (with_menu (core s) sample_menu)
           "Welcome to Mumma Tiffin — live notifications enabled!" now
           (bind_param (JStr "All")))
  end.

(** [initDb], the tables being created: [now1], [now2], [now3] and
    [salt1], [salt2] are the clock readings and salts of the inserts that
    take place. *)
Definition initDb (s : Site) (now1 now2 now3 salt1 salt2 : string) : Site :=
  let s1 := seed_admin s "admin@mummatiffin.com" "admin123" "Super Admin" "All"
              now1 salt1 in
  let s2 := seed_admin s1 "manager@mummatiffin.com" "manager123" "City Manager"
              "Delhi" now2 salt2 in
  seed_menu s2 now3.

End Routes.

(** More sample data: the site around [Sample.db], and a salted stand-in
    for [bcrypt.hash]. *)
Module Sample2.

Definition hash (p salt : string) : string := Reference.hash p.

Definition site : Site :=
  {| core := Sample.db; addresses := []; seq_users := 1; seq_admins := 3;
     seq_addresses := 0 |}.

(** An order stored without a snapshot, and one whose snapshot is the
    JSON text [null]. *)
Definition bare_order : OrderRow :=
  {| o_id := 4; o_user_id := BNum (of_Z 1); o_total := BNum (of_Z 0);
     o_info := None; o_status := BText "pending";
     o_created_at := Some "2024-05-01T09:30:00.000Z" |}.

Definition null_order : OrderRow :=
  Sample.order 5 "null" "2024-05-01T09:40:00.000Z".

Definition db_more : Db :=
  {| users := users Sample.db; admins := admins Sample.db; menu := menu Sample.db;
     notifications := notifications Sample.db;
     orders := orders Sample.db ++ [bare_order; null_order];
     seq_notifications := 1; seq_orders := 5 |}.

Definition admin_request (a : AdminRow) (id : string) (body : Value) : Request :=
  Sample.request (Sample.bearer (Sample.admin_token a)) JUndefined id body.

Definition user_request (u : UserRow) (body : Value) : Request :=
  Sample.request (Sample.bearer (Sample.user_token u)) JUndefined "" body.

Definition empty_db : Db :=
  {| users := []; admins := []; menu := []; notifications := []; orders := [];
     seq_notifications := 0; seq_orders := 0 |}.

Definition empty_site : Site :=
  {| core := empty_db; addresses := []; seq_users := 0; seq_admins := 0;
     seq_addresses := 0 |}.

End Sample2.

(* ===================================================================== *)
(** * Properties *)
(* ===================================================================== *)

Unset Implicit Arguments.

(** ** ORDER BY: the sort is a permutation and yields an ordered list *)

Section SortFacts.

Variable A : Type.
Variable le : A -> A -> bool.

Lemma insert_sorted_perm (x : A) (l : list A) :
  Permutation (insert_sorted le x l) (x :: l).
Proof.
  induction l as [|y l IH]; simpl.
  - apply Permutation_refl.
  - destruct (le x y).
    + apply Permutation_refl.
    + eapply perm_trans; [apply perm_skip, IH | apply perm_swap].
Qed.

Lemma sort_by_perm (l : list A) : Permutation (sort_by le l) l.
Proof.
  induction l as [|x l IH]; simpl.
  - apply perm_nil.
  - eapply perm_trans; [apply insert_sorted_perm | apply perm_skip, IH].
Qed.

Lemma sort_by_In (x : A) (l : list A) : In x (sort_by le l) <-> In x l.
Proof.
  split; apply Permutation_in;
    [apply sort_by_perm | apply Permutation_sym, sort_by_perm].
Qed.

Hypothesis le_total : forall a b, le a b = true \/ le b a = true.
Hypothesis le_trans : forall a b c, le a b = true -> le b c = true -> le a c = true.

Let ordered : list A -> Prop := StronglySorted (fun a b => le a b = true).

Lemma insert_sorted_ordered (x : A) (l : list A) :
  ordered l -> ordered (insert_sorted le x l).
Proof.
  unfold ordered. induction 1 as [|y l Hl IH Hy]; simpl.
  - constructor; constructor.
  - destruct (le x y) eqn:Hxy.
    + constructor.
      * constructor; assumption.
      * constructor; [assumption|].
        rewrite Forall_forall in *. intros z Hz. eauto.
    + constructor; [assumption|].
      rewrite Forall_forall in *. intros z Hz.
      apply (Permutation_in _ (insert_sorted_perm x l)) in Hz.
      destruct Hz as [<-|Hz]; [|auto].
      destruct (le_total x y) as [H|H]; congruence.
Qed.

Lemma sort_by_ordered (l : list A) : ordered (sort_by le l).
Proof.
  induction l; simpl; [constructor | apply insert_sorted_ordered; assumption].
Qed.

Lemma filter_ordered (f : A -> bool) (l : list A) :
  ordered l -> ordered (filter f l).
Proof.
  unfold ordered. induction 1 as [|y l Hl IH Hy]; simpl; [constructor|].
  destruct (f y); [|assumption].
  constructor; [assumption|].
  rewrite Forall_forall in *. intros z Hz.
  apply filter_In in Hz. apply Hy, Hz.
Qed.

End SortFacts.

(** ** The BINARY collation is a total order *)

Lemma string_leb_iff (s t : string) :
  String.leb s t = true <-> s = t \/ String_as_OT.lt s t.
Proof.
  unfold String.leb.
  destruct (String.compare s t) eqn:Hc.
  - apply String_as_OT.cmp_eq in Hc. tauto.
  - apply String_as_OT.cmp_lt in Hc. tauto.
  - split; [discriminate|].
    intros [->|Hlt].
    + assert (String_as_OT.cmp t t = Eq) as H by (apply String_as_OT.cmp_eq; reflexivity).
      unfold String_as_OT.cmp in H. congruence.
    + apply String_as_OT.cmp_lt in Hlt. unfold String_as_OT.cmp in Hlt. congruence.
Qed.

Lemma string_leb_trans (s t u : string) :
  String.leb s t = true -> String.leb t u = true -> String.leb s u = true.
Proof.
  rewrite !string_leb_iff.
  intros [->|H1] [->|H2]; auto.
  right. eapply String_as_OT.lt_trans; eassumption.
Qed.

Lemma text_le_total (a b : option string) : text_le a b = true \/ text_le b a = true.
Proof.
  destruct a as [s|], b as [t|]; simpl; auto using String.leb_total.
Qed.

Lemma text_le_trans (a b c : option string) :
  text_le a b = true -> text_le b c = true -> text_le a c = true.
Proof.
  destruct a as [s|], b as [t|], c as [u|]; simpl; try congruence.
  apply string_leb_trans.
Qed.

Lemma text_le_antisym (a b : option string) :
  text_le a b = true -> text_le b a = true -> a = b.
Proof.
  destruct a as [s|], b as [t|]; simpl; try congruence.
  intros H1 H2. f_equal. apply String.leb_antisym; assumption.
Qed.

Lemma text_eqb_eq (a b : option string) : text_eqb a b = true <-> a = b.
Proof.
  destruct a as [s|], b as [t|]; simpl; split; try congruence.
  - intros H. apply String.eqb_eq in H. congruence.
  - intros [= ->]. apply String.eqb_refl.
Qed.

(** [ORDER BY meal, id]: by meal first, by id among equal meals. *)
Lemma menu_le_lex (r1 r2 : MenuRow) :
  menu_le r1 r2 = true <->
  (m_meal r1 <> m_meal r2 /\ text_le (m_meal r1) (m_meal r2) = true)
  \/ (m_meal r1 = m_meal r2 /\ text_le (m_id r1) (m_id r2) = true).
Proof.
  unfold menu_le.
  destruct (text_eqb (m_meal r1) (m_meal r2)) eqn:He.
  - apply text_eqb_eq in He. tauto.
  - assert (m_meal r1 <> m_meal r2) as Hne.
    { intros H. apply text_eqb_eq in H. congruence. }
    tauto.
Qed.

Lemma menu_le_total (r1 r2 : MenuRow) : menu_le r1 r2 = true \/ menu_le r2 r1 = true.
Proof.
  rewrite !menu_le_lex.
  destruct (text_eqb (m_meal r1) (m_meal r2)) eqn:He.
  - apply text_eqb_eq in He.
    destruct (text_le_total (m_id r1) (m_id r2)); auto.
  - assert (m_meal r1 <> m_meal r2) as Hne.
    { intros H. apply text_eqb_eq in H. congruence. }
    destruct (text_le_total (m_meal r1) (m_meal r2)); auto.
Qed.

Lemma menu_le_trans (r1 r2 r3 : MenuRow) :
  menu_le r1 r2 = true -> menu_le r2 r3 = true -> menu_le r1 r3 = true.
Proof.
  rewrite !menu_le_lex.
  intros [[Hne12 Hle12]|[He12 Hle12]] [[Hne23 Hle23]|[He23 Hle23]].
  - left. split; [|eapply text_le_trans; eassumption].
    intros He. rewrite He in Hle12.
    apply Hne23. apply text_le_antisym; assumption.
  - left. rewrite <- He23. auto.
  - left. rewrite He12. auto.
  - right. split; [congruence | eapply text_le_trans; eassumption].
Qed.

Lemma filter_perm {A} (f : A -> bool) (l l' : list A) :
  Permutation l l' -> Permutation (filter f l) (filter f l').
Proof.
  induction 1 as [|x l l' _ IH|x y l|l l' l'' _ IH1 _ IH2]; simpl.
  - constructor.
  - destruct (f x); [apply perm_skip|]; assumption.
  - destruct (f x), (f y); try apply Permutation_refl. apply perm_swap.
  - eapply perm_trans; eassumption.
Qed.

Lemma StronglySorted_weaken {A} (R R' : A -> A -> Prop) (l : list A) :
  (forall a b, R a b -> R' a b) -> StronglySorted R l -> StronglySorted R' l.
Proof.
  intros HR. induction 1 as [|a l _ IH Ha]; constructor; [exact IH|].
  eapply Forall_impl; [|exact Ha]. intros b. apply HR.
Qed.

Lemma col_strict_eq_string (c : option string) (s : string) :
  col_strict_eq c (JStr s) = true <-> c = Some s.
Proof.
  destruct c as [t|]; simpl; [|split; discriminate].
  rewrite String.eqb_eq. split; [intros -> | intros [= ->]]; reflexivity.
Qed.

Lemma active_is_1_iff (f : string -> bool) (c : IntCell) :
  active_is_1 f c = true
  <-> c = IInt 1 \/ exists s, c = IKept (BText s) /\ f s = true.
Proof.
  destruct c as [|z|[|n|s]]; simpl.
  - split; [discriminate | intros [[=]|[s [[=] _]]]].
  - rewrite Z.eqb_eq. split; [intros ->; auto | intros [[= ->]|[s [[=] _]]]; reflexivity].
  - split; [discriminate | intros [[=]|[s [[=] _]]]].
  - split; [discriminate | intros [[=]|[s [[=] _]]]].
  - split; [intros H; right; eauto | intros [[=]|[s' [[= ->] H]]]; exact H].
Qed.

(** ** [GET /api/menu] *)

(** C6. For every menu table and every value of the [city] query
    parameter, the response lists exactly the rows of the menu with
    [active = 1] whose city is the filter or ["All"], each as often as the
    table holds it, ordered by meal and then by id. The filter counts as
    absent when it is falsy ([!city]): with no parameter every active row is
    listed, and with a non-empty string [c] the rows of city [c] or
    ["All"]. A row counts as active when its [active] column holds the
    integer 1, or a text kept as such that [==] reads as 1. *)
Theorem publicList_active_city_sorted (E : Externals) (db : Db) (req : Request) :
  exists rows,
    get_api_menu E db req = (db, MenuJson rows)
    /\ (forall r, In r rows <->
                  In r (menu db)
                  /\ (m_active r = IInt 1
                      \/ exists s, m_active r = IKept (BText s)
                                   /\ kept_text_eq_1 E s = true)
                  /\ (truthy (query_city req) = false
                      \/ col_strict_eq (m_city r) (query_city req) = true
                      \/ m_city r = Some "All"))
    /\ (query_city req = JUndefined ->
        forall r, In r rows <->
                  In r (menu db)
                  /\ (m_active r = IInt 1
                      \/ exists s, m_active r = IKept (BText s)
                                   /\ kept_text_eq_1 E s = true))
    /\ (forall c, query_city req = JStr c -> c <> "" ->
        forall r, In r rows <->
                  In r (menu db)
                  /\ (m_active r = IInt 1
                      \/ exists s, m_active r = IKept (BText s)
                                   /\ kept_text_eq_1 E s = true)
                  /\ (m_city r = Some c \/ m_city r = Some "All"))
    /\ Permutation rows (filter (menu_visible E (query_city req)) (menu db))
    /\ StronglySorted
         (fun r1 r2 =>
            (m_meal r1 <> m_meal r2 /\ text_le (m_meal r1) (m_meal r2) = true)
            \/ (m_meal r1 = m_meal r2 /\ text_le (m_id r1) (m_id r2) = true))
         rows.
Proof.
  exists (filter (menu_visible E (query_city req)) (sort_by menu_le (menu db))).
  assert (forall r,
    In r (filter (menu_visible E (query_city req)) (sort_by menu_le (menu db))) <->
    In r (menu db)
    /\ (m_active r = IInt 1
        \/ exists s, m_active r = IKept (BText s) /\ kept_text_eq_1 E s = true)
    /\ (truthy (query_city req) = false
        \/ col_strict_eq (m_city r) (query_city req) = true
        \/ m_city r = Some "All")) as Hin.
  { intros r. rewrite filter_In, sort_by_In. unfold menu_visible.
    rewrite andb_true_iff, !orb_true_iff, negb_true_iff, active_is_1_iff,
      col_strict_eq_string.
    tauto. }
  split; [reflexivity|]. split; [exact Hin|].
  split; [|split; [|split]].
  - intros Hc r. rewrite Hin, Hc. simpl. tauto.
  - intros c Hc Hne r. rewrite Hin, Hc, col_strict_eq_string. simpl.
    rewrite negb_false_iff, String.eqb_eq. tauto.
  - apply filter_perm, sort_by_perm.
  - assert (StronglySorted (fun r1 r2 => menu_le r1 r2 = true)
              (filter (menu_visible E (query_city req)) (sort_by menu_le (menu db))))
      as Hsorted.
    { apply filter_ordered, sort_by_ordered.
      - apply menu_le_total.
      - apply menu_le_trans. }
    revert Hsorted. apply StronglySorted_weaken.
    intros r1 r2. apply menu_le_lex.
Qed.

(** The example of the specification: [publicList("Delhi")] on the seeded
    menu leaves out the Pune item and the inactive one, and keeps the
    items scoped ["All"]. *)
Example publicList_Delhi :
  get_api_menu Reference.externals Sample.db
    (Sample.request None (JStr "Delhi") "" JUndefined)
  = (Sample.db, MenuJson [Sample.b1; Sample.d1; Sample.l1]).
Proof. vm_compute. reflexivity. Qed.

(** ** Middleware *)

Section Middleware.

Variable E : Externals.

(** A request that carries a verifiable token of the required role reaches
    the handler, with the token's claims as [req.user]. *)
Lemma protected_pass {T} (role t0 : string) (req : Request) (claims : Value)
    (reject : Response -> T) (handler : Value -> T) :
  verifyAuthHeader E t0 req = inr claims ->
  requireRole role claims = None ->
  protected E role t0 req reject handler = handler claims.
Proof.
  unfold protected. intros -> ->. reflexivity.
Qed.

(** Claims that pass [requireRole] are truthy, so reading a property of
    them does not throw. *)
Lemma requireRole_pass_get (role : string) (claims : Value) (k : string) :
  requireRole role claims = None -> exists v, get claims k = Ok v.
Proof.
  unfold requireRole.
  destruct claims; simpl; try discriminate; eauto.
Qed.

End Middleware.

(** ** [GET /api/admin/orders] *)

Lemma strict_eq_string_iff (v : Value) (s : string) :
  strict_eq_string v s = true <-> v = JStr s.
Proof.
  destruct v; simpl; try (split; discriminate).
  rewrite String.eqb_eq. split; [intros -> | intros [= ->]]; reflexivity.
Qed.

(** The predicate of the filter, on an administrator's city and the city
    resolved from an order. *)
Lemma cityIsVisible_iff (adminCity : string) (city : Value) :
  cityIsVisible (Some adminCity) city = true <->
  adminCity = "All" \/ city = JStr "All" \/ city = JStr adminCity.
Proof.
  unfold cityIsVisible.
  rewrite !orb_true_iff, col_strict_eq_string. simpl.
  rewrite !strict_eq_string_iff.
  split.
  - intros [[[= ->]|H]|H]; auto.
  - intros [->|[H|H]]; auto.
Qed.

Lemma filter_throwing_spec {A} (f : A -> Result bool) (l : list A) :
  (forall x, In x l -> exists b, f x = Ok b) ->
  exists kept,
    filter_throwing f l = Ok kept
    /\ forall x, In x kept <-> In x l /\ f x = Ok true.
Proof.
  induction l as [|y l IH]; intros Hf; simpl.
  - exists []. split; [reflexivity|]. simpl. tauto.
  - destruct (Hf y (or_introl eq_refl)) as [b Hb].
    destruct IH as [kept [Hk Hin]].
    { intros x Hx. apply Hf. right. exact Hx. }
    rewrite Hb, Hk. simpl.
    exists (if b then y :: kept else kept). split; [reflexivity|].
    intros x. destruct b; simpl; rewrite Hin.
    + split.
      * intros [<-|[H1 H2]]; auto.
      * intros [[<-|H1] H2]; auto.
    + split.
      * intros [H1 H2]; auto.
      * intros [[<-|H1] H2]; [congruence | auto].
Qed.

Section AdminOrders.

Variable E : Externals.

(** With the administrator's row at hand the filter callback returns:
    the predicate on the resolved city, or, when reading the snapshot
    threw, whether the administrator's city is ["All"]. *)
Lemma order_visible_found (admin : AdminRow) (r : AdminOrderRow) :
  order_visible E (Some admin) r =
  Ok match parse_info E (o_info (ao_order r)) with
     | Ok info =>
         match resolved_city info with
         | Ok city => cityIsVisible (a_city admin) city
         | Throw _ => col_strict_eq (a_city admin) (JStr "All")
         end
     | Throw _ => col_strict_eq (a_city admin) (JStr "All")
     end.
Proof.
  unfold order_visible, order_visible_try.
  destruct (parse_info E (o_info (ao_order r))) as [info|e]; simpl; [|reflexivity].
  destruct (resolved_city info) as [city|e]; reflexivity.
Qed.

(** The listing of an administrator whose row is found: the joined orders
    on which the callback returns [true]. *)
Lemma list_orders_for_admin_rows (claims : Value) (db : Db) (uid : Value)
    (admin : AdminRow) :
  get claims "id" = Ok uid ->
  find (fun a => Sqlite.int_col_eq (sqlite_int_of_text E) (a_id a)
                   (Sqlite.bind_param uid)) (admins db)
    = Some admin ->
  exists rows,
    list_orders_for_admin E claims db = (db, OrdersJson rows)
    /\ forall o, In o (orders db) ->
         (In (join_user E db o) rows <->
          order_visible E (Some admin) (join_user E db o) = Ok true).
Proof.
  intros Hid Hadmin. unfold list_orders_for_admin. rewrite Hid. simpl.
  rewrite Hadmin.
  destruct (filter_throwing_spec (order_visible E (Some admin))
              (map (join_user E db) (sort_by order_newer (orders db))))
    as [rows [Hrows Hin]].
  { intros x _. rewrite order_visible_found. eauto. }
  rewrite Hrows. simpl. exists rows. split; [reflexivity|].
  intros o Ho. rewrite Hin. split; [tauto|].
  intros Hv. split; [|exact Hv].
  apply in_map, sort_by_In, Ho.
Qed.

End AdminOrders.

(** C1. An administrator whose city scope is [adminCity] is shown an order
    whose snapshot resolves to the city [resourceCity] if and only if
    [adminCity] is ["All"], or [resourceCity] is ["All"], or the two are
    equal. In particular the predicate holds for every resource city when
    the scope is ["All"], and fails for a scope [C] other than ["All"] and
    a resource city other than [C] and ["All"]. *)
Theorem admin_order_visibility (E : Externals) (db : Db) (t0 : string)
    (req : Request) (claims uid : Value) (admin : AdminRow) (adminCity : string)
    (o : OrderRow) (info : Value) (resourceCity : string) :
  verifyAuthHeader E t0 req = inr claims ->
  requireRole "admin" claims = None ->
  get claims "id" = Ok uid ->
  find (fun a => Sqlite.int_col_eq (sqlite_int_of_text E) (a_id a)
                   (Sqlite.bind_param uid)) (admins db)
    = Some admin ->
  a_city admin = Some adminCity ->
  In o (orders db) ->
  parse_info E (o_info o) = Ok info ->
  resolved_city info = Ok (JStr resourceCity) ->
  (exists rows,
     get_api_admin_orders E db t0 req = (db, OrdersJson rows)
     /\ (In (join_user E db o) rows <->
         adminCity = "All" \/ resourceCity = "All" \/ adminCity = resourceCity))
  /\ (forall A R : string,
        cityIsVisible (Some A) (JStr R) = true <-> A = "All" \/ R = "All" \/ A = R)
  /\ (forall R : string, cityIsVisible (Some "All") (JStr R) = true)
  /\ (forall C R : string,
        C <> "All" -> R <> C -> R <> "All" ->
        cityIsVisible (Some C) (JStr R) = false).
Proof.
  intros Hauth Hrole Hid Hadmin Hcity Ho Hinfo Hres.
  assert (forall A R : string,
            cityIsVisible (Some A) (JStr R) = true <-> A = "All" \/ R = "All" \/ A = R)
    as Hpred.
  { intros A R. rewrite cityIsVisible_iff. split.
    - intros [H|[[= H]|[= H]]]; auto.
    - intros [H|[H|H]]; subst; auto. }
  split; [|split; [exact Hpred|split]].
  - destruct (list_orders_for_admin_rows E claims db uid admin Hid Hadmin) as [rows [Hrows Hin]].
    exists rows. split.
    + unfold get_api_admin_orders. rewrite (protected_pass E _ _ _ _ _ _ Hauth Hrole).
      exact Hrows.
    + rewrite (Hin o Ho), order_visible_found. simpl.
      rewrite Hinfo, Hres, Hcity, <- Hpred.
      split; [intros [= ->] | intros ->]; reflexivity.
  - intros R. apply Hpred. auto.
  - intros C R HC HR HA.
    destruct (cityIsVisible (Some C) (JStr R)) eqn:Hv; [|reflexivity].
    apply Hpred in Hv. destruct Hv as [H|[H|H]]; congruence.
Qed.

(** The Delhi manager is shown the order placed for Delhi. *)
Lemma admin_order_visibility_witness :
  exists rows,
    get_api_admin_orders Reference.externals Sample.db Sample.t1
      (Sample.request (Sample.bearer (Sample.admin_token Sample.delhi_admin))
                      JUndefined "" (JObj []))
    = (Sample.db, OrdersJson rows)
    /\ (In (join_user Reference.externals Sample.db Sample.delhi_order) rows <->
        "Delhi" = "All" \/ "Delhi" = "All" \/ "Delhi" = "Delhi").
Proof.
  refine (proj1 (admin_order_visibility Reference.externals Sample.db Sample.t1
            (Sample.request (Sample.bearer (Sample.admin_token Sample.delhi_admin))
                            JUndefined "" (JObj []))
            _ (js_of_int 2) Sample.delhi_admin "Delhi" Sample.delhi_order
            (JObj [("items", Sample.items_l1);
                   ("address", Sample.address_in "Delhi");
                   ("date", JStr "2024-05-01"); ("time", JStr "12:30");
                   ("meal", JStr "lunch")])
            "Delhi" _ _ _ _ _ _ _ _));
    try (vm_compute; reflexivity).
  simpl. auto.
Defined.

(** C3, as amended. An order whose stored snapshot fails to parse is
    listed exactly for the administrators whose city scope is ["All"]: the
    [catch] of the filter callback returns [admin.city === 'All']. *)
Theorem unparsable_order_only_for_All (E : Externals) (db : Db) (t0 : string)
    (req : Request) (claims uid : Value) (admin : AdminRow) (o : OrderRow)
    (e : string) :
  verifyAuthHeader E t0 req = inr claims ->
  requireRole "admin" claims = None ->
  get claims "id" = Ok uid ->
  find (fun a => Sqlite.int_col_eq (sqlite_int_of_text E) (a_id a)
                   (Sqlite.bind_param uid)) (admins db)
    = Some admin ->
  In o (orders db) ->
  parse_info E (o_info o) = Throw e ->
  exists rows,
    get_api_admin_orders E db t0 req = (db, OrdersJson rows)
    /\ (In (join_user E db o) rows <-> a_city admin = Some "All").
Proof.
  intros Hauth Hrole Hid Hadmin Ho Hinfo.
  destruct (list_orders_for_admin_rows E claims db uid admin Hid Hadmin) as [rows [Hrows Hin]].
  exists rows. split.
  - unfold get_api_admin_orders. rewrite (protected_pass E _ _ _ _ _ _ Hauth Hrole).
    exact Hrows.
  - rewrite (Hin o Ho), order_visible_found. simpl. rewrite Hinfo.
    rewrite <- col_strict_eq_string.
    split; [intros [= ->] | intros ->]; reflexivity.
Qed.

(** The super administrator is shown the order whose snapshot is no JSON. *)
Lemma unparsable_order_only_for_All_witness :
  exists rows,
    get_api_admin_orders Reference.externals Sample.db Sample.t1
      (Sample.request (Sample.bearer (Sample.admin_token Sample.super_admin))
                      JUndefined "" (JObj []))
    = (Sample.db, OrdersJson rows)
    /\ (In (join_user Reference.externals Sample.db Sample.broken_order) rows <->
        a_city Sample.super_admin = Some "All").
Proof.
  refine (unparsable_order_only_for_All Reference.externals Sample.db Sample.t1
            (Sample.request (Sample.bearer (Sample.admin_token Sample.super_admin))
                            JUndefined "" (JObj []))
            _ (js_of_int 1) Sample.super_admin Sample.broken_order
            "SyntaxError: Unexpected token in JSON"
            _ _ _ _ _ _);
    try (vm_compute; reflexivity).
  simpl. auto.
Defined.

(** C3 as stated fails: the snapshot of the second sample order does not
    parse, and the listing of the administrator scoped to Pune leaves that
    order out (it holds the Pune order only). *)
Lemma unparsable_order_hidden_from_Pune :
  parse_info Reference.externals (o_info Sample.broken_order)
    = Throw "SyntaxError: Unexpected token in JSON"
  /\ a_city Sample.pune_admin = Some "Pune"
  /\ get_api_admin_orders Reference.externals Sample.db Sample.t1
       (Sample.request (Sample.bearer (Sample.admin_token Sample.pune_admin))
                       JUndefined "" (JObj []))
     = (Sample.db,
        OrdersJson [join_user Reference.externals Sample.db Sample.pune_order]).
Proof. vm_compute. repeat split. Qed.

(** ** [PUT /api/admin/orders/:id] *)

Section StatusUpdate.

Variable E : Externals.

Lemma update_status_run (claims : Value) (db : Db) (now : string) (req : Request)
    (status : Value) :
  get (body req) "status" = Ok status ->
  update_status E claims db now req =
  match ToString (Number_toString E) status with
  | Ok text =>
      (insert_notification
         (update_order_status E db (Sqlite.bind_param status)
            (BText (params_id req)))
         ("Order " ++ params_id req ++ " status updated → " ++ text)
         now (BText "All"),
       ok_json)
  | Throw e =>
      (update_order_status E db (Sqlite.bind_param status) (BText (params_id req)),
       error_json 500 e)
  end.
Proof.
  intros Hs. unfold update_status. rewrite Hs. reflexivity.
Qed.



(** The UPDATE changes the status of the rows it matches, and nothing
    else. *)
Lemma update_order_status_rows (db : Db) (status id : Bound) :
  Forall2
    (fun o o' =>
       o_id o' = o_id o /\ o_user_id o' = o_user_id o
       /\ o_total o' = o_total o /\ o_info o' = o_info o
       /\ o_created_at o' = o_created_at o
       /\ o_status o' =
          if Sqlite.int_col_eq (sqlite_int_of_text E) (o_id o) id
          then status else o_status o)
    (orders db) (orders (update_order_status E db status id)).
Proof.
  unfold update_order_status. cbn [orders].
  induction (orders db) as [|o l IH]; cbn [map]; constructor; [|exact IH].
  destruct (Sqlite.int_col_eq (sqlite_int_of_text E) (o_id o) id);
    cbn; repeat split; reflexivity.
Qed.

End StatusUpdate.

(** C2, as amended. An order's status is changed only by a request that
    passes [verifyAuthHeader] and [requireRole('admin')], and the
    administrator's city scope plays no part: a request the middleware
    rejects changes nothing, and a request bearing any administrator's
    token, whatever that administrator's city and whatever city the order
    was placed for, gives every order whose id the path parameter names
    the submitted status, and changes nothing else of any order. The
    answer is [{ ok: true }], or 500 when the status has no conversion to
    a string for the notification, the UPDATE having run by then. *)
Theorem status_update_ignores_city (E : Externals) (db : Db) (t0 now : string)
    (req : Request) :
  (forall r, verifyAuthHeader E t0 req = inl r ->
             put_api_admin_orders_id E db t0 now req = (db, r))
  /\ (forall claims r,
        verifyAuthHeader E t0 req = inr claims ->
        requireRole "admin" claims = Some r ->
        put_api_admin_orders_id E db t0 now req = (db, r))
  /\ (forall claims status,
        verifyAuthHeader E t0 req = inr claims ->
        requireRole "admin" claims = None ->
        get (body req) "status" = Ok status ->
        exists db',
          put_api_admin_orders_id E db t0 now req
          = (db', match ToString (Number_toString E) status with
                  | Ok _ => ok_json
                  | Throw e => error_json 500 e
                  end)
          /\ Forall2
               (fun o o' =>
                  o_id o' = o_id o /\ o_user_id o' = o_user_id o
                  /\ o_total o' = o_total o /\ o_info o' = o_info o
                  /\ o_created_at o' = o_created_at o
                  /\ o_status o' =
                     if Sqlite.int_col_eq (sqlite_int_of_text E) (o_id o)
                          (BText (params_id req))
                     then Sqlite.bind_param status
                     else o_status o)
               (orders db) (orders db')).
Proof.
  unfold put_api_admin_orders_id, protected.
  split; [|split].
  - intros r ->. reflexivity.
  - intros claims r -> ->. reflexivity.
  - intros claims status -> -> Hstatus.
    rewrite (update_status_run E claims db now req status Hstatus).
    destruct (ToString (Number_toString E) status) as [text|e];
      (eexists; split; [reflexivity | apply update_order_status_rows]).
Qed.

(** The super administrator marks order 1 as delivered. *)
Lemma status_update_ignores_city_witness :
  exists db',
    put_api_admin_orders_id Reference.externals Sample.db Sample.t1 Sample.t2
      (Sample.request (Sample.bearer (Sample.admin_token Sample.super_admin))
                      JUndefined "1" (JObj [("status", JStr "delivered")]))
    = (db', ok_json)
    /\ map o_status (orders db') = [BText "delivered"; BText "pending"; BText "pending"].
Proof.
  destruct (proj2 (proj2
              (status_update_ignores_city Reference.externals Sample.db
                 Sample.t1 Sample.t2
                 (Sample.request (Sample.bearer (Sample.admin_token Sample.super_admin))
                                 JUndefined "1" (JObj [("status", JStr "delivered")]))))
              (Sample.admin_token_claims Sample.super_admin) (JStr "delivered")
              eq_refl eq_refl eq_refl) as [db' [Hrun _]].
  exists db'. split; [exact Hrun|].
  vm_compute in Hrun. injection Hrun as <-. reflexivity.
Defined.

(** C2 as stated fails: order 1 was placed for Delhi, the administrator is
    scoped to Pune, neither is ["All"], and the request changes the order's
    status from pending to delivered. *)
Lemma Pune_admin_updates_Delhi_order :
  a_city Sample.pune_admin = Some "Pune"
  /\ JS.bind (parse_info Reference.externals (o_info Sample.delhi_order)) resolved_city
     = Ok (JStr "Delhi")
  /\ map o_status (orders Sample.db) = [BText "pending"; BText "pending"; BText "pending"]
  /\ map o_status
       (orders (fst (put_api_admin_orders_id Reference.externals Sample.db
                       Sample.t1 Sample.t2
                       (Sample.request
                          (Sample.bearer (Sample.admin_token Sample.pune_admin))
                          JUndefined "1" (JObj [("status", JStr "delivered")])))))
     = [BText "delivered"; BText "pending"; BText "pending"].
Proof. vm_compute. repeat split. Qed.



(** A status that cannot be printed, [{ toString: 1 }]: the order is
    updated with the text the driver binds for an object, the message of
    the notification cannot be built, and the route answers 500 without
    recording one. *)
Example status_update_with_unprintable_status :
  let run :=
    put_api_admin_orders_id Reference.externals Sample.db Sample.t1 Sample.t2
      (Sample.request (Sample.bearer (Sample.admin_token Sample.delhi_admin))
         JUndefined "1" (JObj [("status", JObj [("toString", js_of_int 1)])])) in
  snd run = error_json 500 "TypeError: Cannot convert object to primitive value"
  /\ map o_status (orders (fst run))
     = [BText "[object Object]"; BText "pending"; BText "pending"]
  /\ notifications (fst run) = notifications Sample.db.
Proof. vm_compute. repeat split. Qed.

(** ** [POST /api/orders] *)

(** A value some property of which can be read is neither [undefined] nor
    [null], so every property of it can be read. *)
Lemma get_ok_any (v : Value) (k k' : string) (x : Value) :
  get v k = Ok x -> exists y, get v k' = Ok y.
Proof.
  destruct v; simpl; try discriminate; eauto.
Qed.

Lemma truthy_get (v : Value) (k : string) :
  truthy v = true -> exists y, get v k = Ok y.
Proof.
  destruct v; simpl; try discriminate; eauto.
Qed.

Section Protected.

Variable E : Externals.

(** The middleware answers 401, 403 or (never, in fact) 500. *)
Lemma verifyAuthHeader_reject (t0 : string) (req : Request) (r : Response) :
  verifyAuthHeader E t0 req = inl r -> exists msg, r = error_json 401 msg.
Proof.
  unfold verifyAuthHeader.
  destruct (authorization req) as [h|]; [|intros [= <-]; eauto].
  destruct (h =? "")%string; [intros [= <-]; eauto|].
  destruct (Str.split_on " " h) as [|p1 [|p2 [|p3 ps]]];
    try (intros [= <-]; eauto).
  destruct (jwt_verify E p2 t0); [discriminate | intros [= <-]; eauto].
Qed.

Lemma requireRole_reject (role : string) (claims : Value) (r : Response) :
  requireRole role claims = Some r ->
  exists status b, r = Json status b /\ status <> 200.
Proof.
  unfold requireRole.
  destruct (negb (truthy claims)).
  - intros [= <-]. eexists _, _. split; [reflexivity | discriminate].
  - destruct (get claims "role") as [v|e].
    + destruct (negb (role =? "")%string && negb (strict_eq_string v role));
        [|discriminate].
      intros [= <-]. eexists _, _. split; [reflexivity | discriminate].
    + intros [= <-]. eexists _, _. split; [reflexivity | discriminate].
Qed.

(** A protected route that answers 200 ran its handler, on claims that
    passed both middlewares. *)
Lemma protected_200 (role t0 : string) (req : Request) (db db' : Db)
    (handler : Value -> Db * Response) (b : Value) :
  protected E role t0 req (fun r => (db, r)) handler = (db', Json 200 b) ->
  exists claims,
    verifyAuthHeader E t0 req = inr claims
    /\ requireRole role claims = None
    /\ handler claims = (db', Json 200 b).
Proof.
  unfold protected.
  destruct (verifyAuthHeader E t0 req) as [r|claims] eqn:Hv.
  - destruct (verifyAuthHeader_reject _ _ _ Hv) as [msg ->]. discriminate.
  - destruct (requireRole role claims) as [r|] eqn:Hr.
    + destruct (requireRole_reject _ _ _ Hr) as [st [b' [-> Hst]]].
      intros [= _ H _]. congruence.
    + eauto.
Qed.

End Protected.

Section CreateOrder.

Variable E : Externals.

(** The guard [if (!items || !address)]: a falsy [items] or a falsy
    [address] is answered 400, and nothing is written. *)
Lemma create_order_guard (claims : Value) (db : Db) (now now' : string)
    (req : Request) (items address : Value) :
  get (body req) "items" = Ok items ->
  get (body req) "address" = Ok address ->
  truthy items = false \/ truthy address = false ->
  create_order E claims db now now' req = (db, error_json 400 "items & address required").
Proof.
  intros Hitems Haddress Hfalsy. unfold create_order.
  destruct (get_ok_any _ _ "total" _ Hitems) as [total ->].
  destruct (get_ok_any _ _ "date" _ Hitems) as [date ->].
  destruct (get_ok_any _ _ "time" _ Hitems) as [time ->].
  destruct (get_ok_any _ _ "meal" _ Hitems) as [meal ->].
  rewrite Hitems, Haddress. simpl.
  destruct Hfalsy as [-> | ->]; simpl; [|rewrite orb_true_r]; reflexivity.
Qed.

(** What a 200 answer of the handler body entails. *)
Lemma create_order_200 (claims : Value) (db db' : Db) (now now' : string)
    (req : Request) (b : Value) :
  create_order E claims db now now' req = (db', Json 200 b) ->
  exists items total address date time meal user_id city,
    get (body req) "items" = Ok items
    /\ get (body req) "total" = Ok total
    /\ get (body req) "address" = Ok address
    /\ get (body req) "date" = Ok date
    /\ get (body req) "time" = Ok time
    /\ get (body req) "meal" = Ok meal
    /\ truthy items = true /\ truthy address = true
    /\ get claims "id" = Ok user_id
    /\ get address "city" = Ok city
    /\ let lastID := next_id (seq_orders db) (map o_id (orders db)) in
       let info := JSON_stringify E (JObj [("items", items); ("address", address);
                                           ("date", date); ("time", time);
                                           ("meal", meal)]) in
       let user := Sqlite.bind_param user_id in
       user_exists E db user = true
       /\ b = JObj [("ok", JBool true); ("orderId", js_of_int lastID)]
       /\ orders db' =
          (orders db ++
           [{| o_id := lastID; o_user_id := user;
               o_total := Sqlite.bind_param
                            (or_else total (js_of_int 0));
               o_info := Some info; o_status := BText "pending";
               o_created_at := Some now |}])%list
       /\ notifications db' =
          (notifications db ++
           [{| n_id := next_id (seq_notifications db) (map n_id (notifications db));
               n_text := "New order " ++ Z_to_string lastID ++ " placed";
               n_created_at := now';
               n_target_city := Sqlite.bind_param
                                  (or_else city (JStr "All")) |}])%list.
Proof.
  unfold create_order.
  destruct (get (body req) "items") as [items|e] eqn:Hitems; simpl; [|discriminate].
  destruct (get (body req) "total") as [total|e] eqn:Htotal; simpl; [|discriminate].
  destruct (get (body req) "address") as [address|e] eqn:Haddress; simpl; [|discriminate].
  destruct (get (body req) "date") as [date|e] eqn:Hdate; simpl; [|discriminate].
  destruct (get (body req) "time") as [time|e] eqn:Htime; simpl; [|discriminate].
  destruct (get (body req) "meal") as [meal|e] eqn:Hmeal; simpl; [|discriminate].
  destruct (truthy items) eqn:Ti; simpl; [|discriminate].
  destruct (truthy address) eqn:Ta; simpl; [|discriminate].
  destruct (get claims "id") as [user_id|e] eqn:Hid; simpl; [|discriminate].
  unfold insert_order.
  destruct (user_exists E db (Sqlite.bind_param user_id)) eqn:Hu;
    simpl; [|discriminate].
  destruct (get address "city") as [city|e] eqn:Hcity; simpl; [|discriminate].
  intros [= <- <-].
  exists items, total, address, date, time, meal, user_id, city.
  repeat (split; [reflexivity || assumption|]).
  cbn zeta. repeat (split; [reflexivity || assumption|]). reflexivity.
Qed.

End CreateOrder.

(** C4, as amended. A [createOrder] request whose [items] or [address] is
    missing or otherwise falsy ([undefined], [null], [false], [0], the
    empty string) is answered 400 with [items & address required], and the
    database is left as it was. The guard tests presence: an empty list of
    items is truthy and passes it. *)
Theorem order_without_items_or_address_rejected (E : Externals) (db : Db)
    (t0 now now' : string) (req : Request) (claims items address : Value) :
  verifyAuthHeader E t0 req = inr claims ->
  requireRole "user" claims = None ->
  get (body req) "items" = Ok items ->
  get (body req) "address" = Ok address ->
  truthy items = false \/ truthy address = false ->
  post_api_orders E db t0 now now' req
  = (db, error_json 400 "items & address required").
Proof.
  intros Hauth Hrole Hitems Haddress Hfalsy.
  unfold post_api_orders. rewrite (protected_pass E _ _ _ _ _ _ Hauth Hrole).
  apply (create_order_guard E claims db now now' req items address); assumption.
Qed.

(** A request with an address and no [items] field. *)
Lemma order_without_items_or_address_rejected_witness :
  post_api_orders Reference.externals Sample.db Sample.t1 Sample.t1 Sample.t2
    (Sample.request (Sample.bearer (Sample.user_token Sample.asha)) JUndefined ""
       (JObj [("total", js_of_int 85); ("address", Sample.address_in "Delhi")]))
  = (Sample.db, error_json 400 "items & address required").
Proof.
  exact (order_without_items_or_address_rejected Reference.externals Sample.db
           Sample.t1 Sample.t1 Sample.t2
           (Sample.request (Sample.bearer (Sample.user_token Sample.asha)) JUndefined ""
              (JObj [("total", js_of_int 85); ("address", Sample.address_in "Delhi")]))
           (Sample.user_token_claims Sample.asha)
           JUndefined (Sample.address_in "Delhi")
           eq_refl eq_refl eq_refl eq_refl (or_introl eq_refl)).
Defined.

(** C4 as stated fails: with an empty list of items and an address the
    request is answered 200, and order 4 is created. *)
Lemma order_with_empty_items_created :
  let run :=
    post_api_orders Reference.externals Sample.db Sample.t1 Sample.t1 Sample.t2
      (Sample.request (Sample.bearer (Sample.user_token Sample.asha)) JUndefined ""
         (JObj [("items", JArr []); ("total", js_of_int 0);
                ("address", Sample.address_in "Delhi")])) in
  snd run = Json 200 (JObj [("ok", JBool true); ("orderId", js_of_int 4)])
  /\ map o_id (orders Sample.db) = [1; 2; 3]
  /\ map o_id (orders (fst run)) = [1; 2; 3; 4].
Proof. vm_compute. repeat split. Qed.

(** C5. A [createOrder] call answered 200 has appended one order, with
    status [pending] and the id it reports, and exactly one notification,
    whose text announces that id and whose target is the city of the
    submitted address, or ["All"] when that city is absent or otherwise
    falsy ([address.city || 'All']). *)
Theorem created_order_pending_and_notified (E : Externals) (db db' : Db)
    (t0 now now' : string) (req : Request) (b : Value) :
  post_api_orders E db t0 now now' req = (db', Json 200 b) ->
  exists address city lastID o n,
    get (body req) "address" = Ok address
    /\ get address "city" = Ok city
    /\ b = JObj [("ok", JBool true); ("orderId", js_of_int lastID)]
    /\ orders db' = (orders db ++ [o])%list
    /\ o_id o = lastID
    /\ o_status o = BText "pending"
    /\ notifications db' = (notifications db ++ [n])%list
    /\ n_text n = "New order " ++ Z_to_string lastID ++ " placed"
    /\ n_target_city n
       = Sqlite.bind_param (or_else city (JStr "All"))
    /\ (forall c, city = JStr c -> c <> "" -> n_target_city n = BText c)
    /\ (truthy city = false -> n_target_city n = BText "All").
Proof.
  intros Hrun. unfold post_api_orders in Hrun.
  apply protected_200 in Hrun. destruct Hrun as [claims [_ [_ Hrun]]].
  apply create_order_200 in Hrun.
  destruct Hrun as (items & total & address & date & time & meal & user_id & city
                    & _ & _ & Haddress & _ & _ & _ & _ & _ & _ & Hcity & Hrest).
  cbn zeta in Hrest. destruct Hrest as (_ & Hb & Horders & Hnotifs).
  do 5 eexists.
  split; [exact Haddress|]. split; [exact Hcity|]. split; [exact Hb|].
  split; [exact Horders|]. split; [reflexivity|]. split; [reflexivity|].
  split; [exact Hnotifs|]. split; [reflexivity|]. split; [reflexivity|].
  cbn [n_target_city]. unfold or_else. split.
  - intros c -> Hc. simpl.
    destruct (String.eqb_spec c ""); [contradiction | reflexivity].
  - intros ->. reflexivity.
Qed.

(** The example of the specification: one item [l1] at 85, total 85,
    address in Delhi. *)
Lemma created_order_pending_and_notified_witness :
  let run :=
    post_api_orders Reference.externals Sample.db Sample.t1 Sample.t1 Sample.t2
      (Sample.request (Sample.bearer (Sample.user_token Sample.asha)) JUndefined ""
         (JObj [("items", Sample.items_l1); ("total", js_of_int 85);
                ("address", Sample.address_in "Delhi")])) in
  exists o n,
    orders (fst run) = (orders Sample.db ++ [o])%list
    /\ o_status o = BText "pending"
    /\ notifications (fst run) = (notifications Sample.db ++ [n])%list
    /\ n_text n = "New order 4 placed"
    /\ n_target_city n = BText "Delhi".
Proof.
  intros run.
  destruct (created_order_pending_and_notified Reference.externals Sample.db
              (fst run) Sample.t1 Sample.t1 Sample.t2
              (Sample.request (Sample.bearer (Sample.user_token Sample.asha))
                 JUndefined ""
                 (JObj [("items", Sample.items_l1); ("total", js_of_int 85);
                        ("address", Sample.address_in "Delhi")]))
              (JObj [("ok", JBool true); ("orderId", js_of_int 4)]) eq_refl)
    as (address & city & lastID & o & n & Ha & Hc & Hb & Ho & Hid & Hs & Hn & Ht & _ & Hd & _).
  exists o, n.
  assert (city = JStr "Delhi") as Hcity.
  { vm_compute in Ha. injection Ha as <-. vm_compute in Hc. congruence. }
  assert (lastID = 4) as HlastID.
  { injection Hb as Hb. symmetry. exact Hb. }
  split; [exact Ho|]. split; [exact Hs|]. split; [exact Hn|].
  split; [rewrite Ht, HlastID; reflexivity|].
  apply (Hd "Delhi" Hcity). discriminate.
Defined.

(** ** [POST /api/login] and [POST /api/admin/login] *)




(** C7, as amended. A successful administrator login signs a token over
    the claims [id], [email] and [role] (["admin"]) and nothing else: the
    city scope is not embedded in the token. The city is returned in the
    [admin] object of the response body, beside the token; whatever claims
    verification gives back for the signed fields, [city] is not among
    them. *)
Theorem admin_login_token_has_no_city (E : Externals) (db db' : Db) (now : string)
    (req : Request) (b : Value) :
  post_api_admin_login E db now req = (db', Json 200 b) ->
  exists admin,
    In admin (admins db)
    /\ db' = db
    /\ b = JObj [("admin", JObj [("id", js_of_int (a_id admin));
                                 ("email", js_of_text (a_email admin));
                                 ("name", js_of_text (a_name admin));
                                 ("city", js_of_text (a_city admin))]);
                 ("token", JStr (signToken E (admin_token_payload admin) now))]
    /\ admin_token_payload admin
       = JObj [("id", js_of_int (a_id admin));
               ("email", js_of_text (a_email admin));
               ("role", JStr "admin")]
    /\ get (admin_token_payload admin) "city" = Ok JUndefined
    /\ (forall claims,
          (forall k, In k ["id"; "email"; "role"; "city"] ->
                     get claims k = get (admin_token_payload admin) k) ->
          get claims "id" = Ok (js_of_int (a_id admin))
          /\ get claims "email" = Ok (js_of_text (a_email admin))
          /\ get claims "role" = Ok (JStr "admin")
          /\ get claims "city" = Ok JUndefined).
Proof.
  unfold post_api_admin_login.
  destruct (get (body req) "email") as [email|e]; simpl; [|discriminate].
  destruct (get (body req) "password") as [password|e]; simpl; [|discriminate].
  destruct (find _ (admins db)) as [admin|] eqn:Hfind; [|discriminate].
  destruct (bcrypt_compare E password (a_password_hash admin)) as [[|]|e];
    simpl; try discriminate.
  intros [= <- <-].
  exists admin. split; [eapply find_some; exact Hfind|].
  repeat (split; [reflexivity|]).
  intros claims Hclaims.
  rewrite !Hclaims by (simpl; auto).
  repeat split; reflexivity.
Qed.

(** The Delhi manager logs in. *)
Lemma admin_login_token_has_no_city_witness :
  exists admin,
    post_api_admin_login Reference.externals Sample.db Sample.t1
      (Sample.request None JUndefined ""
         (JObj [("email", JStr "manager@mummatiffin.com");
                ("password", JStr "manager123")]))
    = (Sample.db,
       Json 200
         (JObj [("admin", JObj [("id", js_of_int (a_id admin));
                                ("email", js_of_text (a_email admin));
                                ("name", js_of_text (a_name admin));
                                ("city", js_of_text (a_city admin))]);
                ("token", JStr (signToken Reference.externals
                                  (admin_token_payload admin) Sample.t1))]))
    /\ get (admin_token_payload admin) "city" = Ok JUndefined.
Proof.
  destruct (admin_login_token_has_no_city Reference.externals Sample.db Sample.db
              Sample.t1
              (Sample.request None JUndefined ""
                 (JObj [("email", JStr "manager@mummatiffin.com");
                        ("password", JStr "manager123")]))
              _ eq_refl)
    as (admin & _ & _ & Hb & _ & Hcity & _).
  exists admin. split; [|exact Hcity].
  rewrite <- Hb. reflexivity.
Defined.

(** C7 as stated fails: the Delhi manager's login succeeds, the response
    body carries the city, and the claims read back from the issued token
    hold [id], [email] and [role] but no [city]. *)
Lemma admin_token_claims_lack_city :
  let token := Reference.sign (admin_token_payload Sample.delhi_admin) Sample.t1 in
  post_api_admin_login Reference.externals Sample.db Sample.t1
    (Sample.request None JUndefined ""
       (JObj [("email", JStr "manager@mummatiffin.com");
              ("password", JStr "manager123")]))
  = (Sample.db,
     Json 200
       (JObj [("admin", JObj [("id", js_of_int 2);
                              ("email", JStr "manager@mummatiffin.com");
                              ("name", JStr "City Manager");
                              ("city", JStr "Delhi")]);
              ("token", JStr token)]))
  /\ jwt_verify Reference.externals token Sample.t2
     = Some (JObj [("id", js_of_int 2);
                   ("email", JStr "manager@mummatiffin.com");
                   ("role", JStr "admin");
                   ("iat", JStr Sample.t1)])
  /\ option_map (fun claims => get claims "city")
       (jwt_verify Reference.externals token Sample.t2)
     = Some (Ok JUndefined).
Proof. vm_compute. repeat split. Qed.

(** ** [PUT /api/admin/menu/:id] *)

(** *** The statement text and its reading *)

Lemma string_length_append (a b : string) :
  String.length (a ++ b) = (String.length a + String.length b)%nat.
Proof.
  induction a as [|c a IH]; simpl; [reflexivity | rewrite IH; reflexivity].
Qed.

Lemma substring_after (a b : string) (m : nat) :
  substring (String.length a) m (a ++ b) = substring 0 m b.
Proof.
  induction a as [|c a IH]; simpl; [reflexivity | exact IH].
Qed.

Lemma substring_all (b : string) : substring 0 (String.length b) b = b.
Proof.
  induction b as [|c b IH]; simpl; [reflexivity | rewrite IH; reflexivity].
Qed.

Lemma substring_before (a b : string) : substring 0 (String.length a) (a ++ b) = a.
Proof.
  induction a as [|c a IH]; simpl; [destruct b; reflexivity | rewrite IH; reflexivity].
Qed.

Lemma strip_suffix_append (x q : string) : Str.strip_suffix q (x ++ q) = Some x.
Proof.
  unfold Str.strip_suffix. rewrite string_length_append.
  replace (String.length x + String.length q - String.length q)%nat
    with (String.length x) by lia.
  rewrite substring_after, substring_all, substring_before, String.eqb_refl.
  replace (String.length q <=? String.length x + String.length q)%nat with true
    by (symmetry; apply Nat.leb_le; lia).
  reflexivity.
Qed.

Lemma contains_char_append (c : ascii) (a b : string) :
  Str.contains_char c (a ++ b) = Str.contains_char c a || Str.contains_char c b.
Proof.
  induction a as [|x a IH]; simpl; [reflexivity|].
  rewrite IH, orb_assoc. reflexivity.
Qed.

(** A piece without a comma, followed by the separator, is split off
    whole. *)
Lemma split_comma_space_cons (p rest : string) :
  Str.contains_char "," p = false ->
  Str.split_comma_space (p ++ ", " ++ rest) = p :: Str.split_comma_space rest.
Proof.
  induction p as [|a p IH]; intros Hp.
  - reflexivity.
  - simpl in Hp. apply orb_false_iff in Hp. destruct Hp as [Ha Hp].
    change (String a p ++ ", " ++ rest) with (String a (p ++ ", " ++ rest)).
    cbn [Str.split_comma_space]. rewrite Ha, (IH Hp). reflexivity.
Qed.

Lemma split_comma_space_one (p : string) :
  Str.contains_char "," p = false -> Str.split_comma_space p = [p].
Proof.
  induction p as [|a p IH]; intros Hp; [reflexivity|].
  simpl in Hp. apply orb_false_iff in Hp. destruct Hp as [Ha Hp].
  cbn [Str.split_comma_space]. rewrite Ha, (IH Hp). reflexivity.
Qed.

Lemma split_comma_space_concat (pieces : list string) :
  pieces <> [] ->
  Forall (fun p => Str.contains_char "," p = false) pieces ->
  Str.split_comma_space (String.concat ", " pieces) = pieces.
Proof.
  induction pieces as [|p ps IH]; intros Hne Hall; [congruence|].
  inversion Hall as [|? ? Hp Hps]; subst.
  destruct ps as [|p' ps'].
  - simpl. apply split_comma_space_one, Hp.
  - change (String.concat ", " (p :: p' :: ps'))
      with (p ++ ", " ++ String.concat ", " (p' :: ps')).
    rewrite (split_comma_space_cons _ _ Hp), IH; [reflexivity | discriminate | exact Hps].
Qed.

(** Lower-casing neither makes nor removes a comma. *)
Lemma lower_char_comma (a : ascii) :
  (Str.lower_char a =? ",")%char = (a =? ",")%char.
Proof.
  destruct a as [[] [] [] [] [] [] [] []]; reflexivity.
Qed.

Lemma contains_comma_lower (s : string) :
  Str.contains_char "," (Str.lower s) = Str.contains_char "," s.
Proof.
  induction s as [|a s IH]; simpl; [reflexivity|].
  rewrite lower_char_comma, IH. reflexivity.
Qed.

Lemma assoc_In {A} (k : string) (l : list (string * A)) (a : A) :
  assoc k l = Some a -> In k (map fst l).
Proof.
  induction l as [|[k' a'] l IH]; simpl; [discriminate|].
  destruct (String.eqb_spec k' k); [auto | intros H; right; auto].
Qed.

(** The name of a menu column holds no comma. *)
Lemma menu_column_name_no_comma (k : string) (c : MenuColumn) :
  menu_column_of_name k = Some c -> Str.contains_char "," k = false.
Proof.
  unfold menu_column_of_name. intros H. apply assoc_In in H.
  rewrite <- contains_comma_lower.
  simpl in H.
  repeat (destruct H as [<-|H]; [reflexivity|]). contradiction.
Qed.

(** A bare name holds no comma. *)
Lemma name_char_no_comma (a : ascii) :
  Str.is_letter a || Str.is_digit a || (a =? "_")%char = true ->
  (a =? ",")%char = false.
Proof.
  destruct a as [[] [] [] [] [] [] [] []]; vm_compute; congruence.
Qed.

Lemma forall_chars_no_comma (s : string) :
  Str.forall_chars
    (fun c => Str.is_letter c || Str.is_digit c || (c =? "_")%char) s = true ->
  Str.contains_char "," s = false.
Proof.
  induction s as [|a s IH]; simpl; [reflexivity|].
  intros H. apply andb_true_iff in H. destruct H as [Ha Hs].
  rewrite (name_char_no_comma a Ha), (IH Hs). reflexivity.
Qed.

Lemma bare_name_no_comma (k : string) :
  bare_name k = true -> Str.contains_char "," k = false.
Proof.
  destruct k as [|a k]; [discriminate|].
  unfold bare_name. rewrite !andb_true_iff. intros [[Ha Hk] _].
  cbn [Str.contains_char]. rewrite (forall_chars_no_comma k Hk).
  rewrite name_char_no_comma; [reflexivity|].
  apply orb_true_iff in Ha. destruct Ha as [-> | ->];
    [reflexivity | rewrite orb_true_r; reflexivity].
Qed.

Lemma digit_no_comma (a : ascii) : Str.is_digit a = true -> (a =? ",")%char = false.
Proof.
  destruct a as [[] [] [] [] [] [] [] []]; vm_compute; congruence.
Qed.

Lemma all_digits_no_comma (k : string) :
  Str.all_digits k = true -> Str.contains_char "," k = false.
Proof.
  destruct k as [|a k]; [discriminate|]. unfold Str.all_digits.
  generalize (String a k). clear. intros s.
  induction s as [|a s IH]; simpl; [reflexivity|].
  intros H. apply andb_true_iff in H. destruct H as [Ha Hs].
  rewrite (digit_no_comma a Ha), (IH Hs). reflexivity.
Qed.

Lemma set_target_no_comma (k : string) (t : SetTarget) :
  set_target k = Some t -> Str.contains_char "," k = false.
Proof.
  unfold set_target.
  destruct (menu_column_of_name k) as [c|] eqn:Hc.
  - intros _. exact (menu_column_name_no_comma _ _ Hc).
  - destruct (bare_name k) eqn:Hb; [intros _; exact (bare_name_no_comma _ Hb)|].
    destruct (Str.all_digits k) eqn:Hd; [|discriminate].
    intros _. exact (all_digits_no_comma _ Hd).
Qed.

(** The text the handler builds from field names that are columns or bare
    names reads back as these targets, in order. *)
Lemma parse_update_menu_generated (keys : list string) (targets : list SetTarget) :
  keys <> [] ->
  Forall2 (fun k t => set_target k = Some t) keys targets ->
  parse_update_menu
    ("UPDATE menu SET " ++ String.concat ", " (map (fun k => k ++ " = ?") keys)
     ++ " WHERE id = ?")
  = Some (Assign targets).
Proof.
  intros Hne Htargets. unfold parse_update_menu.
  change (Str.strip_prefix "UPDATE menu SET "
            ("UPDATE menu SET " ++ String.concat ", " (map (fun k => k ++ " = ?") keys)
             ++ " WHERE id = ?"))
    with (Some (String.concat ", " (map (fun k => k ++ " = ?") keys) ++ " WHERE id = ?")).
  cbv beta iota. rewrite strip_suffix_append.
  assert ((String.concat ", " (map (fun k => k ++ " = ?") keys) =? "")%string = false)
    as ->.
  { apply String.eqb_neq. intros Hempty.
    apply (f_equal String.length) in Hempty.
    destruct keys as [|k [|k' keys]]; [congruence| |];
      cbn [map String.concat] in Hempty;
      rewrite !string_length_append in Hempty; simpl in Hempty; lia. }
  rewrite split_comma_space_concat.
  - clear Hne. induction Htargets as [|k t keys targets Hk _ IH]; [reflexivity|].
    cbn [map Str.map_option]. rewrite strip_suffix_append, Hk.
    cbn [option_map] in IH.
    destruct (Str.map_option _ (map (fun k0 => k0 ++ " = ?") keys)) as [ts|];
      [|discriminate].
    injection IH as ->. reflexivity.
  - destruct keys; [congruence | discriminate].
  - clear Hne. induction Htargets as [|k t keys targets Hk _ IH]; constructor; [|exact IH].
    rewrite contains_char_append, (set_target_no_comma _ _ Hk). reflexivity.
Qed.

Lemma columns_of_columns (cols : list MenuColumn) :
  columns_of (map Column cols) = inr cols.
Proof.
  induction cols as [|c cols IH]; simpl; [reflexivity | rewrite IH; reflexivity].
Qed.

Lemma columns_of_length (targets : list SetTarget) (cols : list MenuColumn) :
  columns_of targets = inr cols -> length cols = length targets.
Proof.
  revert cols. induction targets as [|[c|name|token] targets IH]; intros cols; simpl.
  - intros [= <-]. reflexivity.
  - destruct (columns_of targets) as [n|cs]; [discriminate|].
    intros [= <-]. simpl. rewrite (IH cs eq_refl). reflexivity.
  - destruct (first_not_a_name targets); discriminate.
  - discriminate.
Qed.

Lemma targets_of_keys (keys : list string) :
  (forall k, In k keys -> set_target k <> None) ->
  exists targets, Forall2 (fun k t => set_target k = Some t) keys targets.
Proof.
  induction keys as [|k keys IH]; intros Hk; [exists []; constructor|].
  destruct (set_target k) as [t|] eqn:Ht;
    [|exfalso; apply (Hk k (or_introl eq_refl)); exact Ht].
  destruct IH as [targets Htargets]; [intros k' Hk'; apply Hk; right; exact Hk'|].
  exists (t :: targets). constructor; assumption.
Qed.

Lemma targets_of_columns (keys : list string) (cols : list MenuColumn) :
  Forall2 (fun k c => menu_column_of_name k = Some c) keys cols ->
  Forall2 (fun k t => set_target k = Some t) keys (map Column cols).
Proof.
  induction 1 as [|k c keys cols Hk _ IH]; simpl; constructor; [|exact IH].
  unfold set_target. rewrite Hk. reflexivity.
Qed.

(** *** The UPDATE and the identifiers *)

Section MenuUpdate.

Variable E : Externals.

(** The rows the UPDATE leaves, for the columns [cols] given the values
    [vals], on the rows whose id is [id]. *)
Let updated (db : Db) (cols : list MenuColumn) (vals : list Value) (id : string)
    : list MenuRow :=
  map (fun r => if Sqlite.text_col_eq (sqlite_text_of_number E) (m_id r) (BText id)
                then apply_assignments E (combine cols (map Sqlite.bind_param vals)) r
                else r)
      (menu db).

(** What running the statement the handler builds gives, for field names
    that are columns, bare names or runs of digits. *)
Lemma runSql_update_menu_generated (db : Db) (fields : list (string * Value))
    (targets : list SetTarget) (id : string) :
  fields <> [] ->
  Forall2 (fun k t => set_target k = Some t) (map fst fields) targets ->
  runSql_update_menu E db
    ("UPDATE menu SET " ++ String.concat ", " (map (fun k => k ++ " = ?") (map fst fields))
     ++ " WHERE id = ?")
    (map snd fields ++ [JStr id])
  = match columns_of targets with
    | inl message => Some (Throw ("Error: SQLITE_ERROR: " ++ message))
    | inr cols =>
        if existsb is_Cid cols
           && id_conflict E (BText id) (menu db) (updated db cols (map snd fields) id)
        then Some (Throw "Error: SQLITE_CONSTRAINT: UNIQUE constraint failed: menu.id")
        else Some (Ok (with_menu db (updated db cols (map snd fields) id)))
    end.
Proof.
  intros Hne Htargets. unfold runSql_update_menu.
  rewrite (parse_update_menu_generated (map fst fields) targets);
    [|destruct fields; [congruence | discriminate] | exact Htargets].
  destruct (columns_of targets) as [name|cols] eqn:Hcols; [reflexivity|].
  assert (length cols = length fields) as Hlen.
  { rewrite (columns_of_length _ _ Hcols).
    apply Forall2_length in Htargets. rewrite length_map in Htargets. auto. }
  rewrite length_app, length_map, Hlen. cbn [length].
  rewrite Nat.eqb_refl. cbn [negb].
  assert (nth (length fields) (map snd fields ++ [JStr id]) JUndefined = JStr id) as ->.
  { rewrite app_nth2 by (rewrite length_map; lia).
    rewrite length_map, Nat.sub_diag. reflexivity. }
  assert (firstn (length fields) (map snd fields ++ [JStr id]) = map snd fields) as ->.
  { rewrite firstn_app, length_map, Nat.sub_diag. cbn [firstn].
    rewrite app_nil_r. apply firstn_all2. rewrite length_map. lia. }
  reflexivity.
Qed.




(** Without a row of that id the UPDATE leaves the menu as it is. *)
Lemma updated_no_match (db : Db) (cols : list MenuColumn) (vals : list Value)
    (id : string) :
  (forall r, In r (menu db) -> m_id r <> Some id) ->
  updated db cols vals id = menu db.
Proof.
  intros Hnone. unfold updated.
  rewrite <- (map_id (menu db)) at 2. apply map_ext_in. intros r Hr.
  destruct (Sqlite.text_col_eq _ (m_id r) (BText id)) eqn:Hm; [|reflexivity].
  exfalso. apply (Hnone r Hr).
  unfold Sqlite.text_col_eq in Hm. simpl in Hm.
  destruct (m_id r) as [t|]; [|discriminate].
  apply String.eqb_eq in Hm. congruence.
Qed.



(** What the handler body gives for field names that are columns or bare
    names. *)
Lemma update_menu_generated (db : Db) (req : Request)
    (fields : list (string * Value)) (targets : list SetTarget) :
  object_entries (body req) = Ok fields ->
  Forall2 (fun k t => set_target k = Some t) (map fst fields) targets ->
  update_menu E db req
  = match fields with
    | [] => Some (db, error_json 500
                        ("Error: SQLITE_ERROR: " ++ syntax_error_near "WHERE"))
    | _ :: _ =>
        match columns_of targets with
        | inl message =>
            Some (db, error_json 500 ("Error: SQLITE_ERROR: " ++ message))
        | inr cols =>
            if existsb is_Cid cols
               && id_conflict E (BText (params_id req)) (menu db)
                    (updated db cols (map snd fields) (params_id req))
            then Some (db, error_json 500
                             "Error: SQLITE_CONSTRAINT: UNIQUE constraint failed: menu.id")
            else Some (with_menu db (updated db cols (map snd fields) (params_id req)),
                       ok_json)
        end
    end.
Proof.
  intros Hfields Htargets. unfold update_menu. rewrite Hfields.
  destruct fields as [|f fields]; [reflexivity|].
  rewrite (runSql_update_menu_generated db (f :: fields) targets (params_id req));
    [|discriminate | exact Htargets].
  destruct (columns_of targets) as [name|cols]; [reflexivity|].
  destruct (existsb is_Cid cols && _); reflexivity.
Qed.

End MenuUpdate.



(** That update is answered [{ ok: true }]: item [b1] then holds the
    price 65.5 and the text [no], and is no longer listed. *)
Example menu_update_stores_any_value :
  let run :=
    put_api_admin_menu_id Reference.externals Sample.db Sample.t1
      (Sample.request (Sample.bearer (Sample.admin_token Sample.delhi_admin))
         JUndefined "b1"
         (JObj [("price", JNum (NFinite 131 (-1))); ("Active", JStr "no")])) in
  option_map snd run = Some ok_json
  /\ option_map (fun r => map m_price (menu (fst r))) run
     = Some [IKept (BNum (NFinite 131 (-1))); IInt 45; IInt 85; IInt 70; IInt 75]
  /\ option_map (fun r => map m_active (menu (fst r))) run
     = Some [IKept (BText "no"); IInt 1; IInt 1; IInt 1; IInt 0]
  /\ option_map (fun r => snd (get_api_menu Reference.externals (fst r)
                                  (Sample.request None JUndefined "" JUndefined)))
       run
     = option_map (fun r => MenuJson (map (fun i => nth i (menu (fst r)) Sample.b2)
                                          [1; 3; 2]%nat)) run.
Proof. vm_compute. repeat split. Qed.

(** An array sent as the body names its indices as columns: the parser
    stops at the first index and nothing is written. The indices of an
    object are listed before its other keys, so the parser's complaint also
    precedes that about a name that is no column. *)
Example menu_update_of_index_keys :
  put_api_admin_menu_id Reference.externals Sample.db Sample.t1
    (Sample.request (Sample.bearer (Sample.admin_token Sample.delhi_admin))
       JUndefined "b1" (JArr [js_of_int 1; js_of_int 2]))
  = Some (Sample.db,
          error_json 500 ("Error: SQLITE_ERROR: near " ++ Str.dquote ++ "0"
                          ++ Str.dquote ++ ": syntax error"))
  /\ put_api_admin_menu_id Reference.externals Sample.db Sample.t1
       (Sample.request (Sample.bearer (Sample.admin_token Sample.delhi_admin))
          JUndefined "b1"
          (JObj [("bogus", js_of_int 1); ("price", js_of_int 9); ("12", js_of_int 1);
                 ("2", js_of_int 1)]))
     = Some (Sample.db,
             error_json 500 ("Error: SQLITE_ERROR: near " ++ Str.dquote ++ "2"
                             ++ Str.dquote ++ ": syntax error")).
Proof. split; vm_compute; reflexivity. Qed.


(* ===================================================================== *)
(** * Further properties of the routes *)
(* ===================================================================== *)

(** ** The middleware *)

(** X1. The role gate: a request whose token verifies to truthy claims of
    a role other than ["admin"] is answered 403 [forbidden] on every
    administrator route (the seven routes registered with
    [requireRole('admin')]), and the database is left as it was. *)
Theorem admin_routes_forbidden_to_other_roles (E : Externals)
    (hashf : string -> string -> string) (db : Db) (s : Site)
    (t0 now salt : string) (now_ms : Z) (req : Request) (claims role : Value) :
  verifyAuthHeader E t0 req = inr claims ->
  truthy claims = true ->
  get claims "role" = Ok role ->
  role <> JStr "admin" ->
  post_api_admin_create E hashf s t0 now salt req = (s, error_json 403 "forbidden")
  /\ get_api_admin_list E db t0 req = (db, inl (error_json 403 "forbidden"))
  /\ post_api_admin_menu E db t0 now_ms req = (db, error_json 403 "forbidden")
  /\ put_api_admin_menu_id E db t0 req = Some (db, error_json 403 "forbidden")
  /\ delete_api_admin_menu_id E db t0 req = (db, error_json 403 "forbidden")
  /\ get_api_admin_orders E db t0 req = (db, error_json 403 "forbidden")
  /\ put_api_admin_orders_id E db t0 now req = (db, error_json 403 "forbidden").
Proof.
  intros Hauth Htruthy Hrole Hne.
  assert (requireRole "admin" claims = Some (error_json 403 "forbidden")) as Hreq.
  { unfold requireRole. rewrite Htruthy, Hrole. simpl.
    destruct (strict_eq_string role "admin") eqn:Heq; [|reflexivity].
    apply strict_eq_string_iff in Heq. contradiction. }
  unfold get_api_admin_orders, put_api_admin_orders_id, put_api_admin_menu_id,
    post_api_admin_menu, delete_api_admin_menu_id, post_api_admin_create,
    get_api_admin_list, protected.
  rewrite Hauth, Hreq. repeat split; reflexivity.
Qed.

(** Asha's user token on the administrator routes. *)
Lemma admin_routes_forbidden_to_other_roles_witness :
  let req := Sample.request (Sample.bearer (Sample.user_token Sample.asha))
               JUndefined "1" (JObj [("status", JStr "delivered")]) in
  get_api_admin_list Reference.externals Sample.db Sample.t1 req
    = (Sample.db, inl (error_json 403 "forbidden"))
  /\ put_api_admin_orders_id Reference.externals Sample.db Sample.t1 Sample.t2 req
    = (Sample.db, error_json 403 "forbidden").
Proof.
  intros req.
  destruct (admin_routes_forbidden_to_other_roles Reference.externals Sample2.hash
              Sample.db Sample2.site Sample.t1 Sample.t2 "salt" 0 req
              (Sample.user_token_claims Sample.asha) (JStr "user")
              eq_refl eq_refl eq_refl) as (_ & H1 & _ & _ & _ & _ & H2).
  - discriminate.
  - split; assumption.
Defined.

Lemma split_on_no_separator (c : ascii) (s : string) :
  Str.contains_char c s = false -> Str.split_on c s = [s].
Proof.
  induction s as [|a s IH]; simpl; [reflexivity|].
  intros H. apply orb_false_iff in H. destruct H as [Ha Hs].
  rewrite Ha, (IH Hs). reflexivity.
Qed.

Lemma split_on_two (c : ascii) (a b : string) :
  Str.contains_char c a = false -> Str.contains_char c b = false ->
  Str.split_on c (a ++ String c b) = [a; b].
Proof.
  intros Ha Hb. induction a as [|x a IH]; simpl.
  - rewrite Ascii.eqb_refl, (split_on_no_separator _ _ Hb). reflexivity.
  - simpl in Ha. apply orb_false_iff in Ha. destruct Ha as [Hx Ha].
    rewrite Hx, (IH Ha). reflexivity.
Qed.

(** X2. [verifyAuthHeader] reads the second of two space-separated words
    and never looks at the first: whatever the scheme word (also none),
    the header is accepted exactly when its second word verifies as a
    token, and then the claims of that token become [req.user]. *)
Theorem auth_scheme_word_is_not_checked (E : Externals) (t0 : string)
    (req : Request) (scheme token : string) :
  authorization req = Some (scheme ++ String " " token) ->
  Str.contains_char " " scheme = false ->
  Str.contains_char " " token = false ->
  verifyAuthHeader E t0 req =
  match jwt_verify E token t0 with
  | Some claims => inr claims
  | None => inl (error_json 401 "invalid token")
  end.
Proof.
  intros Hh Hs Ht. unfold verifyAuthHeader. rewrite Hh.
  assert ((scheme ++ String " " token =? "")%string = false) as ->.
  { destruct scheme; reflexivity. }
  rewrite (split_on_two _ _ _ Hs Ht). reflexivity.
Qed.

(** The scheme word [Basic] in front of the Delhi manager's token. *)
Lemma auth_scheme_word_is_not_checked_witness :
  verifyAuthHeader Reference.externals Sample.t1
    (Sample.request (Some ("Basic " ++ Sample.admin_token Sample.delhi_admin))
       JUndefined "" (JObj []))
  = inr (Sample.admin_token_claims Sample.delhi_admin).
Proof.
  rewrite (auth_scheme_word_is_not_checked Reference.externals Sample.t1
             (Sample.request (Some ("Basic " ++ Sample.admin_token Sample.delhi_admin))
                JUndefined "" (JObj []))
             "Basic" (Sample.admin_token Sample.delhi_admin));
    vm_compute; reflexivity.
Defined.

(** ** More on [GET /api/admin/orders] *)

Lemma filter_throwing_filter {A} (f : A -> Result bool) (g : A -> bool) (l : list A) :
  (forall x, In x l -> f x = Ok (g x)) -> filter_throwing f l = Ok (filter g l).
Proof.
  induction l as [|x l IH]; intros Hf; simpl; [reflexivity|].
  rewrite (Hf x (or_introl eq_refl)), IH by (intros y Hy; apply Hf; right; exact Hy).
  simpl. destruct (g x); reflexivity.
Qed.

Lemma filter_all {A} (g : A -> bool) (l : list A) :
  (forall x, In x l -> g x = true) -> filter g l = l.
Proof.
  induction l as [|x l IH]; intros Hg; simpl; [reflexivity|].
  rewrite (Hg x (or_introl eq_refl)), IH by (intros y Hy; apply Hg; right; exact Hy).
  reflexivity.
Qed.

Lemma StronglySorted_map {A B} (R : B -> B -> Prop) (f : A -> B) (l : list A) :
  StronglySorted (fun a b => R (f a) (f b)) l -> StronglySorted R (map f l).
Proof.
  induction 1 as [|a l _ IH Ha]; simpl; constructor; [exact IH|].
  rewrite Forall_forall in *. intros b Hb.
  apply in_map_iff in Hb. destruct Hb as [x [<- Hx]]. apply Ha, Hx.
Qed.

Lemma order_newer_total (r1 r2 : OrderRow) :
  order_newer r1 r2 = true \/ order_newer r2 r1 = true.
Proof.
  unfold order_newer. destruct (text_le_total (o_created_at r1) (o_created_at r2)); auto.
Qed.

Lemma order_newer_trans (r1 r2 r3 : OrderRow) :
  order_newer r1 r2 = true -> order_newer r2 r3 = true -> order_newer r1 r3 = true.
Proof.
  unfold order_newer. intros H1 H2. eapply text_le_trans; eassumption.
Qed.

Section AdminOrdersMore.

Variable E : Externals.

(** The verdict of the filter callback for an administrator whose row is
    found. *)
Let shown (admin : AdminRow) (r : AdminOrderRow) : bool :=
  match parse_info E (o_info (ao_order r)) with
  | Ok info =>
      match resolved_city info with
      | Ok city => cityIsVisible (a_city admin) city
      | Throw _ => col_strict_eq (a_city admin) (JStr "All")
      end
  | Throw _ => col_strict_eq (a_city admin) (JStr "All")
  end.

Lemma list_orders_for_admin_filter (claims : Value) (db : Db) (uid : Value)
    (admin : AdminRow) :
  get claims "id" = Ok uid ->
  find (fun a => Sqlite.int_col_eq (sqlite_int_of_text E) (a_id a)
                   (Sqlite.bind_param uid)) (admins db)
    = Some admin ->
  list_orders_for_admin E claims db =
  (db, OrdersJson (filter (shown admin)
                     (map (join_user E db) (sort_by order_newer (orders db))))).
Proof.
  intros Hid Hadmin. unfold list_orders_for_admin. rewrite Hid. simpl.
  rewrite Hadmin.
  rewrite (filter_throwing_filter _ (shown admin)).
  - reflexivity.
  - intros x _. apply order_visible_found.
Qed.

End AdminOrdersMore.

(** *** The LEFT JOIN *)

Lemma NoDup_map_inj {A B} (f : A -> B) (l : list A) (x y : A) :
  NoDup (map f l) -> In x l -> In y l -> f x = f y -> x = y.
Proof.
  induction l as [|a l IH]; simpl; intros Hnd Hx Hy Hf; [destruct Hx|].
  inversion Hnd as [|? ? Hnotin Hnd']; subst.
  destruct Hx as [<-|Hx], Hy as [<-|Hy]; auto.
  - exfalso. apply Hnotin. rewrite Hf. apply in_map. exact Hy.
  - exfalso. apply Hnotin. rewrite <- Hf. apply in_map. exact Hx.
Qed.

Lemma int_col_eq_same (f : string -> option Z) (z z' : Z) (b : Bound) :
  Sqlite.int_col_eq f z b = true -> Sqlite.int_col_eq f z' b = true -> z = z'.
Proof.
  unfold Sqlite.int_col_eq. destruct b as [|n|t]; [discriminate| |].
  - destruct (int_value n); [|discriminate]. rewrite !Z.eqb_eq. congruence.
  - destruct (f t); [|discriminate]. rewrite !Z.eqb_eq. congruence.
Qed.

(** The joined email is that of the user whose id the order holds, the
    ids of the users being distinct, and NULL when there is no such
    user. *)
Lemma join_user_email (E : Externals) (db : Db) (o : OrderRow) :
  (forall u, NoDup (map u_id (users db)) -> In u (users db) ->
     Sqlite.int_col_eq (sqlite_int_of_text E) (u_id u) (o_user_id o) = true ->
     ao_user_email (join_user E db o) = u_email u)
  /\ ((forall u, In u (users db) ->
         Sqlite.int_col_eq (sqlite_int_of_text E) (u_id u) (o_user_id o) = false) ->
      ao_user_email (join_user E db o) = None).
Proof.
  unfold join_user. cbn [ao_user_email].
  destruct (find _ (users db)) as [u'|] eqn:Hfind; split.
  - intros u Hnd Hu Hm.
    destruct (find_some _ _ Hfind) as [Hu' Hm'].
    f_equal. apply (NoDup_map_inj u_id (users db)); auto.
    exact (int_col_eq_same _ _ _ _ Hm' Hm).
  - intros Hnone. destruct (find_some _ _ Hfind) as [Hu' Hm'].
    rewrite (Hnone u' Hu') in Hm'. discriminate.
  - intros u _ Hu Hm. rewrite (find_none _ _ Hfind u Hu) in Hm. discriminate.
  - reflexivity.
Qed.

(** X3. An administrator whose city scope is ["All"] is shown every order
    of the table, each joined with the email of the user whose id it
    holds (NULL when no user has that id), newest first; also the orders
    whose snapshot cannot be read. *)
Theorem All_admin_sees_every_order (E : Externals) (db : Db) (t0 : string)
    (req : Request) (claims uid : Value) (admin : AdminRow) :
  verifyAuthHeader E t0 req = inr claims ->
  requireRole "admin" claims = None ->
  get claims "id" = Ok uid ->
  find (fun a => Sqlite.int_col_eq (sqlite_int_of_text E) (a_id a)
                   (Sqlite.bind_param uid)) (admins db)
    = Some admin ->
  a_city admin = Some "All" ->
  exists rows,
    get_api_admin_orders E db t0 req = (db, OrdersJson rows)
    /\ rows = map (join_user E db) (sort_by order_newer (orders db))
    /\ Permutation (map ao_order rows) (orders db)
    /\ StronglySorted
         (fun r1 r2 => text_le (o_created_at (ao_order r2))
                               (o_created_at (ao_order r1)) = true) rows
    /\ (forall r u,
          In r rows -> NoDup (map u_id (users db)) -> In u (users db) ->
          Sqlite.int_col_eq (sqlite_int_of_text E) (u_id u) (o_user_id (ao_order r))
          = true ->
          ao_user_email r = u_email u)
    /\ (forall r,
          In r rows ->
          (forall u, In u (users db) ->
             Sqlite.int_col_eq (sqlite_int_of_text E) (u_id u) (o_user_id (ao_order r))
             = false) ->
          ao_user_email r = None).
Proof.
  intros Hauth Hrole Hid Hadmin Hcity.
  exists (map (join_user E db) (sort_by order_newer (orders db))).
  split; [|split; [reflexivity|split; [|split; [|split]]]].
  - unfold get_api_admin_orders. rewrite (protected_pass E _ _ _ _ _ _ Hauth Hrole).
    rewrite (list_orders_for_admin_filter E claims db uid admin Hid Hadmin).
    rewrite filter_all; [reflexivity|].
    intros r _. rewrite Hcity.
    destruct (parse_info E (o_info (ao_order r))) as [info|e]; [|reflexivity].
    destruct (resolved_city info) as [city|e]; reflexivity.
  - rewrite map_map. cbn [join_user ao_order]. rewrite map_id. apply sort_by_perm.
  - apply StronglySorted_map.
    apply (sort_by_ordered _ order_newer order_newer_total order_newer_trans).
  - intros r u Hr Hnd Hu Hm.
    apply in_map_iff in Hr. destruct Hr as [o [<- _]].
    exact (proj1 (join_user_email E db o) u Hnd Hu Hm).
  - intros r Hr Hnone.
    apply in_map_iff in Hr. destruct Hr as [o [<- _]].
    exact (proj2 (join_user_email E db o) Hnone).
Qed.

(** The super administrator's listing holds the three sample orders,
    each with Asha's email. *)
Lemma All_admin_sees_every_order_witness :
  exists rows,
    get_api_admin_orders Reference.externals Sample.db Sample.t1
      (Sample.request (Sample.bearer (Sample.admin_token Sample.super_admin))
                      JUndefined "" (JObj []))
    = (Sample.db, OrdersJson rows)
    /\ map (fun r => o_id (ao_order r)) rows = [3; 2; 1]
    /\ forall r, In r rows -> ao_user_email r = Some "asha@example.com".
Proof.
  destruct (All_admin_sees_every_order Reference.externals Sample.db Sample.t1
              (Sample.request (Sample.bearer (Sample.admin_token Sample.super_admin))
                              JUndefined "" (JObj []))
              (Sample.admin_token_claims Sample.super_admin) (js_of_int 1)
              Sample.super_admin eq_refl eq_refl eq_refl eq_refl eq_refl)
    as (rows & Hrun & Hrows & _ & _ & Hemail & _).
  exists rows. split; [exact Hrun|]. split; [rewrite Hrows; reflexivity|].
  intros r Hr.
  apply (Hemail r Sample.asha Hr).
  - repeat constructor. simpl. tauto.
  - simpl. auto.
  - rewrite Hrows in Hr. simpl in Hr.
    destruct Hr as [<-|[<-|[<-|[]]]]; reflexivity.
Defined.

(** X4. When the token's id matches no row of [admins], the listing fails
    with status 500 as soon as there is an order to filter (the callback
    reads [admin.city] of [undefined], also in its [catch]); with no order
    at all it answers the empty list. *)
Theorem listing_without_admin_row (E : Externals) (db : Db) (t0 : string)
    (req : Request) (claims uid : Value) :
  verifyAuthHeader E t0 req = inr claims ->
  requireRole "admin" claims = None ->
  get claims "id" = Ok uid ->
  find (fun a => Sqlite.int_col_eq (sqlite_int_of_text E) (a_id a)
                   (Sqlite.bind_param uid)) (admins db)
    = None ->
  (orders db = [] -> get_api_admin_orders E db t0 req = (db, OrdersJson []))
  /\ (orders db <> [] ->
      get_api_admin_orders E db t0 req
      = (db, error_json 500
               "TypeError: Cannot read properties of undefined (reading 'city')")).
Proof.
  intros Hauth Hrole Hid Hadmin.
  unfold get_api_admin_orders. rewrite (protected_pass E _ _ _ _ _ _ Hauth Hrole).
  unfold list_orders_for_admin. rewrite Hid. simpl. rewrite Hadmin.
  split.
  - intros ->. reflexivity.
  - intros Hne.
    destruct (sort_by order_newer (orders db)) as [|o rest] eqn:Hsort.
    + exfalso. apply Hne.
      apply Permutation_nil. rewrite <- Hsort. apply sort_by_perm.
    + cbn [map filter_throwing].
      assert (order_visible E None (join_user E db o)
              = Throw "TypeError: Cannot read properties of undefined (reading 'city')")
        as ->.
      { unfold order_visible, order_visible_try.
        destruct (parse_info E (o_info (ao_order (join_user E db o)))) as [info|e];
          [|reflexivity].
        simpl. destruct (resolved_city info); reflexivity. }
      reflexivity.
Qed.

(** A token for an administrator id that no row has. *)
Lemma listing_without_admin_row_witness :
  get_api_admin_orders Reference.externals Sample.db Sample.t1
    (Sample.request
       (Sample.bearer (Reference.sign (JObj [("id", js_of_int 9);
                                             ("role", JStr "admin")]) Sample.t0))
       JUndefined "" (JObj []))
  = (Sample.db, error_json 500
                  "TypeError: Cannot read properties of undefined (reading 'city')").
Proof.
  refine (proj2 (listing_without_admin_row Reference.externals Sample.db Sample.t1
                   (Sample.request
                      (Sample.bearer (Reference.sign (JObj [("id", js_of_int 9);
                                                            ("role", JStr "admin")])
                                        Sample.t0))
                      JUndefined "" (JObj []))
                   (JObj [("id", js_of_int 9); ("role", JStr "admin");
                          ("iat", JStr Sample.t0)])
                   (js_of_int 9) _ _ _ _) _);
    try (vm_compute; reflexivity).
  discriminate.
Defined.

(** X5. An order whose snapshot holds no address, or an address with no
    city (absent or falsy), resolves to the city ["All"] and is listed for
    every administrator, whatever the city scope. *)
Theorem order_without_city_listed_for_all (E : Externals) (db : Db) (t0 : string)
    (req : Request) (claims uid : Value) (admin : AdminRow) (o : OrderRow)
    (info address : Value) :
  verifyAuthHeader E t0 req = inr claims ->
  requireRole "admin" claims = None ->
  get claims "id" = Ok uid ->
  find (fun a => Sqlite.int_col_eq (sqlite_int_of_text E) (a_id a)
                   (Sqlite.bind_param uid)) (admins db)
    = Some admin ->
  In o (orders db) ->
  parse_info E (o_info o) = Ok info ->
  get info "address" = Ok address ->
  (truthy address = false
   \/ exists city, get address "city" = Ok city /\ truthy city = false) ->
  exists rows,
    get_api_admin_orders E db t0 req = (db, OrdersJson rows)
    /\ In (join_user E db o) rows.
Proof.
  intros Hauth Hrole Hid Hadmin Ho Hinfo Haddress Hnone.
  destruct (list_orders_for_admin_rows E claims db uid admin Hid Hadmin)
    as [rows [Hrows Hin]].
  exists rows. split.
  - unfold get_api_admin_orders. rewrite (protected_pass E _ _ _ _ _ _ Hauth Hrole).
    exact Hrows.
  - apply (Hin o Ho). rewrite order_visible_found. cbn [join_user ao_order].
    rewrite Hinfo.
    assert (resolved_city info = Ok (JStr "All")) as ->.
    { unfold resolved_city. rewrite Haddress. simpl.
      destruct Hnone as [->|[city [Hc Ht]]]; [reflexivity|].
      destruct (truthy address); [|reflexivity].
      rewrite Hc. simpl. rewrite Ht. reflexivity. }
    f_equal. unfold cityIsVisible. simpl. apply orb_true_r.
Qed.

(** X6. A snapshot that is the JSON text [null] parses, but reading its
    address throws: the order is then listed exactly for the
    administrators scoped ["All"], like an order whose snapshot does not
    parse. *)
Theorem null_snapshot_only_for_All (E : Externals) (db : Db) (t0 : string)
    (req : Request) (claims uid : Value) (admin : AdminRow) (o : OrderRow) :
  verifyAuthHeader E t0 req = inr claims ->
  requireRole "admin" claims = None ->
  get claims "id" = Ok uid ->
  find (fun a => Sqlite.int_col_eq (sqlite_int_of_text E) (a_id a)
                   (Sqlite.bind_param uid)) (admins db)
    = Some admin ->
  In o (orders db) ->
  parse_info E (o_info o) = Ok JNull ->
  exists rows,
    get_api_admin_orders E db t0 req = (db, OrdersJson rows)
    /\ (In (join_user E db o) rows <-> a_city admin = Some "All").
Proof.
  intros Hauth Hrole Hid Hadmin Ho Hinfo.
  destruct (list_orders_for_admin_rows E claims db uid admin Hid Hadmin)
    as [rows [Hrows Hin]].
  exists rows. split.
  - unfold get_api_admin_orders. rewrite (protected_pass E _ _ _ _ _ _ Hauth Hrole).
    exact Hrows.
  - rewrite (Hin o Ho), order_visible_found. cbn [join_user ao_order].
    rewrite Hinfo. cbn. rewrite <- col_strict_eq_string.
    split; [intros [= ->] | intros ->]; reflexivity.
Qed.

(** The order stored without a snapshot is listed for the Pune manager. *)
Lemma order_without_city_listed_for_all_witness :
  exists rows,
    get_api_admin_orders Reference.externals Sample2.db_more Sample.t1
      (Sample2.admin_request Sample.pune_admin "" (JObj []))
    = (Sample2.db_more, OrdersJson rows)
    /\ In (join_user Reference.externals Sample2.db_more Sample2.bare_order) rows.
Proof.
  refine (order_without_city_listed_for_all Reference.externals Sample2.db_more
            Sample.t1 (Sample2.admin_request Sample.pune_admin "" (JObj []))
            (Sample.admin_token_claims Sample.pune_admin) (js_of_int 3)
            Sample.pune_admin Sample2.bare_order (JObj []) JUndefined
            _ _ _ _ _ _ _ (or_introl eq_refl));
    try (vm_compute; reflexivity).
  simpl. auto 10.
Defined.

(** The order whose snapshot is [null] is listed for the super
    administrator. *)
Lemma null_snapshot_only_for_All_witness :
  exists rows,
    get_api_admin_orders Reference.externals Sample2.db_more Sample.t1
      (Sample2.admin_request Sample.super_admin "" (JObj []))
    = (Sample2.db_more, OrdersJson rows)
    /\ (In (join_user Reference.externals Sample2.db_more Sample2.null_order) rows
        <-> a_city Sample.super_admin = Some "All").
Proof.
  refine (null_snapshot_only_for_All Reference.externals Sample2.db_more
            Sample.t1 (Sample2.admin_request Sample.super_admin "" (JObj []))
            (Sample.admin_token_claims Sample.super_admin) (js_of_int 1)
            Sample.super_admin Sample2.null_order _ _ _ _ _ _);
    try (vm_compute; reflexivity).
  simpl. auto 10.
Defined.

(** ** More on [POST /api/orders] *)

Lemma max_id_upper (ids : list Z) (z : Z) : In z ids -> z <= max_id ids.
Proof.
  unfold max_id. induction ids as [|y ids IH]; simpl; [contradiction|].
  intros [->|H]; [lia | specialize (IH H); lia].
Qed.

Lemma next_id_fresh (seq : Z) (ids : list Z) :
  seq < next_id seq ids /\ forall z, In z ids -> z < next_id seq ids.
Proof.
  unfold next_id. split; [lia|].
  intros z Hz. apply max_id_upper in Hz. lia.
Qed.

Lemma NoDup_app_fresh (ids : list Z) (z : Z) :
  NoDup ids -> (forall y, In y ids -> y < z) -> NoDup (ids ++ [z]).
Proof.
  intros Hnd Hlt. induction Hnd as [|y ids Hy _ IH]; simpl.
  - constructor; [intros []|constructor].
  - constructor.
    + rewrite in_app_iff. intros [H|[H|[]]]; [contradiction|].
      specialize (Hlt y (or_introl eq_refl)). lia.
    + apply IH. intros w Hw. apply Hlt. right. exact Hw.
Qed.

Section CreateOrderMore.

Variable E : Externals.

(** What a 200 answer of the handler body leaves of the other tables. *)
Lemma create_order_200_frame (claims : Value) (db db' : Db) (now now' : string)
    (req : Request) (b : Value) :
  create_order E claims db now now' req = (db', Json 200 b) ->
  users db' = users db /\ admins db' = admins db /\ menu db' = menu db
  /\ seq_orders db' = next_id (seq_orders db) (map o_id (orders db)).
Proof.
  unfold create_order.
  destruct (get (body req) "items") as [items|e]; simpl; [|discriminate].
  destruct (get (body req) "total") as [total|e]; simpl; [|discriminate].
  destruct (get (body req) "address") as [address|e]; simpl; [|discriminate].
  destruct (get (body req) "date") as [date|e]; simpl; [|discriminate].
  destruct (get (body req) "time") as [time|e]; simpl; [|discriminate].
  destruct (get (body req) "meal") as [meal|e]; simpl; [|discriminate].
  destruct (truthy items); simpl; [|discriminate].
  destruct (truthy address); simpl; [|discriminate].
  destruct (get claims "id") as [user_id|e]; simpl; [|discriminate].
  unfold insert_order.
  destruct (user_exists E db _); simpl; [|discriminate].
  destruct (get address "city") as [city|e]; simpl; [|discriminate].
  intros [= <- _]. repeat split; reflexivity.
Qed.

(** The foreign key: an order for a [user_id] that is no user's id is
    refused by the INSERT, before anything is written. *)
Lemma create_order_unknown_user (claims : Value) (db : Db) (now now' : string)
    (req : Request) (items address uid : Value) :
  get (body req) "items" = Ok items ->
  get (body req) "address" = Ok address ->
  truthy items = true -> truthy address = true ->
  get claims "id" = Ok uid ->
  user_exists E db (Sqlite.bind_param uid) = false ->
  create_order E claims db now now' req
  = (db, error_json 500 "Error: SQLITE_CONSTRAINT: FOREIGN KEY constraint failed").
Proof.
  intros Hitems Haddress Ti Ta Hid Hu. unfold create_order.
  destruct (get_ok_any _ _ "total" _ Hitems) as [total ->].
  destruct (get_ok_any _ _ "date" _ Hitems) as [date ->].
  destruct (get_ok_any _ _ "time" _ Hitems) as [time ->].
  destruct (get_ok_any _ _ "meal" _ Hitems) as [meal ->].
  rewrite Hitems, Haddress. simpl. rewrite Ti, Ta. simpl.
  rewrite Hid. simpl. unfold insert_order. rewrite Hu. reflexivity.
Qed.

End CreateOrderMore.

(** X7. A created order takes an id larger than every id of the table and
    than the AUTOINCREMENT counter, which it becomes: order ids that were
    distinct stay distinct, and the users, administrators and menu are
    untouched. *)
Theorem created_order_id_is_fresh (E : Externals) (db db' : Db)
    (t0 now now' : string) (req : Request) (b : Value) :
  post_api_orders E db t0 now now' req = (db', Json 200 b) ->
  exists lastID,
    b = JObj [("ok", JBool true); ("orderId", js_of_int lastID)]
    /\ map o_id (orders db') = (map o_id (orders db) ++ [lastID])%list
    /\ (forall o, In o (orders db) -> o_id o < lastID)
    /\ seq_orders db < lastID
    /\ seq_orders db' = lastID
    /\ (NoDup (map o_id (orders db)) -> NoDup (map o_id (orders db')))
    /\ users db' = users db /\ admins db' = admins db /\ menu db' = menu db.
Proof.
  intros Hrun. unfold post_api_orders in Hrun.
  apply protected_200 in Hrun. destruct Hrun as [claims [_ [_ Hrun]]].
  destruct (create_order_200_frame E _ _ _ _ _ _ _ Hrun) as (Hu & Ha & Hm & Hseq).
  apply create_order_200 in Hrun.
  destruct Hrun as (items & total & address & date & time & meal & user_id & city
                    & _ & _ & _ & _ & _ & _ & _ & _ & _ & _ & Hrest).
  cbn zeta in Hrest. destruct Hrest as (_ & Hb & Horders & _).
  destruct (next_id_fresh (seq_orders db) (map o_id (orders db))) as [Hs Hfresh].
  exists (next_id (seq_orders db) (map o_id (orders db))).
  assert (map o_id (orders db')
          = (map o_id (orders db) ++ [next_id (seq_orders db) (map o_id (orders db))])%list)
    as Hids.
  { rewrite Horders, map_app. reflexivity. }
  split; [exact Hb|]. split; [exact Hids|].
  split; [intros o Ho; apply Hfresh, in_map, Ho|].
  split; [exact Hs|]. split; [exact Hseq|].
  split; [|auto].
  intros Hnd. rewrite Hids. apply NoDup_app_fresh; assumption.
Qed.

(** Asha's order on the sample database takes id 4. *)
Lemma created_order_id_is_fresh_witness :
  let run :=
    post_api_orders Reference.externals Sample.db Sample.t1 Sample.t1 Sample.t2
      (Sample2.user_request Sample.asha
         (JObj [("items", Sample.items_l1); ("total", js_of_int 85);
                ("address", Sample.address_in "Delhi")])) in
  map o_id (orders (fst run)) = [1; 2; 3; 4] /\ seq_orders (fst run) = 4.
Proof.
  intros run.
  destruct (created_order_id_is_fresh Reference.externals Sample.db (fst run)
              Sample.t1 Sample.t1 Sample.t2
              (Sample2.user_request Sample.asha
                 (JObj [("items", Sample.items_l1); ("total", js_of_int 85);
                        ("address", Sample.address_in "Delhi")]))
              (JObj [("ok", JBool true); ("orderId", js_of_int 4)]) eq_refl)
    as (lastID & Hb & Hids & _ & _ & Hseq & _).
  injection Hb as Hb. subst lastID. split; [exact Hids | exact Hseq].
Defined.

(** X8. An order request whose token names an id that no user has is
    answered 500 by the foreign key of [orders.user_id], and neither an
    order nor a notification is written. *)
Theorem order_for_unknown_user_rejected (E : Externals) (db : Db)
    (t0 now now' : string) (req : Request) (claims items address uid : Value) :
  verifyAuthHeader E t0 req = inr claims ->
  requireRole "user" claims = None ->
  get (body req) "items" = Ok items ->
  get (body req) "address" = Ok address ->
  truthy items = true -> truthy address = true ->
  get claims "id" = Ok uid ->
  (forall u, In u (users db) ->
     Sqlite.int_col_eq (sqlite_int_of_text E) (u_id u)
       (Sqlite.bind_param uid) = false) ->
  Sqlite.bind_param uid <> BNull ->
  post_api_orders E db t0 now now' req
  = (db, error_json 500 "Error: SQLITE_CONSTRAINT: FOREIGN KEY constraint failed").
Proof.
  intros Hauth Hrole Hitems Haddress Ti Ta Hid Hnone Hnn.
  unfold post_api_orders. rewrite (protected_pass E _ _ _ _ _ _ Hauth Hrole).
  apply (create_order_unknown_user E claims db now now' req items address uid);
    try assumption.
  unfold user_exists.
  destruct (Sqlite.bind_param uid) eqn:Hb; [congruence| |].
  - destruct (existsb _ (users db)) eqn:Hex; [|reflexivity].
    apply existsb_exists in Hex. destruct Hex as [u [Hu Hm]].
    rewrite (Hnone u Hu) in Hm. discriminate.
  - destruct (existsb _ (users db)) eqn:Hex; [|reflexivity].
    apply existsb_exists in Hex. destruct Hex as [u [Hu Hm]].
    rewrite (Hnone u Hu) in Hm. discriminate.
Qed.

(** A token for user 7, whom the sample database does not have. *)
Lemma order_for_unknown_user_rejected_witness :
  post_api_orders Reference.externals Sample.db Sample.t1 Sample.t1 Sample.t2
    (Sample.request
       (Sample.bearer (Reference.sign (JObj [("id", js_of_int 7);
                                             ("role", JStr "user")]) Sample.t0))
       JUndefined ""
       (JObj [("items", Sample.items_l1); ("address", Sample.address_in "Delhi")]))
  = (Sample.db,
     error_json 500 "Error: SQLITE_CONSTRAINT: FOREIGN KEY constraint failed").
Proof.
  refine (order_for_unknown_user_rejected Reference.externals Sample.db
            Sample.t1 Sample.t1 Sample.t2 _
            (JObj [("id", js_of_int 7); ("role", JStr "user"); ("iat", JStr Sample.t0)])
            Sample.items_l1 (Sample.address_in "Delhi") (js_of_int 7)
            _ _ _ _ eq_refl eq_refl eq_refl _ _);
    try (vm_compute; reflexivity).
  - intros u [<-|[]]. reflexivity.
  - discriminate.
Defined.

(** A city that the address of a snapshot names, a non-empty string, is
    the city the order resolves to. *)
Lemma resolved_city_of_address (info address : Value) (c : string) :
  get info "address" = Ok address ->
  get address "city" = Ok (JStr c) ->
  c <> "" ->
  resolved_city info = Ok (JStr c).
Proof.
  intros Haddress Hcity Hc. unfold resolved_city. rewrite Haddress. cbn [bind].
  assert (truthy address = true) as ->.
  { destruct address; simpl in Hcity; try discriminate; reflexivity. }
  rewrite Hcity. cbn [bind]. simpl.
  destruct (String.eqb_spec c ""); [contradiction | reflexivity].
Qed.

(** X9. Creation and listing compose: provided [JSON.parse] reads back
    from the text [JSON.stringify] made of the snapshot an object whose
    address names the same city, an order created with an address of city
    [c], a non-empty string, is afterwards listed for an administrator
    scoped [adminCity] if and only if [adminCity] is ["All"], [c] is
    ["All"], or the two are equal. *)
Theorem created_order_listed_by_city (E : Externals) (db db' : Db)
    (t0 now now' : string) (req : Request) (b : Value)
    (items address date time meal parsed address' : Value) (c : string)
    (t0' : string) (req' : Request) (claims' uid' : Value) (admin : AdminRow)
    (adminCity : string) :
  post_api_orders E db t0 now now' req = (db', Json 200 b) ->
  get (body req) "items" = Ok items ->
  get (body req) "address" = Ok address ->
  get (body req) "date" = Ok date ->
  get (body req) "time" = Ok time ->
  get (body req) "meal" = Ok meal ->
  get address "city" = Ok (JStr c) ->
  c <> "" ->
  JSON_stringify E (JObj [("items", items); ("address", address);
                          ("date", date); ("time", time); ("meal", meal)]) <> "" ->
  JSON_parse E
    (JSON_stringify E (JObj [("items", items); ("address", address);
                             ("date", date); ("time", time); ("meal", meal)]))
    = Some parsed ->
  get parsed "address" = Ok address' ->
  get address' "city" = Ok (JStr c) ->
  verifyAuthHeader E t0' req' = inr claims' ->
  requireRole "admin" claims' = None ->
  get claims' "id" = Ok uid' ->
  find (fun a => Sqlite.int_col_eq (sqlite_int_of_text E) (a_id a)
                   (Sqlite.bind_param uid')) (admins db)
    = Some admin ->
  a_city admin = Some adminCity ->
  exists o rows,
    orders db' = (orders db ++ [o])%list
    /\ get_api_admin_orders E db' t0' req' = (db', OrdersJson rows)
    /\ (In (join_user E db' o) rows <->
        adminCity = "All" \/ c = "All" \/ adminCity = c).
Proof.
  intros Hrun Hitems Haddress Hdate Htime Hmeal Hc Hne Htext Hparse Hpa Hpc
         Hauth Hrole Hid Hadmin Hcity.
  assert (parse_info E
            (Some (JSON_stringify E (JObj [("items", items); ("address", address);
                                           ("date", date); ("time", time);
                                           ("meal", meal)])))
          = Ok parsed) as Hinfo.
  { unfold parse_info.
    destruct (String.eqb_spec
                (JSON_stringify E (JObj [("items", items); ("address", address);
                                         ("date", date); ("time", time);
                                         ("meal", meal)])) "");
      [contradiction|].
    rewrite Hparse. reflexivity. }
  pose proof (resolved_city_of_address parsed address' c Hpa Hpc Hne) as Hres.
  unfold post_api_orders in Hrun.
  apply protected_200 in Hrun. destruct Hrun as [claims [_ [_ Hrun]]].
  destruct (create_order_200_frame E _ _ _ _ _ _ _ Hrun) as (_ & Ha & _ & _).
  apply create_order_200 in Hrun.
  destruct Hrun as (items1 & total & address1 & date1 & time1 & meal1 & user_id & city
                    & Hi1 & _ & Ha1 & Hd1 & Ht1 & Hm1 & _ & _ & _ & _ & Hrest).
  cbn zeta in Hrest. destruct Hrest as (_ & _ & Horders & _).
  assert (items1 = items) by congruence. assert (address1 = address) by congruence.
  assert (date1 = date) by congruence. assert (time1 = time) by congruence.
  assert (meal1 = meal) by congruence. subst.
  rewrite <- Ha in Hadmin.
  destruct (list_orders_for_admin_rows E claims' db' uid' admin Hid Hadmin)
    as [rows [Hrows Hin]].
  eexists. exists rows. split; [exact Horders|]. split.
  - unfold get_api_admin_orders. rewrite (protected_pass E _ _ _ _ _ _ Hauth Hrole).
    exact Hrows.
  - rewrite Hin by (rewrite Horders; apply in_or_app; right; left; reflexivity).
    rewrite order_visible_found. cbn [join_user ao_order o_info].
    rewrite Hinfo, Hres, Hcity.
    split.
    + intros [= Hv]. apply cityIsVisible_iff in Hv.
      destruct Hv as [H|[[= H]|[= H]]]; auto.
    + intros Hv. f_equal. apply cityIsVisible_iff.
      destruct Hv as [H|[H|H]]; subst; auto.
Qed.

(** Asha orders for Delhi; the Pune manager's listing does not hold the
    new order (it is listed if and only if ["Pune"] matches ["Delhi"]). *)
Lemma created_order_listed_by_city_witness :
  let run :=
    post_api_orders Reference.externals Sample.db Sample.t1 Sample.t1 Sample.t2
      (Sample2.user_request Sample.asha
         (JObj [("items", Sample.items_l1); ("total", js_of_int 85);
                ("address", Sample.address_in "Delhi")])) in
  exists o rows,
    orders (fst run) = (orders Sample.db ++ [o])%list
    /\ get_api_admin_orders Reference.externals (fst run) Sample.t2
         (Sample2.admin_request Sample.pune_admin "" (JObj []))
       = (fst run, OrdersJson rows)
    /\ (In (join_user Reference.externals (fst run) o) rows <->
        "Pune" = "All" \/ "Delhi" = "All" \/ "Pune" = "Delhi").
Proof.
  intros run.
  assert ("Delhi" <> "") as Hne by discriminate.
  assert (JSON_stringify Reference.externals
            (JObj [("items", Sample.items_l1); ("address", Sample.address_in "Delhi");
                   ("date", JUndefined); ("time", JUndefined); ("meal", JUndefined)])
          <> "") as Htext by (vm_compute; discriminate).
  refine (created_order_listed_by_city Reference.externals Sample.db (fst run)
            Sample.t1 Sample.t1 Sample.t2
            (Sample2.user_request Sample.asha
               (JObj [("items", Sample.items_l1); ("total", js_of_int 85);
                      ("address", Sample.address_in "Delhi")]))
            (JObj [("ok", JBool true); ("orderId", js_of_int 4)])
            Sample.items_l1 (Sample.address_in "Delhi") JUndefined JUndefined JUndefined
            (JObj [("items", Sample.items_l1); ("address", Sample.address_in "Delhi")])
            (Sample.address_in "Delhi")
            "Delhi" Sample.t2 (Sample2.admin_request Sample.pune_admin "" (JObj []))
            (Sample.admin_token_claims Sample.pune_admin) (js_of_int 3)
            Sample.pune_admin "Pune" _ _ _ _ _ _ _ Hne Htext _ _ _ _ _ _ _ _);
    vm_compute; reflexivity.
Defined.

(** ** More on [PUT /api/admin/orders/:id] *)

Section StatusUpdateMore.

Variable E : Externals.

(** The UPDATE is idempotent on the table. *)
Lemma update_order_status_twice (db db1 : Db) (status id : Bound) :
  orders db1 = orders (update_order_status E db status id) ->
  orders (update_order_status E db1 status id) = orders db1.
Proof.
  intros H. cbn [update_order_status orders] in *. rewrite H.
  rewrite map_map. apply map_ext. intros o.
  destruct (Sqlite.int_col_eq (sqlite_int_of_text E) (o_id o) id) eqn:Hm; cbn.
  - rewrite Hm. reflexivity.
  - rewrite Hm. reflexivity.
Qed.

End StatusUpdateMore.

(** X10. Repeating a status update is idempotent on the orders and
    cumulative on the notifications: the second, identical request is
    answered like the first and leaves the orders as the first left them,
    and each of the two appends one notification. (When the status has no
    conversion to a string both are answered 500 and no notification is
    appended; the orders are updated all the same.) *)
Theorem status_update_repeated (E : Externals) (db : Db) (t0 now t0' now' : string)
    (req : Request) (claims claims' status : Value) :
  verifyAuthHeader E t0 req = inr claims ->
  requireRole "admin" claims = None ->
  verifyAuthHeader E t0' req = inr claims' ->
  requireRole "admin" claims' = None ->
  get (body req) "status" = Ok status ->
  exists db1 db2 resp,
    put_api_admin_orders_id E db t0 now req = (db1, resp)
    /\ put_api_admin_orders_id E db1 t0' now' req = (db2, resp)
    /\ orders db2 = orders db1
    /\ (forall text,
          ToString (Number_toString E) status = Ok text ->
          resp = ok_json
          /\ length (notifications db1) = S (length (notifications db))
          /\ length (notifications db2) = S (S (length (notifications db))))
    /\ (forall e,
          ToString (Number_toString E) status = Throw e ->
          resp = error_json 500 e
          /\ notifications db2 = notifications db).
Proof.
  intros Hauth Hrole Hauth' Hrole' Hstatus.
  unfold put_api_admin_orders_id.
  rewrite (protected_pass E _ _ _ _ _ _ Hauth Hrole).
  rewrite (update_status_run E claims db now req status Hstatus).
  destruct (ToString (Number_toString E) status) as [text|e] eqn:Hprint.
  - eexists. eexists. eexists. split; [reflexivity|].
    rewrite (protected_pass E _ _ _ _ _ _ Hauth' Hrole').
    rewrite (update_status_run E claims' _ now' req status Hstatus), Hprint.
    split; [reflexivity|]. split; [|split].
    + apply (update_order_status_twice E db). reflexivity.
    + intros text' _. split; [reflexivity|]. cbn. rewrite !length_app. simpl.
      split; lia.
    + discriminate.
  - eexists. eexists. eexists. split; [reflexivity|].
    rewrite (protected_pass E _ _ _ _ _ _ Hauth' Hrole').
    rewrite (update_status_run E claims' _ now' req status Hstatus), Hprint.
    split; [reflexivity|]. split; [|split].
    + apply (update_order_status_twice E db). reflexivity.
    + discriminate.
    + intros e' [= <-]. split; reflexivity.
Qed.

(** The Delhi manager marks order 1 as preparing, twice. *)
Lemma status_update_repeated_witness :
  let req := Sample2.admin_request Sample.delhi_admin "1"
               (JObj [("status", JStr "preparing")]) in
  exists db1 db2,
    put_api_admin_orders_id Reference.externals Sample.db Sample.t1 Sample.t1 req
      = (db1, ok_json)
    /\ put_api_admin_orders_id Reference.externals db1 Sample.t2 Sample.t2 req
      = (db2, ok_json)
    /\ orders db2 = orders db1
    /\ length (notifications db2) = 3%nat.
Proof.
  intros req.
  destruct (status_update_repeated Reference.externals Sample.db
              Sample.t1 Sample.t1 Sample.t2 Sample.t2 req
              (Sample.admin_token_claims Sample.delhi_admin)
              (Sample.admin_token_claims Sample.delhi_admin)
              (JStr "preparing") eq_refl eq_refl eq_refl eq_refl eq_refl)
    as (db1 & db2 & resp & H1 & H2 & Ho & Hok & _).
  destruct (Hok "preparing" eq_refl) as (-> & _ & Hn).
  exists db1, db2. repeat split; assumption.
Defined.

(** X11. A status update whose body has no [status] field is accepted all
    the same: every order the id names has its status set to NULL (the
    parameter is left unbound), and the notification reads
    [... status updated -> undefined]. *)
Theorem status_update_without_status (E : Externals) (db : Db) (t0 now : string)
    (req : Request) (claims : Value) :
  verifyAuthHeader E t0 req = inr claims ->
  requireRole "admin" claims = None ->
  get (body req) "status" = Ok JUndefined ->
  exists db' n,
    put_api_admin_orders_id E db t0 now req = (db', ok_json)
    /\ (forall o', In o' (orders db') ->
          Sqlite.int_col_eq (sqlite_int_of_text E) (o_id o') (BText (params_id req)) = true ->
          o_status o' = BNull)
    /\ notifications db' = (notifications db ++ [n])%list
    /\ n_text n = "Order " ++ params_id req ++ " status updated → undefined".
Proof.
  intros Hauth Hrole Hstatus.
  unfold put_api_admin_orders_id.
  rewrite (protected_pass E _ _ _ _ _ _ Hauth Hrole).
  rewrite (update_status_run E claims db now req JUndefined Hstatus).
  eexists. eexists. split; [reflexivity|]. split; [|split; reflexivity].
  cbn [insert_notification update_order_status orders].
  intros o' Ho' Hm. apply in_map_iff in Ho'. destruct Ho' as [o [<- _]].
  destruct (Sqlite.int_col_eq (sqlite_int_of_text E) (o_id o) (BText (params_id req)))
    eqn:Hmo; [reflexivity|].
  congruence.
Qed.

(** An empty body sent for order 2. *)
Lemma status_update_without_status_witness :
  exists db' n,
    put_api_admin_orders_id Reference.externals Sample.db Sample.t1 Sample.t2
      (Sample2.admin_request Sample.delhi_admin "2" (JObj []))
    = (db', ok_json)
    /\ map o_status (orders db') = [BText "pending"; BNull; BText "pending"]
    /\ n_text n = "Order 2 status updated → undefined".
Proof.
  destruct (status_update_without_status Reference.externals Sample.db
              Sample.t1 Sample.t2
              (Sample2.admin_request Sample.delhi_admin "2" (JObj []))
              (Sample.admin_token_claims Sample.delhi_admin)
              eq_refl eq_refl eq_refl)
    as (db' & n & Hrun & _ & _ & Ht).
  exists db', n. split; [exact Hrun|]. split; [|exact Ht].
  vm_compute in Hrun. injection Hrun as <-. reflexivity.
Defined.

(** ** [GET /api/orders] *)

Lemma filter_option_spec {A} (f : A -> option bool) (l kept : list A) :
  filter_option f l = Some kept ->
  forall x, In x kept <-> In x l /\ f x = Some true.
Proof.
  revert kept. induction l as [|y l IH]; intros kept; simpl.
  - intros [= <-] x. simpl. tauto.
  - destruct (f y) as [b|] eqn:Hy; [|discriminate].
    destruct (filter_option f l) as [kept'|]; [|discriminate].
    intros [= <-] x. specialize (IH kept' eq_refl x).
    destruct b; simpl; rewrite IH.
    + split.
      * intros [<-|[H1 H2]]; auto.
      * intros [[<-|H1] H2]; auto.
    + split.
      * intros [H1 H2]; auto.
      * intros [[<-|H1] H2]; [congruence | auto].
Qed.

(** X12. A user's order listing holds exactly the orders of the table
    whose [user_id] equals the id of the token's claims, newest first, and
    writes nothing: no order of another user is ever returned. *)
Theorem user_sees_only_own_orders (E : Externals) (db db' : Db) (t0 : string)
    (req : Request) (claims uid : Value) (rows : list OrderRow) :
  verifyAuthHeader E t0 req = inr claims ->
  requireRole "user" claims = None ->
  get claims "id" = Ok uid ->
  get_api_orders E db t0 req = Some (db', inr rows) ->
  db' = db
  /\ (forall o, In o rows <->
        In o (orders db)
        /\ exists z,
             Sqlite.int_of_bound (sqlite_int_of_text E) (o_user_id o) = Some (Some z)
             /\ Sqlite.int_col_eq (sqlite_int_of_text E) z
                  (Sqlite.bind_param uid) = true)
  /\ StronglySorted
       (fun r1 r2 => text_le (o_created_at r2) (o_created_at r1) = true) rows.
Proof.
  intros Hauth Hrole Hid Hrun.
  unfold get_api_orders in Hrun.
  rewrite (protected_pass E _ _ _ _ _ _ Hauth Hrole) in Hrun.
  unfold list_orders_for_user in Hrun. rewrite Hid in Hrun.
  destruct (filter_option _ (orders db)) as [kept|] eqn:Hkept; [|discriminate].
  injection Hrun as <- <-.
  split; [reflexivity|]. split.
  - intros o. rewrite sort_by_In, (filter_option_spec _ _ _ Hkept o).
    unfold user_id_eq.
    destruct (Sqlite.int_of_bound (sqlite_int_of_text E) (o_user_id o)) as [[z|]|].
    + split.
      * intros [Ho [= Hm]]. split; [exact Ho|]. exists z. auto.
      * intros [Ho [z' [[= <-] Hm]]]. rewrite Hm. auto.
    + split; [intros [_ [=]] | intros [_ [z [[=] _]]]].
    + split; [intros [_ [=]] | intros [_ [z [[=] _]]]].
  - apply (sort_by_ordered _ order_newer order_newer_total order_newer_trans).
Qed.

(** Asha's listing holds the three sample orders, all placed by user 1. *)
Lemma user_sees_only_own_orders_witness :
  exists rows,
    get_api_orders Reference.externals Sample.db Sample.t1
      (Sample2.user_request Sample.asha (JObj []))
    = Some (Sample.db, inr rows)
    /\ map o_id rows = [3; 2; 1]
    /\ forall o, In o rows ->
         Sqlite.int_of_bound Reference.int_of_text (o_user_id o) = Some (Some 1).
Proof.
  assert (exists rows,
            get_api_orders Reference.externals Sample.db Sample.t1
              (Sample2.user_request Sample.asha (JObj []))
            = Some (Sample.db, inr rows) /\ map o_id rows = [3; 2; 1])
    as (rows & Hrun & Hids).
  { eexists. split; vm_compute; reflexivity. }
  exists rows. split; [exact Hrun|]. split; [exact Hids|].
  intros o Ho.
  destruct (user_sees_only_own_orders Reference.externals Sample.db Sample.db
              Sample.t1 (Sample2.user_request Sample.asha (JObj []))
              (Sample.user_token_claims Sample.asha) (js_of_int 1) rows
              eq_refl eq_refl eq_refl Hrun) as (_ & Hin & _).
  apply Hin in Ho. destruct Ho as [_ [z [Hz Hm]]].
  change (Sqlite.int_of_bound Reference.int_of_text (o_user_id o) = Some (Some z)) in Hz.
  rewrite Hz. change ((z =? 1) = true) in Hm.
  apply Z.eqb_eq in Hm. congruence.
Defined.

(** X13. Creation and the user's listing compose: an order a user has
    just created, with a token whose id is an integer, is in that user's
    listing. *)
Theorem created_order_in_own_listing (E : Externals) (db db' db'' : Db)
    (t0 now now' t0' : string) (req req' : Request) (b : Value)
    (claims claims' uid : Value) (z : Z) (rows : list OrderRow) :
  verifyAuthHeader E t0 req = inr claims ->
  get claims "id" = Ok uid ->
  Sqlite.int_of_bound (sqlite_int_of_text E)
    (Sqlite.bind_param uid) = Some (Some z) ->
  post_api_orders E db t0 now now' req = (db', Json 200 b) ->
  verifyAuthHeader E t0' req' = inr claims' ->
  requireRole "user" claims' = None ->
  get claims' "id" = Ok uid ->
  get_api_orders E db' t0' req' = Some (db'', inr rows) ->
  exists o, orders db' = (orders db ++ [o])%list /\ In o rows.
Proof.
  intros Hauth Hid Hz Hrun Hauth' Hrole' Hid' Hlist.
  unfold post_api_orders in Hrun.
  apply protected_200 in Hrun. destruct Hrun as [claims1 [Hauth1 [_ Hrun]]].
  assert (claims1 = claims) by congruence. subst claims1.
  apply create_order_200 in Hrun.
  destruct Hrun as (items & total & address & date & time & meal & user_id & city
                    & _ & _ & _ & _ & _ & _ & _ & _ & Hid1 & _ & Hrest).
  cbn zeta in Hrest. destruct Hrest as (_ & _ & Horders & _).
  assert (user_id = uid) by congruence. subst user_id.
  eexists. split; [exact Horders|].
  unfold get_api_orders in Hlist.
  rewrite (protected_pass E _ _ _ _ _ _ Hauth' Hrole') in Hlist.
  unfold list_orders_for_user in Hlist. rewrite Hid' in Hlist.
  destruct (filter_option _ (orders db')) as [kept|] eqn:Hkept; [|discriminate].
  injection Hlist as _ <-.
  rewrite sort_by_In, (filter_option_spec _ _ _ Hkept).
  split.
  - rewrite Horders. apply in_or_app. right. left. reflexivity.
  - unfold user_id_eq. cbn [o_user_id]. rewrite Hz. f_equal.
    unfold Sqlite.int_of_bound in Hz. unfold Sqlite.int_col_eq.
    destruct (Sqlite.bind_param uid) as [|n|s]; [discriminate| |].
    + destruct (int_value n); [|discriminate].
      injection Hz as ->. apply Z.eqb_refl.
    + destruct (sqlite_int_of_text E s); [|discriminate].
      injection Hz as ->. apply Z.eqb_refl.
Qed.

(** Asha orders and then lists her orders. *)
Lemma created_order_in_own_listing_witness :
  let body := JObj [("items", Sample.items_l1); ("total", js_of_int 85);
                    ("address", Sample.address_in "Delhi")] in
  let run :=
    post_api_orders Reference.externals Sample.db Sample.t1 Sample.t1 Sample.t2
      (Sample2.user_request Sample.asha body) in
  exists o rows,
    orders (fst run) = (orders Sample.db ++ [o])%list
    /\ get_api_orders Reference.externals (fst run) Sample.t2
         (Sample2.user_request Sample.asha (JObj []))
       = Some (fst run, inr rows)
    /\ In o rows.
Proof.
  intros body run.
  assert (exists rows,
            get_api_orders Reference.externals (fst run) Sample.t2
              (Sample2.user_request Sample.asha (JObj []))
            = Some (fst run, inr rows)) as [rows Hlist].
  { eexists. vm_compute. reflexivity. }
  destruct (created_order_in_own_listing Reference.externals Sample.db (fst run)
              (fst run) Sample.t1 Sample.t1 Sample.t2 Sample.t2
              (Sample2.user_request Sample.asha body)
              (Sample2.user_request Sample.asha (JObj []))
              (JObj [("ok", JBool true); ("orderId", js_of_int 4)])
              (Sample.user_token_claims Sample.asha)
              (Sample.user_token_claims Sample.asha) (js_of_int 1) 1 rows
              eq_refl eq_refl eq_refl eq_refl eq_refl eq_refl eq_refl Hlist)
    as (o & Ho & Hin).
  exists o, rows. repeat split; assumption.
Defined.

Lemma text_col_eq_text (f : Number -> string) (c : option string) (s : string) :
  Sqlite.text_col_eq f c (BText s) = true <-> c = Some s.
Proof.
  unfold Sqlite.text_col_eq. simpl. destruct c as [t|]; [|split; discriminate].
  rewrite String.eqb_eq. split; [intros -> | intros [= ->]]; reflexivity.
Qed.

Lemma with_menu_same (db : Db) : with_menu db (menu db) = db.
Proof. destruct db. reflexivity. Qed.

Lemma columns_of_unknown (keys : list string) (targets : list SetTarget) :
  Forall2 (fun k t => set_target k = Some t) keys targets ->
  (exists k, In k keys /\ menu_column_of_name k = None) ->
  exists message, columns_of targets = inl message.
Proof.
  induction 1 as [|k t keys targets Hk _ IH]; intros [k0 [Hin Hnone]]; [destruct Hin|].
  unfold set_target in Hk.
  destruct (menu_column_of_name k) as [c|] eqn:Hc.
  - injection Hk as <-. cbn [columns_of].
    destruct Hin as [<-|Hin]; [congruence|].
    destruct IH as [message ->]; eauto.
  - destruct (bare_name k).
    + injection Hk as <-. cbn [columns_of].
      destruct (first_not_a_name targets); eauto.
    + destruct (Str.all_digits k); [|discriminate]. injection Hk as <-.
      cbn [columns_of]. eauto.
Qed.

(** X14. The menu update is confined to the menu. Every request whose
    field names are columns of the menu, bare names or runs of digits (the
    keys of an array) is answered; it leaves users, administrators, orders
    and notifications as they were and the number of menu rows unchanged,
    and unless it answers [{ ok: true }] it leaves the whole database as it
    was. A body without fields, or with a field name that is no column, is
    answered 500 by the engine's refusal of the statement. *)
Theorem menu_update_frame (E : Externals) (db : Db) (t0 : string) (req : Request) :
  (forall fields, object_entries (body req) = Ok fields ->
     forall k, In k (map fst fields) ->
       menu_column_of_name k <> None \/ bare_name k = true
       \/ Str.all_digits k = true) ->
  exists db' resp,
    put_api_admin_menu_id E db t0 req = Some (db', resp)
    /\ users db' = users db /\ admins db' = admins db
    /\ orders db' = orders db /\ notifications db' = notifications db
    /\ length (menu db') = length (menu db)
    /\ (resp = ok_json \/ db' = db)
    /\ (forall claims fields,
          verifyAuthHeader E t0 req = inr claims ->
          requireRole "admin" claims = None ->
          object_entries (body req) = Ok fields ->
          fields = [] \/ (exists k, In k (map fst fields) /\ menu_column_of_name k = None) ->
          db' = db /\ exists msg, resp = error_json 500 msg).
Proof.
  intros Hkeys.
  unfold put_api_admin_menu_id, protected.
  destruct (verifyAuthHeader E t0 req) as [r|claims] eqn:Hauth.
  { eexists. eexists. split; [reflexivity|]. repeat split; auto; intros; easy. }
  destruct (requireRole "admin" claims) as [r|] eqn:Hrole.
  { eexists. eexists. split; [reflexivity|]. repeat split; auto; intros; congruence. }
  destruct (object_entries (body req)) as [fields|e] eqn:Hfields.
  2:{ unfold update_menu. rewrite Hfields.
      eexists. eexists. split; [reflexivity|]. repeat split; auto; intros; easy. }
  destruct (targets_of_keys (map fst fields)) as [targets Htargets].
  { intros k Hk. unfold set_target.
    destruct (Hkeys fields eq_refl k Hk) as [Hc|[Hb|Hd]].
    - destruct (menu_column_of_name k); [discriminate | congruence].
    - destruct (menu_column_of_name k); [discriminate|]. rewrite Hb. discriminate.
    - destruct (menu_column_of_name k); [discriminate|].
      destruct (bare_name k); [discriminate|]. rewrite Hd. discriminate. }
  rewrite (update_menu_generated E db req fields targets Hfields Htargets).
  destruct fields as [|f fields].
  { eexists. eexists. split; [reflexivity|]. repeat split; eauto. }
  destruct (columns_of targets) as [name|cols] eqn:Hcols.
  { eexists. eexists. split; [reflexivity|]. repeat split; eauto. }
  assert (forall fields0 : list (string * Value),
            Ok (f :: fields) = Ok fields0 ->
            fields0 = [] \/
            (exists k, In k (map fst fields0) /\ menu_column_of_name k = None) ->
            False) as Hknown.
  { intros fields0 [= <-] [[=]|Hunknown].
    destruct (columns_of_unknown _ _ Htargets Hunknown) as [name Hname]. congruence. }
  destruct (existsb is_Cid cols && _).
  { eexists. eexists. split; [reflexivity|]. repeat split; eauto. }
  eexists. eexists. split; [reflexivity|].
  cbn [with_menu users admins orders notifications menu].
  repeat split; auto;
    try (apply length_map);
    exfalso; eapply Hknown; eassumption.
Qed.

(** A price and a field that is no column, sent for item [b1]: the
    statement is refused and nothing is written. *)
Lemma menu_update_frame_witness :
  put_api_admin_menu_id Reference.externals Sample.db Sample.t1
    (Sample2.admin_request Sample.delhi_admin "b1"
       (JObj [("price", js_of_int 65); ("bogus", js_of_int 1)]))
  = Some (Sample.db, error_json 500 "Error: SQLITE_ERROR: no such column: bogus").
Proof.
  destruct (menu_update_frame Reference.externals Sample.db Sample.t1
              (Sample2.admin_request Sample.delhi_admin "b1"
                 (JObj [("price", js_of_int 65); ("bogus", js_of_int 1)])))
    as (db' & resp & Hrun & _ & _ & _ & _ & _ & _ & Hrefused).
  { intros fields [= <-] k [<-|[<-|[]]];
      [left; discriminate | right; left; reflexivity]. }
  rewrite Hrun.
  destruct (Hrefused (Sample.admin_token_claims Sample.delhi_admin)
              [("price", js_of_int 65); ("bogus", js_of_int 1)] eq_refl eq_refl eq_refl)
    as [-> _].
  { right. exists "bogus". split; [simpl; auto | reflexivity]. }
  vm_compute in Hrun. injection Hrun as <-. reflexivity.
Defined.

Lemma columns_of_all_keys (keys : list string) :
  (forall k, In k keys -> exists c, menu_column_of_name k = Some c) ->
  exists cols, Forall2 (fun k c => menu_column_of_name k = Some c) keys cols.
Proof.
  induction keys as [|k keys IH]; intros Hk; [exists []; constructor|].
  destruct (Hk k (or_introl eq_refl)) as [c Hc].
  destruct IH as [cols Hcols]; [intros k' Hk'; apply Hk; right; exact Hk'|].
  exists (c :: cols). constructor; assumption.
Qed.

(** X15. An update sent for an id that no menu item has is answered
    [{ ok: true }] and changes nothing: the route does not tell an unknown
    item from an updated one. *)
Theorem menu_update_of_missing_item (E : Externals) (db : Db) (t0 : string)
    (req : Request) (claims : Value) (fields : list (string * Value)) :
  verifyAuthHeader E t0 req = inr claims ->
  requireRole "admin" claims = None ->
  object_entries (body req) = Ok fields ->
  fields <> [] ->
  (forall k, In k (map fst fields) -> exists c, menu_column_of_name k = Some c) ->
  (forall r, In r (menu db) -> m_id r <> Some (params_id req)) ->
  put_api_admin_menu_id E db t0 req = Some (db, ok_json).
Proof.
  intros Hauth Hrole Hfields Hne Hkeys Hnone.
  unfold put_api_admin_menu_id. rewrite (protected_pass E _ _ _ _ _ _ Hauth Hrole).
  destruct (columns_of_all_keys (map fst fields) Hkeys) as [cols Hcols].
  rewrite (update_menu_generated E db req fields (map Column cols) Hfields
             (targets_of_columns _ _ Hcols)).
  destruct fields as [|f fields]; [congruence|].
  rewrite columns_of_columns, (updated_no_match E db _ _ _ Hnone).
  assert (id_conflict E (BText (params_id req)) (menu db) (menu db) = false) as ->.
  { unfold id_conflict.
    destruct (existsb _ (combine (menu db) (menu db))) eqn:Hex; [|reflexivity].
    apply existsb_exists in Hex. destruct Hex as [[r r'] [Hin Hm]].
    apply in_combine_l in Hin. cbn [fst] in Hm.
    apply andb_true_iff in Hm. destruct Hm as [Hm _].
    apply text_col_eq_text in Hm. exfalso. exact (Hnone r Hin Hm). }
  rewrite andb_false_r, with_menu_same. reflexivity.
Qed.

(** No menu item has the id [zz9]. *)
Lemma menu_update_of_missing_item_witness :
  put_api_admin_menu_id Reference.externals Sample.db Sample.t1
    (Sample2.admin_request Sample.delhi_admin "zz9" (JObj [("price", js_of_int 65)]))
  = Some (Sample.db, ok_json).
Proof.
  refine (menu_update_of_missing_item Reference.externals Sample.db Sample.t1
            (Sample2.admin_request Sample.delhi_admin "zz9"
               (JObj [("price", js_of_int 65)]))
            (Sample.admin_token_claims Sample.delhi_admin)
            [("price", js_of_int 65)] eq_refl eq_refl eq_refl _ _ _).
  - discriminate.
  - intros k [<-|[]]. eexists. reflexivity.
  - intros r [<-|[<-|[<-|[<-|[<-|[]]]]]]; discriminate.
Defined.

Section MenuCreateDelete.

Variable E : Externals.

(** What the creation does, given the fields it reads. *)
Lemma create_menu_item_run (db : Db) (now_ms : Z) (req : Request) (id : Value) :
  get (body req) "id" = Ok id ->
  exists city active row,
    get (body req) "city" = Ok city
    /\ get (body req) "active" = Ok active
    /\ m_id row = Sqlite.text_of_bound (sqlite_text_of_number E)
                    (Sqlite.bind_param
                       (or_else id (JStr ("m" ++ Z_to_string now_ms))))
    /\ m_city row = Sqlite.text_of_bound (sqlite_text_of_number E)
                      (Sqlite.bind_param (or_else city (JStr "All")))
    /\ m_active row = IInt (if truthy active then 1 else 0)
    /\ create_menu_item E db now_ms req =
       if existsb (fun r => match m_id r with
                            | Some _ => text_eqb (m_id r) (m_id row)
                            | None => false
                            end) (menu db)
       then (db, error_json 500
                   "Error: SQLITE_CONSTRAINT: UNIQUE constraint failed: menu.id")
       else (with_menu db (menu db ++ [row]),
             Json 200 (JObj [("ok", JBool true);
                             ("id", or_else id (JStr ("m" ++ Z_to_string now_ms)))])).
Proof.
  intros Hid. unfold create_menu_item. rewrite Hid.
  destruct (get_ok_any _ _ "meal" _ Hid) as [meal ->].
  destruct (get_ok_any _ _ "name_en" _ Hid) as [name_en ->].
  destruct (get_ok_any _ _ "name_hi" _ Hid) as [name_hi ->].
  destruct (get_ok_any _ _ "price" _ Hid) as [price ->].
  destruct (get_ok_any _ _ "description_en" _ Hid) as [den ->].
  destruct (get_ok_any _ _ "description_hi" _ Hid) as [dhi ->].
  destruct (get_ok_any _ _ "city" _ Hid) as [city ->].
  destruct (get_ok_any _ _ "available_from" _ Hid) as [af ->].
  destruct (get_ok_any _ _ "available_to" _ Hid) as [at_ ->].
  destruct (get_ok_any _ _ "active" _ Hid) as [active ->].
  cbn [bind].
  exists city, active. eexists.
  split; [reflexivity|]. split; [reflexivity|].
  split; [|split; [|split; [|reflexivity]]].
  - reflexivity.
  - reflexivity.
  - cbn [m_active]. destruct (truthy active); reflexivity.
Qed.

(** What a 200 answer of the creation entails. *)
Lemma create_menu_item_200 (db db' : Db) (now_ms : Z) (req : Request) (b : Value) :
  create_menu_item E db now_ms req = (db', Json 200 b) ->
  exists id city active row,
    get (body req) "id" = Ok id
    /\ get (body req) "city" = Ok city
    /\ get (body req) "active" = Ok active
    /\ b = JObj [("ok", JBool true);
                 ("id", or_else id (JStr ("m" ++ Z_to_string now_ms)))]
    /\ db' = with_menu db (menu db ++ [row])
    /\ m_id row = Sqlite.text_of_bound (sqlite_text_of_number E)
                    (Sqlite.bind_param
                       (or_else id (JStr ("m" ++ Z_to_string now_ms))))
    /\ m_city row = Sqlite.text_of_bound (sqlite_text_of_number E)
                      (Sqlite.bind_param (or_else city (JStr "All")))
    /\ m_active row = IInt (if truthy active then 1 else 0)
    /\ (forall r, In r (menu db) -> m_id r <> None -> m_id r <> m_id row).
Proof.
  destruct (get (body req) "id") as [id|e] eqn:Hid.
  2:{ unfold create_menu_item. rewrite Hid. discriminate. }
  destruct (create_menu_item_run db now_ms req id Hid)
    as (city & active & row & Hcity & Hactive & Hrid & Hrcity & Hract & ->).
  match goal with
  | |- context [existsb ?f (menu db)] => destruct (existsb f (menu db)) eqn:Hex
  end; [discriminate|].
  intros [= <- <-].
  exists id, city, active, row.
  repeat (split; [reflexivity || assumption|]).
  intros r Hr Hsome Heq.
  match type of Hex with
  | existsb ?f _ = false => assert (existsb f (menu db) = true) as Hex'
  end.
  { apply existsb_exists. exists r. split; [exact Hr|].
    destruct (m_id r) as [v|] eqn:Hv; [|congruence].
    apply text_eqb_eq. exact Heq. }
  congruence.
Qed.

End MenuCreateDelete.

(** X16. Deleting a menu item always answers [{ ok: true }]; afterwards
    no menu row has that id, every other row is kept, nothing but the menu
    changes, the public listing shows no item of that id, and a second
    deletion of the same id succeeds and changes nothing. *)
Theorem deleted_item_is_gone (E : Externals) (db : Db) (t0 : string)
    (req : Request) (claims : Value) :
  verifyAuthHeader E t0 req = inr claims ->
  requireRole "admin" claims = None ->
  exists db',
    delete_api_admin_menu_id E db t0 req = (db', ok_json)
    /\ (forall r, In r (menu db') <->
                  In r (menu db) /\ m_id r <> Some (params_id req))
    /\ users db' = users db /\ admins db' = admins db
    /\ orders db' = orders db /\ notifications db' = notifications db
    /\ (forall q rows,
          get_api_menu E db' q = (db', MenuJson rows) ->
          forall r, In r rows -> m_id r <> Some (params_id req))
    /\ delete_menu_item E db' req = (db', ok_json).
Proof.
  intros Hauth Hrole.
  unfold delete_api_admin_menu_id. rewrite (protected_pass E _ _ _ _ _ _ Hauth Hrole).
  unfold delete_menu_item. eexists. split; [reflexivity|].
  assert (forall r,
            In r (filter (fun r => negb (Sqlite.text_col_eq (sqlite_text_of_number E)
                                           (m_id r) (BText (params_id req)))) (menu db))
            <-> In r (menu db) /\ m_id r <> Some (params_id req)) as Hin.
  { intros r. rewrite filter_In, negb_true_iff.
    destruct (Sqlite.text_col_eq _ (m_id r) (BText (params_id req))) eqn:Hm.
    - apply text_col_eq_text in Hm. split; [intros [_ [=]] | intros [_ H]; contradiction].
    - split; [|tauto]. intros [Hr _]. split; [exact Hr|].
      intros Heq. apply text_col_eq_text with (f := sqlite_text_of_number E) in Heq.
      congruence. }
  cbn [with_menu menu users admins orders notifications].
  split; [exact Hin|]. repeat (split; [reflexivity|]). split.
  - intros q rows [= <-] r Hr.
    apply filter_In in Hr. destruct Hr as [Hr _].
    apply sort_by_In in Hr. cbn [menu] in Hr. apply Hin in Hr. tauto.
  - f_equal. unfold with_menu. cbn. f_equal.
    apply filter_all. intros r Hr. apply filter_In in Hr. tauto.
Qed.

(** The Delhi manager deletes item [b2]. *)
Lemma deleted_item_is_gone_witness :
  exists db',
    delete_api_admin_menu_id Reference.externals Sample.db Sample.t1
      (Sample2.admin_request Sample.delhi_admin "b2" (JObj []))
    = (db', ok_json)
    /\ menu db' = [Sample.b1; Sample.l1; Sample.d1; Sample.d2]
    /\ delete_menu_item Reference.externals db'
         (Sample2.admin_request Sample.delhi_admin "b2" (JObj []))
       = (db', ok_json).
Proof.
  destruct (deleted_item_is_gone Reference.externals Sample.db Sample.t1
              (Sample2.admin_request Sample.delhi_admin "b2" (JObj []))
              (Sample.admin_token_claims Sample.delhi_admin) eq_refl eq_refl)
    as (db' & Hrun & _ & _ & _ & _ & _ & _ & Hagain).
  exists db'. split; [exact Hrun|]. split; [|exact Hagain].
  vm_compute in Hrun. injection Hrun as <-. reflexivity.
Defined.

(** X17. A created item, whatever its price, is stored with [active = 1]
    exactly when the request's [active] is truthy, and with the city
    ["All"] when the request names none; it is then in the public listing
    if and only if [active] was truthy and its city passes the filter. An
    item created without an [active] field is never listed. *)
Theorem created_item_public_iff_active (E : Externals) (db db' : Db) (t0 : string)
    (now_ms : Z) (req : Request) (b active city : Value) :
  post_api_admin_menu E db t0 now_ms req = (db', Json 200 b) ->
  get (body req) "active" = Ok active ->
  get (body req) "city" = Ok city ->
  exists row,
    menu db' = (menu db ++ [row])%list
    /\ m_active row = IInt (if truthy active then 1 else 0)
    /\ (truthy city = false -> m_city row = Some "All")
    /\ (forall c, city = JStr c -> c <> "" -> m_city row = Some c)
    /\ (forall q rows,
          get_api_menu E db' q = (db', MenuJson rows) ->
          (In row rows <->
           truthy active = true
           /\ (truthy (query_city q) = false
               \/ col_strict_eq (m_city row) (query_city q) = true
               \/ m_city row = Some "All"))).
Proof.
  intros Hrun Hactive Hcity.
  unfold post_api_admin_menu in Hrun. apply protected_200 in Hrun.
  destruct Hrun as [claims [_ [_ Hrun]]].
  apply create_menu_item_200 in Hrun.
  destruct Hrun as (id & city1 & active1 & row & _ & Hc1 & Ha1 & _ & -> & _ & Hrc & Hra & _).
  assert (city1 = city) by congruence. assert (active1 = active) by congruence. subst.
  exists row. cbn [with_menu menu].
  split; [reflexivity|]. split; [exact Hra|]. split; [|split].
  - intros Hf. rewrite Hrc. unfold or_else. rewrite Hf. reflexivity.
  - intros c -> Hne. rewrite Hrc. unfold or_else. simpl.
    destruct (String.eqb_spec c ""); [contradiction | reflexivity].
  - intros q rows [= <-].
    rewrite filter_In, sort_by_In. cbn [menu]. unfold menu_visible.
    rewrite andb_true_iff, !orb_true_iff, negb_true_iff, col_strict_eq_string, Hra.
    assert (In row (menu db ++ [row])) as Hin by (apply in_or_app; right; left; reflexivity).
    destruct (truthy active); simpl; intuition discriminate.
Qed.

(** An item created for Pune at the price 20.5, without an [active]
    field. *)
Lemma created_item_public_iff_active_witness :
  let run :=
    post_api_admin_menu Reference.externals Sample.db Sample.t1 1714557900000
      (Sample2.admin_request Sample.pune_admin ""
         (JObj [("id", JStr "s1"); ("meal", JStr "snack");
                ("name_en", JStr "Samosa"); ("price", JNum (NFinite 41 (-1)));
                ("city", JStr "Pune")])) in
  exists db' row,
    run = (db', Json 200 (JObj [("ok", JBool true); ("id", JStr "s1")]))
    /\ menu db' = (menu Sample.db ++ [row])%list
    /\ m_active row = IInt 0
    /\ m_city row = Some "Pune".
Proof.
  intros run.
  assert (exists db', run = (db', Json 200 (JObj [("ok", JBool true);
                                                  ("id", JStr "s1")])))
    as [db' Hrun].
  { eexists. vm_compute. reflexivity. }
  destruct (created_item_public_iff_active Reference.externals Sample.db db'
              Sample.t1 1714557900000 _ _ JUndefined (JStr "Pune") Hrun
              eq_refl eq_refl) as (row & Hm & Ha & _ & Hc & _).
  exists db', row. split; [exact Hrun|]. split; [exact Hm|]. split; [exact Ha|].
  apply (Hc "Pune" eq_refl). discriminate.
Defined.

(** X18. Creation and deletion compose: when a successful creation
    reports a string as the id of the item, deleting that id gives back
    the database as it was before the creation. *)
Theorem create_then_delete_restores (E : Externals) (db db' : Db) (t0 t0' : string)
    (now_ms : Z) (req req' : Request) (claims' : Value) (v : string) :
  post_api_admin_menu E db t0 now_ms req
    = (db', Json 200 (JObj [("ok", JBool true); ("id", JStr v)])) ->
  verifyAuthHeader E t0' req' = inr claims' ->
  requireRole "admin" claims' = None ->
  params_id req' = v ->
  delete_api_admin_menu_id E db' t0' req' = (db, ok_json).
Proof.
  intros Hrun Hauth Hrole Hv.
  unfold post_api_admin_menu in Hrun. apply protected_200 in Hrun.
  destruct Hrun as [claims [_ [_ Hrun]]].
  apply create_menu_item_200 in Hrun.
  destruct Hrun as (id & city & active & row & _ & _ & _ & Hb & -> & Hid & _ & _ & Hfresh).
  injection Hb as Hb.
  assert (or_else id (JStr ("m" ++ Z_to_string now_ms)) = JStr v) as Hiid
    by (symmetry; exact Hb).
  rewrite Hiid in Hid. cbn in Hid.
  unfold delete_api_admin_menu_id. rewrite (protected_pass E _ _ _ _ _ _ Hauth Hrole).
  unfold delete_menu_item. rewrite Hv. f_equal.
  change (with_menu db (filter (fun r => negb (Sqlite.text_col_eq (sqlite_text_of_number E)
                                                 (m_id r) (BText v)))
                          (menu db ++ [row])) = db).
  rewrite filter_app. cbn [filter].
  assert (Sqlite.text_col_eq (sqlite_text_of_number E) (m_id row) (BText v) = true) as ->.
  { apply text_col_eq_text. exact Hid. }
  cbn [negb]. rewrite app_nil_r.
  rewrite filter_all.
  - apply with_menu_same.
  - intros r Hr. apply negb_true_iff.
    destruct (Sqlite.text_col_eq _ (m_id r) (BText v)) eqn:Hm; [|reflexivity].
    apply text_col_eq_text in Hm. exfalso.
    apply (Hfresh r Hr); congruence.
Qed.

(** The Pune manager creates item [s1], priced by a text, and deletes it
    again. *)
Lemma create_then_delete_restores_witness :
  let run :=
    post_api_admin_menu Reference.externals Sample.db Sample.t1 1714557900000
      (Sample2.admin_request Sample.pune_admin ""
         (JObj [("id", JStr "s1"); ("meal", JStr "snack");
                ("price", JStr "twenty"); ("active", JBool true)])) in
  exists db',
    run = (db', Json 200 (JObj [("ok", JBool true); ("id", JStr "s1")]))
    /\ length (menu db') = 6%nat
    /\ delete_api_admin_menu_id Reference.externals db' Sample.t2
         (Sample2.admin_request Sample.pune_admin "s1" (JObj []))
       = (Sample.db, ok_json).
Proof.
  intros run.
  assert (exists db', run = (db', Json 200 (JObj [("ok", JBool true);
                                                  ("id", JStr "s1")]))
                      /\ length (menu db') = 6%nat)
    as (db' & Hrun & Hlen).
  { eexists. split; vm_compute; reflexivity. }
  exists db'. split; [exact Hrun|]. split; [exact Hlen|].
  exact (create_then_delete_restores Reference.externals Sample.db db'
           Sample.t1 Sample.t2 1714557900000 _
           (Sample2.admin_request Sample.pune_admin "s1" (JObj []))
           (Sample.admin_token_claims Sample.pune_admin) "s1"
           Hrun eq_refl eq_refl eq_refl).
Defined.

(** X19. Creating an item under an id that a menu row already has is
    refused by the primary key, whatever the other fields: the answer is
    500 and the database is left as it was. *)
Theorem create_with_taken_id_rejected (E : Externals) (db : Db) (t0 : string)
    (now_ms : Z) (req : Request) (claims : Value) (v : string) (r : MenuRow) :
  verifyAuthHeader E t0 req = inr claims ->
  requireRole "admin" claims = None ->
  get (body req) "id" = Ok (JStr v) ->
  v <> "" ->
  In r (menu db) ->
  m_id r = Some v ->
  post_api_admin_menu E db t0 now_ms req
  = (db, error_json 500 "Error: SQLITE_CONSTRAINT: UNIQUE constraint failed: menu.id").
Proof.
  intros Hauth Hrole Hid Hv Hr Hrid.
  unfold post_api_admin_menu. rewrite (protected_pass E _ _ _ _ _ _ Hauth Hrole).
  destruct (create_menu_item_run E db now_ms req (JStr v) Hid)
    as (city & active & row & _ & _ & Hrow & _ & _ & ->).
  match goal with
  | |- context [existsb ?f (menu db)] =>
      assert (existsb f (menu db) = true) as ->
  end; [|reflexivity].
  apply existsb_exists. exists r. split; [exact Hr|].
  rewrite Hrid. apply text_eqb_eq. rewrite Hrow. unfold or_else. simpl.
  destruct (String.eqb_spec v ""); [contradiction | reflexivity].
Qed.

(** A second item under the id [b1], priced 20.5. *)
Lemma create_with_taken_id_rejected_witness :
  post_api_admin_menu Reference.externals Sample.db Sample.t1 1714557900000
    (Sample2.admin_request Sample.pune_admin ""
       (JObj [("id", JStr "b1"); ("meal", JStr "snack");
              ("price", JNum (NFinite 41 (-1)))]))
  = (Sample.db,
     error_json 500 "Error: SQLITE_CONSTRAINT: UNIQUE constraint failed: menu.id").
Proof.
  assert ("b1" <> "") as Hne by discriminate.
  assert (In Sample.b1 (menu Sample.db)) as Hin by (simpl; auto).
  exact (create_with_taken_id_rejected Reference.externals Sample.db
           Sample.t1 1714557900000
           (Sample2.admin_request Sample.pune_admin ""
              (JObj [("id", JStr "b1"); ("meal", JStr "snack");
                     ("price", JNum (NFinite 41 (-1)))]))
           (Sample.admin_token_claims Sample.pune_admin) "b1" Sample.b1
           eq_refl eq_refl eq_refl Hne Hin eq_refl).
Defined.

(** ** Accounts: [POST /api/register], [POST /api/admin/create], logins *)

Lemma find_app_last {A} (f : A -> bool) (l : list A) (x : A) :
  find f l = None -> find f (l ++ [x]) = if f x then Some x else None.
Proof.
  induction l as [|y l IH]; simpl; [reflexivity|].
  destruct (f y); [discriminate | exact IH].
Qed.

Lemma text_col_eq_stored (f : Number -> string) (b : Bound) :
  b <> BNull -> Sqlite.text_col_eq f (Sqlite.text_of_bound f b) b = true.
Proof.
  unfold Sqlite.text_col_eq. destruct b; simpl; [congruence| |]; intros _;
    apply String.eqb_refl.
Qed.

Section Accounts.

Variable E : Externals.
Variable hashf : string -> string -> string.

(** What a 200 answer of the registration entails. *)
Lemma register_200 (s s' : Site) (now now' salt : string) (req : Request) (b : Value) :
  post_api_register E hashf s now now' salt req = (s', Json 200 b) ->
  exists email p name row,
    get (body req) "email" = Ok email
    /\ get (body req) "password" = Ok (JStr p)
    /\ get (body req) "name" = Ok name
    /\ truthy email = true
    /\ truthy (JStr p) = true
    /\ find (fun u => Sqlite.text_col_eq (sqlite_text_of_number E) (u_email u)
                        (Sqlite.bind_param email))
            (users (core s)) = None
    /\ users (core s') = (users (core s) ++ [row])%list
    /\ find (fun u => Sqlite.text_col_eq (sqlite_text_of_number E) (u_email u)
                        (Sqlite.bind_param email))
            (users (core s')) = Some row
    /\ u_id row = next_id (seq_users s) (map u_id (users (core s)))
    /\ u_email row = Sqlite.text_of_bound (sqlite_text_of_number E)
                       (Sqlite.bind_param email)
    /\ u_password_hash row = Some (hashf p salt)
    /\ admins (core s') = admins (core s)
    /\ orders (core s') = orders (core s)
    /\ b = JObj [("user", JObj [("id", js_of_int (u_id row));
                                ("email", js_of_text (u_email row));
                                ("name", js_of_text (u_name row))]);
                 ("token", JStr (signToken E
                                   (JObj [("id", js_of_int (u_id row));
                                          ("email", js_of_text (u_email row));
                                          ("role", JStr "user")]) now'))].
Proof.
  unfold post_api_register.
  destruct (get (body req) "email") as [email|e]; simpl; [|discriminate].
  destruct (get (body req) "password") as [password|e]; simpl; [|discriminate].
  destruct (get (body req) "name") as [name|e]; simpl; [|discriminate].
  destruct (truthy email) eqn:Te; simpl; [|discriminate].
  destruct (truthy password) eqn:Tp; simpl; [|discriminate].
  destruct (find _ (users (core s))) as [u|] eqn:Hfind; [discriminate|].
  destruct password as [| |pb|pn|p|pa|po]; simpl; try discriminate.
  rewrite (find_app_last _ _ _ Hfind). cbn [u_email].
  destruct (Sqlite.text_col_eq _ _ _) eqn:Hm; [|discriminate].
  intros [= <- <-].
  exists email, p, name. eexists.
  repeat (split; [reflexivity || assumption|]).
  split; [cbn; rewrite (find_app_last _ _ _ Hfind); cbn [u_email]; rewrite Hm; reflexivity|].
  repeat (split; [reflexivity|]). reflexivity.
Qed.

End Accounts.

(** X20. Registration keeps emails unique: after a successful
    registration, a second registration under the same email is answered
    400 [user exists] and writes nothing. The first one appended a single
    user whose id is larger than every id in use. *)
Theorem register_twice_conflicts (E : Externals) (hashf : string -> string -> string)
    (s s' : Site) (now now' salt now2 now2' salt2 : string) (req req2 : Request)
    (b email password2 : Value) :
  post_api_register E hashf s now now' salt req = (s', Json 200 b) ->
  get (body req) "email" = Ok email ->
  get (body req2) "email" = Ok email ->
  get (body req2) "password" = Ok password2 ->
  truthy password2 = true ->
  post_api_register E hashf s' now2 now2' salt2 req2
    = (s', error_json 400 "user exists")
  /\ exists row,
       users (core s') = (users (core s) ++ [row])%list
       /\ (forall u, In u (users (core s)) ->
             u_id u < u_id row /\ u_email u <> u_email row).
Proof.
  intros Hrun Hemail Hemail2 Hpw2 Tp2.
  apply register_200 in Hrun.
  destruct Hrun as (email1 & p & name & row & He1 & _ & _ & Te & _ & Hnone & Husers
                    & Hfound & Hid & Hrow & _).
  assert (email1 = email) by congruence. subst email1.
  split.
  - unfold post_api_register. rewrite Hemail2, Hpw2.
    destruct (get_ok_any _ _ "name" _ Hemail2) as [name2 ->]. simpl.
    rewrite Te, Tp2. simpl. rewrite Hfound. reflexivity.
  - exists row. split; [exact Husers|].
    intros u Hu. split.
    + rewrite Hid. apply next_id_fresh, in_map, Hu.
    + intros Heq.
      apply (find_none _ _ Hnone) in Hu. cbn beta in Hu.
      rewrite Heq, Hrow in Hu.
      rewrite text_col_eq_stored in Hu; [discriminate|].
      destruct email; simpl in *; discriminate.
Qed.

(** Ravi registers, and registers again. *)
Lemma register_twice_conflicts_witness :
  let req := Sample.request None JUndefined ""
               (JObj [("email", JStr "ravi@example.com");
                      ("password", JStr "dal"); ("name", JStr "Ravi")]) in
  let run := post_api_register Reference.externals Sample2.hash Sample2.site
               Sample.t1 Sample.t1 "salt" req in
  map u_id (users (core (fst run))) = [1; 2]
  /\ post_api_register Reference.externals Sample2.hash (fst run)
       Sample.t2 Sample.t2 "pepper" req
     = (fst run, error_json 400 "user exists").
Proof.
  intros req run. split; [reflexivity|].
  assert (exists b, run = (fst run, Json 200 b)) as [b Hrun].
  { eexists. vm_compute. reflexivity. }
  exact (proj1 (register_twice_conflicts Reference.externals Sample2.hash
                  Sample2.site (fst run) Sample.t1 Sample.t1 "salt"
                  Sample.t2 Sample.t2 "pepper" req req b
                  (JStr "ravi@example.com") (JStr "dal")
                  Hrun eq_refl eq_refl eq_refl eq_refl)).
Defined.

(** X21. Registration and login compose: when [bcrypt.compare] accepts a
    password against the hash [bcrypt.hash] made of it, a login with the
    email and password just registered succeeds, with a token signed over
    the new user's id, email and the role ["user"]. *)
Theorem register_then_login (E : Externals) (hashf : string -> string -> string)
    (s s' : Site) (now now' salt now2 : string) (req req2 : Request)
    (b email : Value) (p : string) :
  post_api_register E hashf s now now' salt req = (s', Json 200 b) ->
  get (body req) "email" = Ok email ->
  get (body req) "password" = Ok (JStr p) ->
  bcrypt_check E p (hashf p salt) = true ->
  get (body req2) "email" = Ok email ->
  get (body req2) "password" = Ok (JStr p) ->
  exists user,
    In user (users (core s'))
    /\ post_api_login E (core s') now2 req2
       = (core s',
          Json 200 (JObj [
            ("user", JObj [("id", js_of_int (u_id user));
                           ("email", js_of_text (u_email user));
                           ("name", js_of_text (u_name user))]);
            ("token", JStr (signToken E
                              (JObj [("id", js_of_int (u_id user));
                                     ("email", js_of_text (u_email user));
                                     ("role", JStr "user")]) now2))])).
Proof.
  intros Hrun Hemail Hpw Hcheck Hemail2 Hpw2.
  apply register_200 in Hrun.
  destruct Hrun as (email1 & p1 & name & row & He1 & Hp1 & _ & Te & Tp & _ & Husers
                    & Hfound & _ & _ & Hhash & _).
  assert (email1 = email) by congruence. assert (p1 = p) by congruence. subst.
  exists row. split.
  - rewrite Husers. apply in_or_app. right. left. reflexivity.
  - unfold post_api_login. rewrite Hemail2, Hpw2. cbn [bind]. rewrite Te, Tp.
    cbn [negb orb]. rewrite Hfound. unfold bcrypt_compare. rewrite Hhash, Hcheck.
    reflexivity.
Qed.

(** Ravi registers and logs in. *)
Lemma register_then_login_witness :
  let body := JObj [("email", JStr "ravi@example.com");
                    ("password", JStr "dal"); ("name", JStr "Ravi")] in
  let req := Sample.request None JUndefined "" body in
  let s' := fst (post_api_register Reference.externals Sample2.hash Sample2.site
                   Sample.t1 Sample.t1 "salt" req) in
  exists user,
    In user (users (core s'))
    /\ post_api_login Reference.externals (core s') Sample.t2 req
       = (core s',
          Json 200 (JObj [
            ("user", JObj [("id", js_of_int (u_id user));
                           ("email", js_of_text (u_email user));
                           ("name", js_of_text (u_name user))]);
            ("token", JStr (signToken Reference.externals
                              (JObj [("id", js_of_int (u_id user));
                                     ("email", js_of_text (u_email user));
                                     ("role", JStr "user")]) Sample.t2))])).
Proof.
  intros body req s'.
  assert (exists b, post_api_register Reference.externals Sample2.hash Sample2.site
                      Sample.t1 Sample.t1 "salt" req = (s', Json 200 b)) as [b Hrun].
  { eexists. vm_compute. reflexivity. }
  exact (register_then_login Reference.externals Sample2.hash Sample2.site s'
           Sample.t1 Sample.t1 "salt" Sample.t2 req req b
           (JStr "ravi@example.com") "dal" Hrun eq_refl eq_refl eq_refl eq_refl eq_refl).
Defined.

(** X22. A login whose password is not a string tells a known email from
    an unknown one. [POST /api/admin/login] has no guard on its fields:
    with a missing or non-string password it answers 400 [invalid
    credentials] for an unknown email and 500 with bcrypt's complaint for
    a known one. [POST /api/login] does the same for a truthy non-string
    password. *)
Theorem non_string_password_tells_known_email (E : Externals) (db : Db)
    (now : string) (req : Request) (email password : Value) :
  get (body req) "email" = Ok email ->
  get (body req) "password" = Ok password ->
  (forall p, password <> JStr p) ->
  (post_api_admin_login E db now req
   = match find (fun a => Sqlite.text_col_eq (sqlite_text_of_number E) (a_email a)
                            (Sqlite.bind_param email))
                (admins db) with
     | None => (db, error_json 400 "invalid credentials")
     | Some admin =>
         (db, error_json 500
                ("Error: Illegal arguments: " ++ typeof password ++ ", "
                 ++ typeof (js_of_text (a_password_hash admin))))
     end)
  /\ (truthy email = true -> truthy password = true ->
      post_api_login E db now req
      = match find (fun u => Sqlite.text_col_eq (sqlite_text_of_number E) (u_email u)
                               (Sqlite.bind_param email))
                   (users db) with
        | None => (db, error_json 400 "invalid credentials")
        | Some user =>
            (db, error_json 500
                   ("Error: Illegal arguments: " ++ typeof password ++ ", "
                    ++ typeof (js_of_text (u_password_hash user))))
        end).
Proof.
  intros Hemail Hpw Hns. split.
  - unfold post_api_admin_login. rewrite Hemail, Hpw. cbn [bind].
    destruct (find _ (admins db)) as [admin|]; [|reflexivity].
    unfold bcrypt_compare.
    destruct password as [| | | |p| |]; try reflexivity.
    destruct (Hns p eq_refl).
  - intros Te Tp.
    unfold post_api_login. rewrite Hemail, Hpw. cbn [bind]. rewrite Te, Tp.
    cbn [negb orb].
    destruct (find _ (users db)) as [user|]; [|reflexivity].
    unfold bcrypt_compare.
    destruct password as [| | | |p| |]; try reflexivity.
    destruct (Hns p eq_refl).
Qed.

(** The manager's email without a password, against an email nobody has. *)
Lemma non_string_password_tells_known_email_witness :
  post_api_admin_login Reference.externals Sample.db Sample.t1
    (Sample.request None JUndefined ""
       (JObj [("email", JStr "manager@mummatiffin.com")]))
  = (Sample.db, error_json 500 "Error: Illegal arguments: undefined, string")
  /\ post_api_admin_login Reference.externals Sample.db Sample.t1
       (Sample.request None JUndefined "" (JObj [("email", JStr "nobody@example.com")]))
     = (Sample.db, error_json 400 "invalid credentials").
Proof.
  split.
  - rewrite (proj1 (non_string_password_tells_known_email Reference.externals
                      Sample.db Sample.t1
                      (Sample.request None JUndefined ""
                         (JObj [("email", JStr "manager@mummatiffin.com")]))
                      (JStr "manager@mummatiffin.com") JUndefined
                      eq_refl eq_refl ltac:(discriminate))).
    reflexivity.
  - rewrite (proj1 (non_string_password_tells_known_email Reference.externals
                      Sample.db Sample.t1
                      (Sample.request None JUndefined ""
                         (JObj [("email", JStr "nobody@example.com")]))
                      (JStr "nobody@example.com") JUndefined
                      eq_refl eq_refl ltac:(discriminate))).
    reflexivity.
Defined.

Section AdminCreate.

Variable E : Externals.
Variable hashf : string -> string -> string.

(** A protected route that answers 200 ran its handler, whatever state
    the route threads. *)
Lemma protected_200_any {T} (role t0 : string) (req : Request) (x x' : T)
    (handler : Value -> T * Response) (b : Value) :
  protected E role t0 req (fun r => (x, r)) handler = (x', Json 200 b) ->
  exists claims,
    verifyAuthHeader E t0 req = inr claims
    /\ requireRole role claims = None
    /\ handler claims = (x', Json 200 b).
Proof.
  unfold protected.
  destruct (verifyAuthHeader E t0 req) as [r|claims] eqn:Hv.
  - destruct (verifyAuthHeader_reject E _ _ _ Hv) as [msg ->]. discriminate.
  - destruct (requireRole role claims) as [r|] eqn:Hr.
    + destruct (requireRole_reject _ _ _ Hr) as [st [b' [-> Hst]]].
      intros [= _ H _]. congruence.
    + eauto.
Qed.

(** What [{ ok: true }] from the handler of [POST /api/admin/create]
    entails. *)
Lemma create_admin_200 (s s' : Site) (now salt : string) (req : Request) (b : Value) :
  create_admin E hashf s now salt req = (s', Json 200 b) ->
  exists email p name city row,
    get (body req) "email" = Ok email
    /\ get (body req) "password" = Ok (JStr p)
    /\ get (body req) "name" = Ok name
    /\ get (body req) "city" = Ok city
    /\ truthy email = true
    /\ truthy (JStr p) = true
    /\ find (fun a => Sqlite.text_col_eq (sqlite_text_of_number E) (a_email a)
                        (Sqlite.bind_param email))
            (admins (core s)) = None
    /\ row = {| a_id := next_id (seq_admins s) (map a_id (admins (core s)));
                a_email := Sqlite.text_of_bound (sqlite_text_of_number E)
                             (Sqlite.bind_param email);
                a_password_hash := Some (hashf p salt);
                a_name := Sqlite.text_of_bound (sqlite_text_of_number E)
                            (Sqlite.bind_param
                               (or_else name (JStr "")));
                a_city := Sqlite.text_of_bound (sqlite_text_of_number E)
                            (Sqlite.bind_param
                               (or_else city (JStr "All")));
                a_created_at := Some now |}
    /\ s' = {| core := with_admins (core s) (admins (core s) ++ [row]);
               addresses := addresses s; seq_users := seq_users s;
               seq_admins := a_id row; seq_addresses := seq_addresses s |}.
Proof.
  unfold create_admin.
  destruct (get (body req) "email") as [email|e]; cbn [bind]; [|discriminate].
  destruct (get (body req) "password") as [password|e]; cbn [bind]; [|discriminate].
  destruct (get (body req) "name") as [name|e]; cbn [bind]; [|discriminate].
  destruct (get (body req) "city") as [city|e]; cbn [bind]; [|discriminate].
  destruct (truthy email) eqn:Te; cbn [negb orb]; [|discriminate].
  destruct (truthy password) eqn:Tp; cbn [negb orb]; [|discriminate].
  destruct (find _ (admins (core s))) as [u|] eqn:Hfind; [discriminate|].
  destruct password as [| |pb|pn|p|pa|po]; cbn [bcrypt_hash_call bind];
    try discriminate.
  intros [= <-].
  exists email, p, name, city. eexists.
  repeat (split; [reflexivity || assumption|]).
  split; reflexivity.
Qed.

End AdminCreate.

(** X23. An administrator made through [POST /api/admin/create] can log
    in at once with the password given, when [bcrypt.compare] accepts a
    password against the hash [bcrypt.hash] made of it; the login answers
    the city stored for them, which is ["All"] when the request named no
    city (or a falsy one). *)
Theorem created_admin_can_log_in (E : Externals) (hashf : string -> string -> string)
    (s s' : Site) (t0 now salt now2 : string) (req req2 : Request)
    (b email city : Value) (p : string) :
  post_api_admin_create E hashf s t0 now salt req = (s', Json 200 b) ->
  get (body req) "email" = Ok email ->
  get (body req) "password" = Ok (JStr p) ->
  get (body req) "city" = Ok city ->
  bcrypt_check E p (hashf p salt) = true ->
  get (body req2) "email" = Ok email ->
  get (body req2) "password" = Ok (JStr p) ->
  exists admin,
    admins (core s') = (admins (core s) ++ [admin])%list
    /\ a_city admin = Sqlite.text_of_bound (sqlite_text_of_number E)
                        (Sqlite.bind_param
                           (or_else city (JStr "All")))
    /\ (truthy city = false -> a_city admin = Some "All")
    /\ post_api_admin_login E (core s') now2 req2
       = (core s',
          Json 200 (JObj [
            ("admin", JObj [("id", js_of_int (a_id admin));
                            ("email", js_of_text (a_email admin));
                            ("name", js_of_text (a_name admin));
                            ("city", js_of_text (a_city admin))]);
            ("token", JStr (signToken E (admin_token_payload admin) now2))])).
Proof.
  intros Hrun Hemail Hpw Hcity Hcheck Hemail2 Hpw2.
  unfold post_api_admin_create in Hrun.
  apply protected_200_any in Hrun. destruct Hrun as (claims & _ & _ & Hrun).
  apply create_admin_200 in Hrun.
  destruct Hrun as (email1 & p1 & name & city1 & row & He1 & Hp1 & _ & Hc1 & Te & _
                    & Hnone & Hrow & ->).
  assert (email1 = email) by congruence. assert (p1 = p) by congruence.
  assert (city1 = city) by congruence. subst email1 p1 city1.
  subst row. eexists. split; [reflexivity|].
  split; [reflexivity|].
  split.
  - intros Tc. cbn [a_city]. unfold or_else. rewrite Tc. reflexivity.
  - unfold post_api_admin_login. rewrite Hemail2, Hpw2. cbn [bind].
    cbn [core admins with_admins].
    rewrite (find_app_last _ _ _ Hnone). cbn [a_email].
    rewrite text_col_eq_stored by (destruct email; simpl in *; discriminate).
    unfold bcrypt_compare. cbn [a_password_hash].
    rewrite Hcheck. reflexivity.
Qed.

(** The super admin creates a manager without naming a city. *)
Lemma created_admin_can_log_in_witness :
  let body := JObj [("email", JStr "goa@mummatiffin.com");
                    ("password", JStr "goa123"); ("name", JStr "Goa Manager")] in
  let req := Sample2.admin_request Sample.super_admin "" body in
  let s' := fst (post_api_admin_create Reference.externals Sample2.hash Sample2.site
                   Sample.t0 Sample.t1 "salt" req) in
  exists admin,
    admins (core s') = (admins Sample.db ++ [admin])%list
    /\ a_city admin = Some "All"
    /\ exists b, post_api_admin_login Reference.externals (core s') Sample.t2 req
                 = (core s', Json 200 b).
Proof.
  intros body req s'.
  assert (exists b, post_api_admin_create Reference.externals Sample2.hash Sample2.site
                      Sample.t0 Sample.t1 "salt" req = (s', Json 200 b)) as [b Hrun].
  { eexists. vm_compute. reflexivity. }
  destruct (created_admin_can_log_in Reference.externals Sample2.hash Sample2.site s'
              Sample.t0 Sample.t1 "salt" Sample.t2 req req b
              (JStr "goa@mummatiffin.com") JUndefined "goa123"
              Hrun eq_refl eq_refl eq_refl eq_refl eq_refl eq_refl)
    as (admin & Ha & _ & Hc & Hlogin).
  exists admin. split; [exact Ha|]. split; [exact (Hc eq_refl)|].
  eexists. exact Hlogin.
Defined.

(** ** [GET /api/notifications] *)

Lemma StronglySorted_app {A} (R : A -> A -> Prop) (l1 l2 : list A) :
  StronglySorted R (l1 ++ l2) ->
  StronglySorted R l1 /\ StronglySorted R l2
  /\ forall a b, In a l1 -> In b l2 -> R a b.
Proof.
  induction l1 as [|x l1 IH]; simpl; intros H.
  - split; [constructor|]. split; [exact H|]. intros a b [].
  - inversion H as [|y l Hl Hx]; subst.
    destruct (IH Hl) as (H1 & H2 & H12).
    rewrite Forall_forall in Hx.
    split; [|split; [exact H2|]].
    + constructor; [exact H1|].
      rewrite Forall_forall. intros z Hz. apply Hx, in_or_app. left. exact Hz.
    + intros a b [<-|Ha] Hb; [|auto].
      apply Hx, in_or_app. right. exact Hb.
Qed.

Lemma firstn_incl {A} (n : nat) (l : list A) (x : A) : In x (firstn n l) -> In x l.
Proof.
  intros H. rewrite <- (firstn_skipn n l). apply in_or_app. left. exact H.
Qed.

Lemma notification_newer_total (n1 n2 : NotificationRow) :
  notification_newer n1 n2 = true \/ notification_newer n2 n1 = true.
Proof. apply String.leb_total. Qed.

Lemma notification_newer_trans (n1 n2 n3 : NotificationRow) :
  notification_newer n1 n2 = true -> notification_newer n2 n3 = true ->
  notification_newer n1 n3 = true.
Proof.
  unfold notification_newer. intros H1 H2. exact (string_leb_trans _ _ _ H2 H1).
Qed.

(** X24. The public notification feed: at most fifty stored
    notifications, newest first, none left out that is newer than one
    returned, and all of them when the table holds no more than fifty. The
    target city of a notification plays no part: every visitor is served
    the same rows, and nothing is written. *)
Theorem notifications_latest_fifty (db : Db) :
  fst (get_api_notifications db) = db
  /\ (length (snd (get_api_notifications db)) <= 50)%nat
  /\ (forall n, In n (snd (get_api_notifications db)) -> In n (notifications db))
  /\ StronglySorted
       (fun n1 n2 => String.leb (n_created_at n2) (n_created_at n1) = true)
       (snd (get_api_notifications db))
  /\ (exists rest,
        Permutation (snd (get_api_notifications db) ++ rest) (notifications db)
        /\ forall n m, In n (snd (get_api_notifications db)) -> In m rest ->
             String.leb (n_created_at m) (n_created_at n) = true)
  /\ ((length (notifications db) <= 50)%nat ->
      Permutation (snd (get_api_notifications db)) (notifications db)).
Proof.
  unfold get_api_notifications. cbn [fst snd].
  pose proof (sort_by_ordered _ notification_newer notification_newer_total
                notification_newer_trans (notifications db)) as Hsorted.
  pose proof (sort_by_perm _ notification_newer (notifications db)) as Hperm.
  rewrite <- (firstn_skipn 50 (sort_by notification_newer (notifications db)))
    in Hsorted.
  apply StronglySorted_app in Hsorted. destruct Hsorted as (H1 & _ & H12).
  split; [reflexivity|].
  split; [apply firstn_le_length|].
  split.
  { intros n Hn. apply firstn_incl in Hn. apply (sort_by_In _ notification_newer), Hn. }
  split; [exact H1|].
  split.
  { exists (skipn 50 (sort_by notification_newer (notifications db))).
    split; [rewrite firstn_skipn; exact Hperm | exact H12]. }
  intros Hlen. rewrite firstn_all2; [exact Hperm|].
  rewrite (Permutation_length Hperm). exact Hlen.
Qed.

(** X25. An order's notification is public: after a successful
    [POST /api/orders] on a table of fewer than fifty notifications, the
    feed served to every visitor holds the notification that names the new
    order's id and the city of its address. *)
Theorem order_notification_is_public (E : Externals) (db db' : Db)
    (t0 now now' : string) (req : Request) (b address city : Value) :
  post_api_orders E db t0 now now' req = (db', Json 200 b) ->
  get (body req) "address" = Ok address ->
  get address "city" = Ok city ->
  (length (notifications db) < 50)%nat ->
  exists n lastID,
    In n (snd (get_api_notifications db'))
    /\ b = JObj [("ok", JBool true); ("orderId", js_of_int lastID)]
    /\ n_text n = "New order " ++ Z_to_string lastID ++ " placed"
    /\ n_target_city n
       = Sqlite.bind_param (or_else city (JStr "All")).
Proof.
  intros Hrun Haddress Hcity Hlen. unfold post_api_orders in Hrun.
  apply protected_200 in Hrun. destruct Hrun as [claims [_ [_ Hrun]]].
  apply create_order_200 in Hrun.
  destruct Hrun as (items & total & address1 & date & time & meal & user_id & city1
                    & _ & _ & Ha1 & _ & _ & _ & _ & _ & _ & Hc1 & Hrest).
  cbn zeta in Hrest. destruct Hrest as (_ & Hb & _ & Hnotifs).
  assert (address1 = address) by congruence. subst address1.
  assert (city1 = city) by congruence. subst city1.
  do 2 eexists. split.
  { unfold get_api_notifications. cbn [snd].
    rewrite firstn_all2.
    2:{ rewrite (Permutation_length (sort_by_perm _ notification_newer _)), Hnotifs.
        rewrite length_app. simpl. lia. }
    apply (sort_by_In _ notification_newer). rewrite Hnotifs.
    apply in_or_app. right. left. reflexivity. }
  split; [exact Hb|]. split; reflexivity.
Qed.

(** Asha's order to Delhi shows up in the feed. *)
Lemma order_notification_is_public_witness :
  let body := JObj [("items", Sample.items_l1); ("total", js_of_int 85);
                    ("address", Sample.address_in "Delhi")] in
  let run :=
    post_api_orders Reference.externals Sample.db Sample.t1 Sample.t1 Sample.t2
      (Sample2.user_request Sample.asha body) in
  exists n,
    In n (snd (get_api_notifications (fst run)))
    /\ n_text n = "New order 4 placed"
    /\ n_target_city n = BText "Delhi".
Proof.
  intros body run.
  destruct (order_notification_is_public Reference.externals Sample.db (fst run)
              Sample.t1 Sample.t1 Sample.t2 (Sample2.user_request Sample.asha body)
              (JObj [("ok", JBool true); ("orderId", js_of_int 4)])
              (Sample.address_in "Delhi") (JStr "Delhi")
              eq_refl eq_refl eq_refl ltac:(simpl; lia))
    as (n & lastID & Hin & Hb & Ht & Hc).
  exists n. split; [exact Hin|].
  assert (lastID = 4) as -> by (injection Hb as Hb; symmetry; exact Hb).
  split; [exact Ht | exact Hc].
Defined.

(** ** [POST /api/address] and [GET /api/address] *)

Lemma address_newer_total (a1 a2 : AddressRow) :
  address_newer a1 a2 = true \/ address_newer a2 a1 = true.
Proof. apply text_le_total. Qed.

Lemma address_newer_trans (a1 a2 a3 : AddressRow) :
  address_newer a1 a2 = true -> address_newer a2 a3 = true ->
  address_newer a1 a3 = true.
Proof.
  unfold address_newer. intros H1 H2. exact (text_le_trans _ _ _ H2 H1).
Qed.

Lemma user_id_eq_same (E : Externals) (b : Bound) (z : Z) :
  Sqlite.int_of_bound (sqlite_int_of_text E) b = Some (Some z) ->
  user_id_eq E b b = Some true.
Proof.
  intros Hz. unfold user_id_eq. rewrite Hz. f_equal.
  unfold Sqlite.int_of_bound in Hz. unfold Sqlite.int_col_eq.
  destruct b as [|n|s]; [discriminate| |].
  - destruct (int_value n); [|discriminate].
    injection Hz as ->. apply Z.eqb_refl.
  - destruct (sqlite_int_of_text E s); [|discriminate].
    injection Hz as ->. apply Z.eqb_refl.
Qed.

Section Addresses.

Variable E : Externals.

(** What [{ ok: true }] from the handler of [POST /api/address] entails. *)
Lemma save_address_200 (user : Value) (s s' : Site) (now : string) (req : Request)
    (b : Value) :
  save_address E user s now req = (s', Json 200 b) ->
  exists name line landmark pin city user_id,
    get (body req) "name" = Ok name
    /\ get (body req) "line" = Ok line
    /\ get (body req) "landmark" = Ok landmark
    /\ get (body req) "pin" = Ok pin
    /\ get (body req) "city" = Ok city
    /\ get user "id" = Ok user_id
    /\ user_exists E (core s) (Sqlite.bind_param user_id) = true
    /\ s' = {| core := core s;
               addresses := addresses s ++
                 [{| ad_id := next_id (seq_addresses s) (map ad_id (addresses s));
                     ad_user_id := Sqlite.bind_param user_id;
                     ad_name := Sqlite.text_of_bound (sqlite_text_of_number E)
                       (Sqlite.bind_param (or_else name (JStr "")));
                     ad_line := Sqlite.text_of_bound (sqlite_text_of_number E)
                       (Sqlite.bind_param (or_else line (JStr "")));
                     ad_landmark := Sqlite.text_of_bound (sqlite_text_of_number E)
                       (Sqlite.bind_param
                          (or_else landmark (JStr "")));
                     ad_pin := Sqlite.text_of_bound (sqlite_text_of_number E)
                       (Sqlite.bind_param (or_else pin (JStr "")));
                     ad_city := Sqlite.text_of_bound (sqlite_text_of_number E)
                       (Sqlite.bind_param (or_else city (JStr "")));
                     ad_created_at := Some now |}];
               seq_users := seq_users s; seq_admins := seq_admins s;
               seq_addresses := next_id (seq_addresses s) (map ad_id (addresses s)) |}.
Proof.
  unfold save_address.
  destruct (get (body req) "name") as [name|e]; cbn [bind]; [|discriminate].
  destruct (get (body req) "line") as [line|e]; cbn [bind]; [|discriminate].
  destruct (get (body req) "landmark") as [landmark|e]; cbn [bind]; [|discriminate].
  destruct (get (body req) "pin") as [pin|e]; cbn [bind]; [|discriminate].
  destruct (get (body req) "city") as [city|e]; cbn [bind]; [|discriminate].
  destruct (get user "id") as [user_id|e]; cbn [bind]; [|discriminate].
  unfold address_user_exists.
  destruct (user_exists E (core s) _) eqn:Hu; [|discriminate].
  intros [= <-].
  exists name, line, landmark, pin, city, user_id.
  repeat (split; [reflexivity || assumption|]). reflexivity.
Qed.

End Addresses.

Lemma filter_option_length {A} (f : A -> option bool) (l kept : list A) :
  filter_option f l = Some kept -> (length kept <= length l)%nat.
Proof.
  revert kept. induction l as [|x l IH]; intros kept; simpl.
  - intros [= <-]. simpl. lia.
  - destruct (f x) as [b|]; [|discriminate].
    destruct (filter_option f l) as [kept'|]; [|discriminate].
    intros [= <-]. specialize (IH kept' eq_refl).
    destruct b; simpl; lia.
Qed.

(** What the handler of [GET /api/address] returns. *)
Lemma list_addresses_rows (E : Externals) (s s' : Site) (user uid : Value)
    (rows : list AddressRow) :
  get user "id" = Ok uid ->
  list_addresses E user s = Some (s', inr rows) ->
  s' = s
  /\ (length rows <= 10)%nat
  /\ (forall a, In a rows ->
        In a (addresses s)
        /\ user_id_eq E (ad_user_id a) (Sqlite.bind_param uid)
           = Some true)
  /\ StronglySorted
       (fun a1 a2 => text_le (ad_created_at a2) (ad_created_at a1) = true) rows
  /\ ((length (addresses s) <= 10)%nat ->
      forall a, In a (addresses s) ->
        user_id_eq E (ad_user_id a) (Sqlite.bind_param uid)
        = Some true ->
        In a rows).
Proof.
  intros Hid Hrun.
  unfold list_addresses in Hrun. rewrite Hid in Hrun.
  destruct (filter_option _ (addresses s)) as [kept|] eqn:Hkept; [|discriminate].
  remember (firstn 10 (sort_by address_newer kept)) as out eqn:Hout.
  injection Hrun as <- <-. subst out.
  pose proof (sort_by_ordered _ address_newer address_newer_total
                address_newer_trans kept) as Hsorted.
  rewrite <- (firstn_skipn 10 (sort_by address_newer kept)) in Hsorted.
  apply StronglySorted_app in Hsorted. destruct Hsorted as (H1 & _ & _).
  split; [reflexivity|].
  split; [apply firstn_le_length|].
  split.
  { intros a Ha. apply firstn_incl in Ha.
    apply (proj1 (sort_by_In _ address_newer a kept)) in Ha.
    apply (filter_option_spec _ _ _ Hkept a), Ha. }
  split; [exact H1|].
  intros Hlen a Ha Hown.
  assert (In a kept) as Hk by (apply (filter_option_spec _ _ _ Hkept a); auto).
  rewrite firstn_all2; [apply (sort_by_In _ address_newer), Hk|].
  rewrite (Permutation_length (sort_by_perm _ address_newer kept)).
  pose proof (filter_option_length _ _ _ Hkept). lia.
Qed.

(** X26. A user's address listing returns at most ten rows, each a
    stored address whose [user_id] equals the id of the token's claims,
    newest first, and writes nothing; when the table holds no more than
    ten addresses, it returns every address of that user. *)
Theorem address_listing_own_latest_ten (E : Externals) (s s' : Site) (t0 : string)
    (req : Request) (claims uid : Value) (rows : list AddressRow) :
  verifyAuthHeader E t0 req = inr claims ->
  requireRole "user" claims = None ->
  get claims "id" = Ok uid ->
  get_api_address E s t0 req = Some (s', inr rows) ->
  s' = s
  /\ (length rows <= 10)%nat
  /\ (forall a, In a rows ->
        In a (addresses s)
        /\ user_id_eq E (ad_user_id a) (Sqlite.bind_param uid)
           = Some true)
  /\ StronglySorted
       (fun a1 a2 => text_le (ad_created_at a2) (ad_created_at a1) = true) rows
  /\ ((length (addresses s) <= 10)%nat ->
      forall a, In a (addresses s) ->
        user_id_eq E (ad_user_id a) (Sqlite.bind_param uid)
        = Some true ->
        In a rows).
Proof.
  intros Hauth Hrole Hid Hrun.
  unfold get_api_address in Hrun.
  rewrite (protected_pass E _ _ _ _ _ _ Hauth Hrole) in Hrun.
  exact (list_addresses_rows E s s' claims uid rows Hid Hrun).
Qed.

(** X27. Saving and listing compose: an address a user has just saved,
    with a token whose id is an integer, is in that user's listing while
    the table holds no more than ten addresses. The save touches nothing
    but the address table, stores the empty string for each omitted field,
    and gives the row an id larger than every one in use. *)
Theorem saved_address_is_listed (E : Externals) (s s' s'' : Site)
    (t0 now t0' : string) (req req' : Request) (b : Value)
    (claims uid : Value) (z : Z) (rows : list AddressRow) :
  verifyAuthHeader E t0 req = inr claims ->
  get claims "id" = Ok uid ->
  Sqlite.int_of_bound (sqlite_int_of_text E)
    (Sqlite.bind_param uid) = Some (Some z) ->
  post_api_address E s t0 now req = (s', Json 200 b) ->
  verifyAuthHeader E t0' req' = inr claims ->
  (length (addresses s) < 10)%nat ->
  get_api_address E s' t0' req' = Some (s'', inr rows) ->
  exists a,
    addresses s' = (addresses s ++ [a])%list
    /\ core s' = core s
    /\ In a rows
    /\ ad_created_at a = Some now
    /\ (forall a0, In a0 (addresses s) -> ad_id a0 < ad_id a)
    /\ (forall k v, In k ["name"; "line"; "landmark"; "pin"; "city"] ->
          get (body req) k = Ok v -> truthy v = false ->
          (assoc k [("name", ad_name a); ("line", ad_line a);
                    ("landmark", ad_landmark a); ("pin", ad_pin a);
                    ("city", ad_city a)]) = Some (Some "")).
Proof.
  intros Hauth Hid Hz Hrun Hauth' Hlen Hlist.
  unfold post_api_address in Hrun.
  apply protected_200_any in Hrun. destruct Hrun as (claims1 & Hauth1 & Hrole & Hrun).
  assert (claims1 = claims) by congruence. subst claims1.
  apply save_address_200 in Hrun.
  destruct Hrun as (name & line & landmark & pin & city & user_id
                    & Hname & Hline & Hlandmark & Hpin & Hcity & Hid1 & _ & ->).
  assert (user_id = uid) by congruence. subst user_id.
  eexists. split; [reflexivity|]. split; [reflexivity|].
  split.
  { unfold get_api_address in Hlist.
    rewrite (protected_pass E _ _ _ _ _ _ Hauth' Hrole) in Hlist.
    destruct (list_addresses_rows E _ s'' claims uid rows Hid Hlist)
      as (_ & _ & _ & _ & Hall).
    apply Hall.
    - cbn [addresses]. rewrite length_app. simpl. lia.
    - cbn [addresses]. apply in_or_app. right. left. reflexivity.
    - cbn [ad_user_id]. exact (user_id_eq_same E _ z Hz). }
  split; [reflexivity|].
  split.
  { intros a0 Ha0. cbn [ad_id]. apply next_id_fresh, in_map, Ha0. }
  intros k v Hk Hget Tv. simpl in Hk.
  assert (forall x, x = v -> Sqlite.text_of_bound (sqlite_text_of_number E)
            (Sqlite.bind_param (or_else x (JStr ""))) = Some "")
    as Hempty.
  { intros x ->. unfold or_else. rewrite Tv. reflexivity. }
  destruct Hk as [<-|[<-|[<-|[<-|[<-|[]]]]]]; cbn; f_equal; apply Hempty; congruence.
Qed.

(** Asha saves an address without a name and lists her addresses. *)
Lemma saved_address_is_listed_witness :
  let body := JObj [("line", JStr "12 MG Road"); ("city", JStr "Delhi")] in
  let run := post_api_address Reference.externals Sample2.site Sample.t1 Sample.t2
               (Sample2.user_request Sample.asha body) in
  exists a rows,
    addresses (fst run) = [a]
    /\ get_api_address Reference.externals (fst run) Sample.t2
         (Sample2.user_request Sample.asha (JObj []))
       = Some (fst run, inr rows)
    /\ In a rows
    /\ ad_name a = Some "".
Proof.
  intros body run.
  assert (exists rows,
            get_api_address Reference.externals (fst run) Sample.t2
              (Sample2.user_request Sample.asha (JObj []))
            = Some (fst run, inr rows)) as [rows Hlist].
  { eexists. vm_compute. reflexivity. }
  destruct (saved_address_is_listed Reference.externals Sample2.site (fst run)
              (fst run) Sample.t1 Sample.t2 Sample.t2
              (Sample2.user_request Sample.asha body)
              (Sample2.user_request Sample.asha (JObj []))
              (JObj [("ok", JBool true)])
              (Sample.user_token_claims Sample.asha) (js_of_int 1) 1 rows
              eq_refl eq_refl eq_refl eq_refl eq_refl ltac:(simpl; lia) Hlist)
    as (a & Ha & _ & Hin & _ & _ & Hdefault).
  exists a, rows. split; [exact Ha|]. split; [exact Hlist|]. split; [exact Hin|].
  specialize (Hdefault "name" JUndefined (or_introl eq_refl) eq_refl eq_refl).
  injection Hdefault as Hdefault. exact Hdefault.
Defined.

(** Asha's listing after the save: her one address, out of a table of one. *)
Lemma address_listing_own_latest_ten_witness :
  let body := JObj [("line", JStr "12 MG Road"); ("city", JStr "Delhi")] in
  let s := fst (post_api_address Reference.externals Sample2.site Sample.t1 Sample.t2
                  (Sample2.user_request Sample.asha body)) in
  exists rows,
    get_api_address Reference.externals s Sample.t2
      (Sample2.user_request Sample.asha (JObj []))
    = Some (s, inr rows)
    /\ (length rows <= 10)%nat
    /\ forall a, In a rows -> In a (addresses s).
Proof.
  intros body s.
  assert (exists rows,
            get_api_address Reference.externals s Sample.t2
              (Sample2.user_request Sample.asha (JObj []))
            = Some (s, inr rows)) as [rows Hlist].
  { eexists. vm_compute. reflexivity. }
  destruct (address_listing_own_latest_ten Reference.externals s s Sample.t2
              (Sample2.user_request Sample.asha (JObj []))
              (Sample.user_token_claims Sample.asha) (js_of_int 1) rows
              eq_refl eq_refl eq_refl Hlist)
    as (_ & Hlen & Hin & _).
  exists rows. split; [exact Hlist|]. split; [exact Hlen|].
  intros a Ha. exact (proj1 (Hin a Ha)).
Defined.

(** ** [initDb] *)

Section InitDb.

Variable E : Externals.
Variable hashf : string -> string -> string.

Let by_email (email : string) (a : AdminRow) : bool :=
  Sqlite.text_col_eq (sqlite_text_of_number E) (a_email a)
    (Sqlite.bind_param (JStr email)).

Lemma find_app_found {A} (f : A -> bool) (l l' : list A) (x : A) :
  find f l = Some x -> find f (l ++ l') = Some x.
Proof.
  induction l as [|y l IH]; simpl; [discriminate|].
  destruct (f y); [trivial | exact IH].
Qed.

Lemma seed_admin_present (s : Site) (email pass name city now salt : string) (a : AdminRow) :
  find (by_email email) (admins (core s)) = Some a ->
  seed_admin E hashf s email pass name city now salt = s.
Proof.
  unfold seed_admin, by_email. intros ->. reflexivity.
Qed.

Lemma seed_admin_absent (s : Site) (email pass name city now salt : string) :
  find (by_email email) (admins (core s)) = None ->
  let row := {| a_id := next_id (seq_admins s) (map a_id (admins (core s)));
                a_email := Some email;
                a_password_hash := Some (hashf pass salt);
                a_name := Some name; a_city := Some city;
                a_created_at := Some now |} in
  seed_admin E hashf s email pass name city now salt
  = {| core := with_admins (core s) (admins (core s) ++ [row]);
       addresses := addresses s; seq_users := seq_users s;
       seq_admins := a_id row; seq_addresses := seq_addresses s |}
  /\ find (by_email email) (admins (core s) ++ [row]) = Some row.
Proof.
  unfold seed_admin, by_email. intros Hnone. rewrite Hnone. cbn zeta.
  split; [reflexivity|].
  rewrite (find_app_last _ _ _ Hnone). cbn [a_email].
  assert (Sqlite.text_col_eq (sqlite_text_of_number E) (Some email)
            (Sqlite.bind_param (JStr email)) = true) as ->
    by (apply (text_col_eq_stored _ (BText email)); discriminate).
  reflexivity.
Qed.

Lemma seed_admin_found (s : Site) (email pass name city now salt : string) :
  exists a,
    find (by_email email)
         (admins (core (seed_admin E hashf s email pass name city now salt))) = Some a.
Proof.
  destruct (find (by_email email) (admins (core s))) as [a|] eqn:Hfind.
  - exists a. rewrite (seed_admin_present _ _ _ _ _ _ _ _ Hfind). exact Hfind.
  - destruct (seed_admin_absent s email pass name city now salt Hfind) as [-> Hrow].
    eexists. exact Hrow.
Qed.

Lemma seed_admin_grows (s : Site) (email pass name city now salt : string) :
  exists new,
    admins (core (seed_admin E hashf s email pass name city now salt))
    = (admins (core s) ++ new)%list
    /\ (length new <= 1)%nat
    /\ users (core (seed_admin E hashf s email pass name city now salt)) = users (core s)
    /\ menu (core (seed_admin E hashf s email pass name city now salt)) = menu (core s)
    /\ notifications (core (seed_admin E hashf s email pass name city now salt))
       = notifications (core s)
    /\ orders (core (seed_admin E hashf s email pass name city now salt)) = orders (core s)
    /\ addresses (seed_admin E hashf s email pass name city now salt) = addresses s.
Proof.
  unfold seed_admin.
  destruct (find _ (admins (core s))).
  - exists []. rewrite app_nil_r. simpl. repeat split; lia.
  - eexists [_]. simpl. repeat split; lia.
Qed.

Lemma seed_menu_admins (s : Site) (now : string) :
  admins (core (seed_menu s now)) = admins (core s).
Proof.
  unfold seed_menu. destruct (menu (core s)); reflexivity.
Qed.

Lemma seed_menu_nonempty (s : Site) (now : string) :
  menu (core (seed_menu s now)) <> [].
Proof.
  unfold seed_menu. destruct (menu (core s)) eqn:Hm.
  - cbn. unfold sample_menu. discriminate.
  - rewrite Hm. discriminate.
Qed.

Lemma seed_menu_present (s : Site) (now : string) :
  menu (core s) <> [] -> seed_menu s now = s.
Proof.
  unfold seed_menu. destruct (menu (core s)); [congruence | reflexivity].
Qed.

End InitDb.

(** X28. [initDb] is idempotent: run on a database it has already
    initialised, whatever the clock and the salts, it changes nothing. A
    restart of the server therefore neither duplicates the default
    administrators nor re-inserts the sample menu or the welcome
    notification. *)
Theorem initDb_idempotent (E : Externals) (hashf : string -> string -> string)
    (s : Site) (now1 now2 now3 salt1 salt2 now1' now2' now3' salt1' salt2' : string) :
  initDb E hashf (initDb E hashf s now1 now2 now3 salt1 salt2)
         now1' now2' now3' salt1' salt2'
  = initDb E hashf s now1 now2 now3 salt1 salt2.
Proof.
  unfold initDb at 1. cbn zeta.
  set (r := initDb E hashf s now1 now2 now3 salt1 salt2).
  assert (admins (core r)
          = admins (core (seed_admin E hashf
                      (seed_admin E hashf s "admin@mummatiffin.com" "admin123"
                         "Super Admin" "All" now1 salt1)
                      "manager@mummatiffin.com" "manager123" "City Manager" "Delhi"
                      now2 salt2))) as Hadmins.
  { unfold r, initDb. cbn zeta. apply seed_menu_admins. }
  destruct (seed_admin_found E hashf s "admin@mummatiffin.com" "admin123"
              "Super Admin" "All" now1 salt1) as [a1 H1].
  destruct (seed_admin_grows E hashf
              (seed_admin E hashf s "admin@mummatiffin.com" "admin123"
                 "Super Admin" "All" now1 salt1)
              "manager@mummatiffin.com" "manager123" "City Manager" "Delhi"
              now2 salt2) as (new & Hgrow & _).
  destruct (seed_admin_found E hashf
              (seed_admin E hashf s "admin@mummatiffin.com" "admin123"
                 "Super Admin" "All" now1 salt1)
              "manager@mummatiffin.com" "manager123" "City Manager" "Delhi"
              now2 salt2) as [a2 H2].
  rewrite (seed_admin_present E hashf r "admin@mummatiffin.com" _ _ _ _ _ a1).
  2:{ rewrite Hadmins, Hgrow. apply find_app_found. exact H1. }
  rewrite (seed_admin_present E hashf r "manager@mummatiffin.com" _ _ _ _ _ a2).
  2:{ rewrite Hadmins. exact H2. }
  apply seed_menu_present. unfold r, initDb. cbn zeta. apply seed_menu_nonempty.
Qed.

(** X29. The default credentials work after [initDb]: on a database
    holding no administrator under [admin@mummatiffin.com], [initDb]
    creates one with the password [admin123], and a login with that pair
    then succeeds as [Super Admin] of city [All], when [bcrypt.compare]
    accepts a password against the hash [bcrypt.hash] made of it. *)
Theorem default_admin_can_log_in (E : Externals) (hashf : string -> string -> string)
    (s : Site) (now1 now2 now3 salt1 salt2 now : string) (req : Request) :
  find (fun a => Sqlite.text_col_eq (sqlite_text_of_number E) (a_email a)
                   (Sqlite.bind_param
                      (JStr "admin@mummatiffin.com")))
       (admins (core s)) = None ->
  bcrypt_check E "admin123" (hashf "admin123" salt1) = true ->
  get (body req) "email" = Ok (JStr "admin@mummatiffin.com") ->
  get (body req) "password" = Ok (JStr "admin123") ->
  post_api_admin_login E (core (initDb E hashf s now1 now2 now3 salt1 salt2)) now req
  = (core (initDb E hashf s now1 now2 now3 salt1 salt2),
     let id := js_of_int (next_id (seq_admins s) (map a_id (admins (core s)))) in
     Json 200 (JObj [
       ("admin", JObj [("id", id); ("email", JStr "admin@mummatiffin.com");
                       ("name", JStr "Super Admin"); ("city", JStr "All")]);
       ("token", JStr (signToken E
                         (JObj [("id", id); ("email", JStr "admin@mummatiffin.com");
                                ("role", JStr "admin")]) now))])).
Proof.
  intros Hnone Hcheck Hemail Hpw.
  destruct (seed_admin_absent E hashf s "admin@mummatiffin.com" "admin123"
              "Super Admin" "All" now1 salt1 Hnone) as [Hs1 Hrow].
  destruct (seed_admin_grows E hashf
              (seed_admin E hashf s "admin@mummatiffin.com" "admin123"
                 "Super Admin" "All" now1 salt1)
              "manager@mummatiffin.com" "manager123" "City Manager" "Delhi"
              now2 salt2) as (new & Hgrow & _).
  cbn zeta in Hs1, Hrow.
  match type of Hrow with
  | find _ ?l = Some _ =>
      assert (admins (core (initDb E hashf s now1 now2 now3 salt1 salt2))
              = (l ++ new)%list) as Hadmins
  end.
  { unfold initDb. cbn zeta. rewrite seed_menu_admins, Hgrow, Hs1. reflexivity. }
  unfold post_api_admin_login. rewrite Hemail, Hpw. cbn [bind].
  rewrite Hadmins, (find_app_found _ _ new _ Hrow).
  unfold bcrypt_compare. cbn [a_password_hash]. rewrite Hcheck. reflexivity.
Qed.

(** On an empty database. *)
Lemma default_admin_can_log_in_witness :
  exists b,
    post_api_admin_login Reference.externals
      (core (initDb Reference.externals Sample2.hash Sample2.empty_site
               Sample.t0 Sample.t0 Sample.t0 "salt1" "salt2"))
      Sample.t1
      (Sample.request None JUndefined ""
         (JObj [("email", JStr "admin@mummatiffin.com");
                ("password", JStr "admin123")]))
    = (core (initDb Reference.externals Sample2.hash Sample2.empty_site
               Sample.t0 Sample.t0 Sample.t0 "salt1" "salt2"),
       Json 200 b).
Proof.
  eexists.
  exact (default_admin_can_log_in Reference.externals Sample2.hash Sample2.empty_site
           Sample.t0 Sample.t0 Sample.t0 "salt1" "salt2" Sample.t1
           (Sample.request None JUndefined ""
              (JObj [("email", JStr "admin@mummatiffin.com");
                     ("password", JStr "admin123")]))
           eq_refl eq_refl eq_refl eq_refl).
Defined.

Lemma seed_menu_frame (s : Site) (now : string) :
  users (core (seed_menu s now)) = users (core s)
  /\ orders (core (seed_menu s now)) = orders (core s)
  /\ addresses (seed_menu s now) = addresses s.
Proof.
  unfold seed_menu. destruct (menu (core s)); repeat split.
Qed.

Lemma seed_menu_empty (s : Site) (now : string) :
  menu (core s) = [] ->
  menu (core (seed_menu s now)) = sample_menu
  /\ exists n,
       notifications (core (seed_menu s now)) = (notifications (core s) ++ [n])%list
       /\ n_created_at n = now
       /\ n_target_city n = BText "All".
Proof.
  unfold seed_menu. intros ->. split; [reflexivity|].
  eexists. repeat split.
Qed.

(** X30. [initDb] never touches what is there: users, orders and
    addresses are left as they were, the administrators already stored
    stay in place (with their password hashes) and at most two are added
    after them, and a menu that is not empty is left alone together with
    the notifications. Only an empty menu is replaced, by the four sample
    items, with one welcome notification for city [All] appended. *)
Theorem initDb_keeps_existing_data (E : Externals) (hashf : string -> string -> string)
    (s : Site) (now1 now2 now3 salt1 salt2 : string) :
  users (core (initDb E hashf s now1 now2 now3 salt1 salt2)) = users (core s)
  /\ orders (core (initDb E hashf s now1 now2 now3 salt1 salt2)) = orders (core s)
  /\ addresses (initDb E hashf s now1 now2 now3 salt1 salt2) = addresses s
  /\ (exists new,
        admins (core (initDb E hashf s now1 now2 now3 salt1 salt2))
        = (admins (core s) ++ new)%list
        /\ (length new <= 2)%nat)
  /\ (menu (core s) <> [] ->
      menu (core (initDb E hashf s now1 now2 now3 salt1 salt2)) = menu (core s)
      /\ notifications (core (initDb E hashf s now1 now2 now3 salt1 salt2))
         = notifications (core s))
  /\ (menu (core s) = [] ->
      map m_id (menu (core (initDb E hashf s now1 now2 now3 salt1 salt2)))
      = [Some "b1"; Some "b2"; Some "l1"; Some "d1"]
      /\ exists n,
           notifications (core (initDb E hashf s now1 now2 now3 salt1 salt2))
           = (notifications (core s) ++ [n])%list
           /\ n_created_at n = now3
           /\ n_target_city n = BText "All").
Proof.
  unfold initDb. cbn zeta.
  destruct (seed_admin_grows E hashf s "admin@mummatiffin.com" "admin123"
              "Super Admin" "All" now1 salt1)
    as (new1 & Ha1 & Hl1 & Hu1 & Hm1 & Hn1 & Ho1 & Had1).
  set (s1 := seed_admin E hashf s "admin@mummatiffin.com" "admin123"
               "Super Admin" "All" now1 salt1) in *.
  destruct (seed_admin_grows E hashf s1 "manager@mummatiffin.com" "manager123"
              "City Manager" "Delhi" now2 salt2)
    as (new2 & Ha2 & Hl2 & Hu2 & Hm2 & Hn2 & Ho2 & Had2).
  set (s2 := seed_admin E hashf s1 "manager@mummatiffin.com" "manager123"
               "City Manager" "Delhi" now2 salt2) in *.
  rewrite Hu1 in Hu2. rewrite Hm1 in Hm2. rewrite Hn1 in Hn2. rewrite Ho1 in Ho2.
  rewrite Had1 in Had2. rewrite Ha1, <- app_assoc in Ha2.
  destruct (seed_menu_frame s2 now3) as (Hu3 & Ho3 & Had3).
  split; [congruence|]. split; [congruence|]. split; [congruence|].
  split.
  { exists (new1 ++ new2)%list. rewrite seed_menu_admins. split; [exact Ha2|].
    rewrite length_app. lia. }
  split.
  - intros Hmenu. rewrite <- Hm2 in Hmenu.
    rewrite (seed_menu_present s2 now3 Hmenu). split; assumption.
  - intros Hmenu. rewrite <- Hm2 in Hmenu.
    destruct (seed_menu_empty s2 now3 Hmenu) as (-> & n & Hn & Hat & Hcity).
    split; [reflexivity|].
    exists n. rewrite Hn, Hn2. repeat split; assumption.
Qed.
